(** * Milo price tracker: extraction, consolidation and cache

    A shallow embedding of [multi_platform_scraper.py] and
    [complete_backend.py], with the properties of the specification stated
    and settled against it.

    Conventions of the embedding.
    - Python [str] values are [string]s of 8-bit characters; [lower] and the
      digit class of the regular expression act on the ASCII range.
    - Python [float] prices are exact rationals ([Q]); a parsed decimal has
      its exact decimal value and [round] is rounding of that exact value.
      Binary representation error and overflow to [inf] are outside the
      model.
    - Python [dict]s whose iteration order is observable are association
      lists in insertion order.
    - The rendered page (BeautifulSoup) is the external collaborator: a
      container is the record of what each selector query answers on it. *)

From Stdlib Require Import Bool Arith ZArith QArith Qround Lia List String Ascii.
From Stdlib Require Import Permutation Sorted.
Import ListNotations.

Open Scope string_scope.

(* ================================================================== *)
(** ** Python string primitives *)

Module PyStr.

Definition is_digit (c : ascii) : bool :=
  let n := nat_of_ascii c in (48 <=? n)%nat && (n <=? 57)%nat.

Definition is_upper (c : ascii) : bool :=
  let n := nat_of_ascii c in (65 <=? n)%nat && (n <=? 90)%nat.

Definition lower_char (c : ascii) : ascii :=
  if is_upper c then ascii_of_nat (nat_of_ascii c + 32) else c.

(** [s.lower()] *)
Fixpoint lower (s : string) : string :=
  match s with
  | EmptyString => EmptyString
  | String c s' => String (lower_char c) (lower s')
  end.

(** [s.replace(c, '')] for a one-character [c] *)
Fixpoint remove_char (c : ascii) (s : string) : string :=
  match s with
  | EmptyString => EmptyString
  | String d s' =>
      if Ascii.eqb d c then remove_char c s' else String d (remove_char c s')
  end.

(** [s.startswith(w)] *)
Fixpoint startswith (w s : string) : bool :=
  match w, s with
  | EmptyString, _ => true
  | String _ _, EmptyString => false
  | String a w', String b s' => Ascii.eqb a b && startswith w' s'
  end.

(** [w in s] on strings: [w] occurs in [s] as a contiguous substring *)
Fixpoint contains (w s : string) : bool :=
  startswith w s ||
  match s with
  | EmptyString => false
  | String _ s' => contains w s'
  end.

(** [s[:n]] for [n >= 0] *)
Fixpoint slice_to (n : nat) (s : string) : string :=
  match n, s with
  | O, _ => EmptyString
  | S _, EmptyString => EmptyString
  | S n', String c s' => String c (slice_to n' s')
  end.

(** [any(word in s for word in words)] *)
Definition any_in (words : list string) (s : string) : bool :=
  existsb (fun word => contains word s) words.

(** The mathematical reading of [w in s]. *)
Definition substring_of (w s : string) : Prop :=
  exists pre post, s = pre ++ w ++ post.

(** Truthiness of a [str]. *)
Definition nonempty (s : string) : bool :=
  match s with EmptyString => false | String _ _ => true end.

Definition chars (s : string) : list ascii := list_ascii_of_string s.

End PyStr.

(* ================================================================== *)
(** ** Python values shared by both modules *)

Module Py.

(** [a or b] on lists: the first operand unless it is empty. *)
Definition or_list {A} (a b : list A) : list A :=
  match a with [] => b | _ :: _ => a end.

(** [a or b] on values that are [None] or an object that is always truthy. *)
Definition or_opt {A} (a b : option A) : option A :=
  match a with Some _ => a | None => b end.

(** [l[:m]] for an arbitrary integer [m]: a negative bound counts from the
    end of the list. *)
Definition slice_to {A} (m : Z) (l : list A) : list A :=
  if (0 <=? m)%Z then firstn (Z.to_nat m) l
  else firstn (Z.to_nat (Z.of_nat (List.length l) + m)) l.

Fixpoint filter_map {A B} (f : A -> option B) (l : list A) : list B :=
  match l with
  | [] => []
  | x :: l' =>
      match f x with
      | Some y => y :: filter_map f l'
      | None => filter_map f l'
      end
  end.

(** [a < b] and [a >= b] on floats. *)
Definition ltb (a b : Q) : bool := negb (Qle_bool b a).
Definition geb (a b : Q) : bool := Qle_bool b a.

(** Round to the nearest integer, ties to the even one. *)
Definition round_half_even (x : Q) : Z :=
  let f := Qfloor x in
  match Qcompare (x - inject_Z f) (1 # 2) with
  | Lt => f
  | Gt => (f + 1)%Z
  | Eq => if Z.even f then f else (f + 1)%Z
  end.

(** [round(x, ndigits)] *)
Definition round (x : Q) (ndigits : nat) : Q :=
  let scale := (10 ^ Z.of_nat ndigits)%Z in
  Qred (Qmake (round_half_even (x * inject_Z scale)) (Z.to_pos scale)).

(** An exception object; only its message is observed ([str(e)]). *)
Inductive exn : Type := Exception (msg : string).

(** A computation that returns or raises. *)
Definition result (A : Type) : Type := (exn + A)%type.

(** [x / y] on floats: raises [ZeroDivisionError] on a zero divisor. *)
Definition div (x y : Q) : result Q :=
  if Qeq_bool y 0 then inl (Exception "float division by zero")
  else inr (x / y)%Q.

(** An insertion-ordered [dict] with string keys. *)
Definition dict (V : Type) : Type := list (string * V).

Fixpoint dict_get {V} (k : string) (d : dict V) : option V :=
  match d with
  | [] => None
  | (k', v) :: d' => if String.eqb k k' then Some v else dict_get k d'
  end.

(** [d[k] = v]: overwrite in place, or append a new key at the end. *)
Fixpoint dict_set {V} (k : string) (v : V) (d : dict V) : dict V :=
  match d with
  | [] => [(k, v)]
  | (k', v') :: d' =>
      if String.eqb k k' then (k', v) :: d' else (k', v') :: dict_set k v d'
  end.

Definition dict_mem {V} (k : string) (d : dict V) : bool :=
  match dict_get k d with Some _ => true | None => false end.

Definition keys {V} (d : dict V) : list string := map fst d.
Definition values {V} (d : dict V) : list V := map snd d.

(** Stable insertion sort by a float key: [sorted(l, key=key)]. *)
Fixpoint insert_by {A} (key : A -> Q) (x : A) (l : list A) : list A :=
  match l with
  | [] => [x]
  | y :: l' => if ltb (key y) (key x) then y :: insert_by key x l' else x :: l
  end.

Definition sorted {A} (key : A -> Q) (l : list A) : list A :=
  fold_right (fun x acc => insert_by key x acc) [] l.

(** [l.sort(key=key, reverse=True)]: descending, equal keys keep their
    original relative order. *)
Fixpoint insert_by_desc {A} (key : A -> Q) (x : A) (l : list A) : list A :=
  match l with
  | [] => [x]
  | y :: l' => if ltb (key x) (key y) then y :: insert_by_desc key x l' else x :: l
  end.

Definition sorted_reverse {A} (key : A -> Q) (l : list A) : list A :=
  fold_right (fun x acc => insert_by_desc key x acc) [] l.

End Py.

(* ================================================================== *)
(** ** Records exchanged between the scrapers and the backend *)

(** A scraped product: the [dict] every scraper appends to [products].
    The three keys that only the Shopee and Lazada scrapers write are
    optional; [flash_sale_end] may be present with the value [None]. *)
Module Product.
Record t : Type := Build {
  name : string;
  type : string;
  price : Q;
  original_price : Q;
  flash_sale : bool;
  flash_sale_type : option string;
  flash_sale_end : option (option string);
  discount_percent : option Q;
  url : string;
  platform : string;
  scraped_at : string
}.
End Product.

(** The rendered page as BeautifulSoup presents it. *)
Module Dom.

(** The CSS selectors the scrapers use. *)
Inductive Selector : Type :=
| attr_eq (tag attr val : string)   (* tag[attr="val"] *)
| cls (tag c : string)              (* tag.c *)
| cls_has (tag part : string)       (* tag[class*="part"], tag may be empty *)
| tag (t : string)                  (* t *)
| has_attr (attr : string).         (* [attr] *)

(** An element found inside a container. *)
Record Tag : Type := {
  get_text : string;              (* elem.get_text() *)
  get_text_strip : string;        (* elem.get_text(strip=True) *)
  attrs : Py.dict string
}.

(** A candidate product container: what each query on it answers. *)
Record Container : Type := {
  text : string;                          (* container.get_text() *)
  select : Selector -> list Tag;          (* container.select(sel) *)
  find_text_milo : option string          (* container.find(text=re.compile(r'milo', re.IGNORECASE)) *)
}.

Definition select_one (c : Container) (sel : Selector) : option Tag :=
  hd_error (select c sel).

(** [elem.get(attr)] *)
Definition get (e : Tag) (attr : string) : option string :=
  Py.dict_get attr (attrs e).

(** The parsed document. *)
Record Soup : Type := {
  soup_select : Selector -> list Container
}.

(** One run of the headless browser against a search URL: starting the
    browser and opening a page may raise (outside the scraper's [try]);
    loading and reading the page may raise (inside it); closing the
    browser in the [finally] block may raise. [clock] is what
    [datetime.now().isoformat()] reads during the run. *)
Record Browser : Type := {
  launch : option Py.exn;
  page : Py.result Soup;
  close : option Py.exn;
  clock : string
}.

End Dom.

(* ================================================================== *)
(** ** multi_platform_scraper.py *)

Module Scraper.
Import PyStr Dom.

Record BaseScraper : Type := {
  platform : string;
  base_url : string;
  search_url : string
}.

(** *** [BaseScraper._categorize_milo_product] *)

Definition uht_words : list string := ["uht"; "packet"; "200ml"; "tetra"].
Definition powder_words : list string :=
  ["powder"; "tin"; "refill"; "kg"; "sachet"; "gao"].
Definition bottle_words : list string := ["bottle"; "1l"; "1.5l"; "pet"; "drink"].

Definition _categorize_milo_product (name : string) : string :=
  let name_lower := lower name in
  if any_in uht_words name_lower then "uht"
  else if any_in powder_words name_lower then "powder"
  else if any_in bottle_words name_lower then "bottle"
  else "other".

(** *** [BaseScraper._extract_price] *)

(** The longest prefix of digits, and what follows it. *)
Fixpoint span_digits (s : string) : string * string :=
  match s with
  | EmptyString => (EmptyString, EmptyString)
  | String c s' =>
      if is_digit c then
        let (ds, rest) := span_digits s' in (String c ds, rest)
      else (EmptyString, s)
  end.

(** What the pattern [\d+\.?\d*] matches when the match starts at the head
    of [s], which starts with a digit: greedy digits, an optional dot,
    greedy digits. *)
Definition match_decimal_here (s : string) : string :=
  let (ds, rest) := span_digits s in
  match rest with
  | String "." rest' => let (fs, _) := span_digits rest' in ds ++ "." ++ fs
  | _ => ds
  end.

(** [re.search] with the pattern above: group 1 of the leftmost match. *)
Fixpoint re_search_decimal (s : string) : option string :=
  match s with
  | EmptyString => None
  | String c s' =>
      if is_digit c then Some (match_decimal_here s) else re_search_decimal s'
  end.

Definition digit_value (c : ascii) : Z := Z.of_nat (nat_of_ascii c - 48).

(** The integer a string of digits denotes, continuing from [acc]. *)
Fixpoint digits_value (acc : Z) (s : string) : Z :=
  match s with
  | EmptyString => acc
  | String c s' => digits_value (10 * acc + digit_value c)%Z s'
  end.

(** [float(m)] for a matched [m] of the shape [ddd] or [ddd.ddd]. *)
Definition float_of_match (m : string) : Q :=
  let (ds, rest) := span_digits m in
  match rest with
  | String "." fs =>
      Qred (Qmake (digits_value (digits_value 0 ds) fs)
                  (Z.to_pos (10 ^ Z.of_nat (String.length fs))))
  | _ => inject_Z (digits_value 0 ds)
  end.

(** [text.replace(',', '').replace('$', '').replace('S', '')] *)
Definition strip_price_text (text : string) : string :=
  remove_char "S" (remove_char "$" (remove_char "," text)).

(** [text] is [None] when absent. *)
Definition _extract_price (text : option string) : Q :=
  match text with
  | None => 0
  | Some EmptyString => 0
  | Some text =>
      let price_text := strip_price_text text in
      match re_search_decimal price_text with
      | Some group1 => float_of_match group1
      | None => 0
      end
  end.

(** *** Fields shared by the five [scrape] methods *)

(** The link of a product: [base_url + href] unless [href] is absolute. *)
Definition product_url_of (self : BaseScraper) (link_elem : option Tag) : string :=
  match link_elem with
  | Some a =>
      match get a "href" with
      | Some href =>
          if nonempty href then
            if negb (startswith "http" href) then base_url self ++ href else href
          else ""
      | None => ""
      end
  | None => ""
  end.

(** [self._extract_price(elem.get_text() if elem else "0")] *)
Definition price_of (price_elem : option Tag) : Q :=
  _extract_price (Some (match price_elem with
                        | Some e => get_text e
                        | None => "0"
                        end)).

(** [self._extract_price(elem.get_text() if elem else str(price))].
    Without an element the price is printed and parsed again, which gives
    the price back: [str] of a float in [[1e-4, 1e16)], or of [0.0], is its
    shortest positional decimal. *)
Definition original_price_of (original_price_elem : option Tag) (price : Q) : Q :=
  match original_price_elem with
  | Some e => _extract_price (Some (get_text e))
  | None => price
  end.

(** The first selector of a chain [a or b or c] that finds an element. *)
Fixpoint first_match (c : Container) (chain : list Selector) : option Tag :=
  match chain with
  | [] => None
  | sel :: chain' => Py.or_opt (select_one c sel) (first_match c chain')
  end.

(** [sel1 or sel2 or sel3[:max_products]] on the document. *)
Definition find_containers (soup : Soup) (s1 s2 s3 : Selector) (max_products : Z)
  : list Container :=
  Py.or_list (soup_select soup s1)
    (Py.or_list (soup_select soup s2) (Py.slice_to max_products (soup_select soup s3))).

(** The body shared by every [scrape]: [extract] is the loop body, which
    answers [None] where the source executes [continue]. An exception
    while the page loads is printed and leaves [products] empty; one
    raised outside the [try], or by [browser.close()], propagates. *)
Definition scrape_page (extract : string -> Container -> option Product.t)
    (s1 s2 s3 : Selector) (b : Browser) (max_products : Z)
  : Py.result (list Product.t) :=
  match launch b with
  | Some e => inl e
  | None =>
      let products :=
        match page b with
        | inl _ => []
        | inr soup =>
            let containers := find_containers soup s1 s2 s3 max_products in
            Py.filter_map (extract (clock b)) (Py.slice_to max_products containers)
        end in
      match close b with
      | Some e => inl e
      | None => inr products
      end
  end.

(** *** FairPrice, Sheng Siong and Giant

    The three loop bodies are the same text up to the selector chains for
    the name and the price. *)

Definition simple_product (self : BaseScraper) (name_chain price_chain : list Selector)
    (now : string) (container : Container) : option Product.t :=
  match first_match container name_chain with
  | None => None
  | Some name_elem =>
      let name := get_text_strip name_elem in
      let price := price_of (first_match container price_chain) in
      let original_price :=
        original_price_of (select_one container (cls_has "" "original")) price in
      let product_url := product_url_of self (select_one container (tag "a")) in
      Some {| Product.name := name;
              Product.type := _categorize_milo_product name;
              Product.price := price;
              Product.original_price :=
                if Py.ltb 0 original_price then original_price else price;
              Product.flash_sale := Py.ltb price original_price && Py.ltb 0 price;
              Product.flash_sale_type := None;
              Product.flash_sale_end := None;
              Product.discount_percent := None;
              Product.url := product_url;
              Product.platform := platform self;
              Product.scraped_at := now |}
  end.

Module FairPriceScraper.
Definition self : BaseScraper :=
  {| platform := "fairprice";
     base_url := "https://www.fairprice.com.sg";
     search_url := "https://www.fairprice.com.sg/search" |}.

Definition extract : string -> Container -> option Product.t :=
  simple_product self
    [attr_eq "div" "data-testid" "product-name"; cls_has "" "product-name"; tag "h3"]
    [attr_eq "span" "data-testid" "product-price"; cls_has "" "price"].

Definition scrape (b : Browser) (headless : bool) (max_products : Z)
  : Py.result (list Product.t) :=
  scrape_page extract
    (attr_eq "div" "data-testid" "product-container")
    (cls "div" "product-container")
    (cls_has "div" "Product") b max_products.
End FairPriceScraper.

Module ShengSiongScraper.
Definition self : BaseScraper :=
  {| platform := "shengsiong";
     base_url := "https://shengsiong.com.sg";
     search_url := "https://shengsiong.com.sg/search" |}.

Definition extract : string -> Container -> option Product.t :=
  simple_product self
    [cls "h3" "product-name"; cls "div" "product-title"; cls_has "" "name"; tag "h3"]
    [cls "span" "price"; cls_has "" "price"].

Definition scrape (b : Browser) (headless : bool) (max_products : Z)
  : Py.result (list Product.t) :=
  scrape_page extract
    (cls "div" "product-item")
    (cls_has "div" "product-card")
    (cls_has "div" "Product") b max_products.
End ShengSiongScraper.

Module GiantScraper.
Definition self : BaseScraper :=
  {| platform := "giant";
     base_url := "https://giant.sg";
     search_url := "https://giant.sg/search" |}.

Definition extract : string -> Container -> option Product.t :=
  simple_product self
    [cls "h3" "product-name"; cls "div" "product-title"; cls_has "" "name"; tag "h3"]
    [cls "span" "price"; cls_has "" "price"].

Definition scrape (b : Browser) (headless : bool) (max_products : Z)
  : Py.result (list Product.t) :=
  scrape_page extract
    (cls "div" "product-tile")
    (cls_has "div" "product-item")
    (cls_has "div" "Product") b max_products.
End GiantScraper.

(** *** Promotion detection *)

Record FlashInfo : Type := {
  is_flash_sale : bool;
  sale_type : string;
  ends_at : option string
}.

Definition set_sale (f : FlashInfo) (kind : string) : FlashInfo :=
  {| is_flash_sale := true; sale_type := kind; ends_at := ends_at f |}.

(** The countdown check, the same text in both detectors. *)
Definition check_timer (container : Container) (flash_info : FlashInfo) : FlashInfo :=
  let timer_elem :=
    first_match container
      [cls_has "" "countdown"; cls_has "" "timer"; cls_has "" "time-left"] in
  match timer_elem with
  | Some timer_elem =>
      let timer_text := get_text_strip timer_elem in
      {| is_flash_sale := true;
         sale_type :=
           if String.eqb (sale_type flash_info) "normal" then "flash_sale"
           else sale_type flash_info;
         ends_at := Some (if nonempty timer_text then timer_text else "Soon") |}
  | None => flash_info
  end.

(** The closing numeric rule, with the platform's threshold. *)
Definition check_discount (threshold : Q) (current_price original_price : Q)
    (flash_info : FlashInfo) : FlashInfo :=
  if negb (is_flash_sale flash_info) && Py.ltb current_price original_price
     && Py.ltb 0 current_price then
    let discount := ((original_price - current_price) / original_price) * 100 in
    if Py.geb discount threshold then set_sale flash_info "discount" else flash_info
  else flash_info.

(** [round(((original_price - price) / original_price) * 100, 1)] when
    [original_price > price > 0], else [0]. *)
Definition discount_percent_of (price original_price : Q) : Q :=
  if Py.ltb price original_price && Py.ltb 0 price then
    Py.round (((original_price - price) / original_price) * 100) 1
  else 0.

Module ShopeeScraper.
Definition self : BaseScraper :=
  {| platform := "shopee";
     base_url := "https://shopee.sg";
     search_url := "https://shopee.sg/search" |}.

Definition flash_indicators : list string :=
  ["flash sale"; "flash deal"; "lightning deal"; "limited time";
   "hourly sale"; "shopee live sale"; "limited offer"].

Definition _detect_shopee_flash_sale (container : Container)
    (current_price original_price : Q) : FlashInfo :=
  let flash_info :=
    {| is_flash_sale := false; sale_type := "normal"; ends_at := None |} in
  let container_text := lower (text container) in
  let flash_info :=
    if any_in flash_indicators container_text
    then set_sale flash_info "flash_sale" else flash_info in
  let flash_badges :=
    Py.or_list (select container (cls_has "" "flash"))
               (select container (cls_has "" "Flash")) in
  let flash_info :=
    match flash_badges with
    | _ :: _ => set_sale flash_info "flash_sale"
    | [] => flash_info
    end in
  let shopee_badges :=
    Py.or_list (select container (cls_has "" "shopee-sale"))
               (select container (cls_has "" "promotion")) in
  let flash_info :=
    match shopee_badges with
    | _ :: _ =>
        if negb (is_flash_sale flash_info)
        then set_sale flash_info "shopee_sale" else flash_info
    | [] => flash_info
    end in
  let flash_info := check_timer container flash_info in
  check_discount 20 current_price original_price flash_info.

Definition _extract_product_with_flash_sale (now : string) (container : Container)
  : option Product.t :=
  let name_elem :=
    match first_match container
            [attr_eq "div" "data-sqe" "name";
             cls "div" "shopee-item-card__text-name";
             cls_has "" "item-name"] with
    | Some e => Some (get_text_strip e)
    | None => find_text_milo container
    end in
  match name_elem with
  | None => None
  | Some name =>
      let price :=
        price_of (first_match container
                    [attr_eq "span" "data-sqe" "price";
                     cls "span" "shopee-item-card__current-price";
                     cls_has "" "current-price"]) in
      let original_price :=
        original_price_of
          (first_match container
             [cls_has "span" "original-price"; tag "del";
              cls_has "" "price-before-discount"]) price in
      let flash_sale_info := _detect_shopee_flash_sale container price original_price in
      let link_elem :=
        first_match container [attr_eq "a" "data-sqe" "link"; tag "a"] in
      let product_url := product_url_of self link_elem in
      let discount_percent := discount_percent_of price original_price in
      Some {| Product.name := name;
              Product.type := _categorize_milo_product name;
              Product.price := price;
              Product.original_price :=
                if Py.ltb 0 original_price then original_price else price;
              Product.flash_sale := is_flash_sale flash_sale_info;
              Product.flash_sale_type := Some (sale_type flash_sale_info);
              Product.flash_sale_end := Some (ends_at flash_sale_info);
              Product.discount_percent := Some discount_percent;
              Product.url := product_url;
              Product.platform := platform self;
              Product.scraped_at := now |}
  end.

Definition scrape (b : Browser) (headless : bool) (max_products : Z)
  : Py.result (list Product.t) :=
  scrape_page _extract_product_with_flash_sale
    (attr_eq "div" "data-sqe" "item")
    (cls "div" "shopee-search-item-result__item")
    (cls_has "div" "item-card") b max_products.
End ShopeeScraper.

Module LazadaScraper.
Definition self : BaseScraper :=
  {| platform := "lazada";
     base_url := "https://www.lazada.sg";
     search_url := "https://www.lazada.sg/catalog" |}.

Definition flash_indicators : list string :=
  ["lazflash"; "flash sale"; "flash deal"; "lightning deal";
   "limited time"; "limited quantity"; "ending soon"; "lazada sale"].

(** One turn of the loop over the stock indicators. *)
Definition check_stock (flash_info : FlashInfo) (indicator : Tag) : FlashInfo :=
  let text := lower (get_text indicator) in
  if any_in ["left"; "remaining"; "limited"] text then
    if negb (is_flash_sale flash_info)
    then set_sale flash_info "limited_stock" else flash_info
  else flash_info.

Definition _detect_lazada_flash_sale (container : Container)
    (current_price original_price : Q) : FlashInfo :=
  let flash_info :=
    {| is_flash_sale := false; sale_type := "normal"; ends_at := None |} in
  let container_text := lower (text container) in
  let flash_info :=
    match find (fun indicator => contains indicator container_text) flash_indicators with
    | Some indicator =>
        if contains "lazflash" indicator || contains "flash" indicator
        then set_sale flash_info "flash_sale"
        else set_sale flash_info "lazada_sale"
    | None => flash_info
    end in
  let flash_badges :=
    Py.or_list (select container (cls_has "" "flash"))
      (Py.or_list (select container (cls_has "" "Flash"))
                  (select container (cls_has "" "LazFlash"))) in
  let flash_info :=
    match flash_badges with
    | _ :: _ => set_sale flash_info "flash_sale"
    | [] => flash_info
    end in
  let sale_tags :=
    Py.or_list (select container (cls_has "" "sale-tag"))
      (Py.or_list (select container (cls_has "" "promotion"))
                  (select container (cls_has "" "badge"))) in
  let flash_info :=
    if negb (is_flash_sale flash_info)
       && existsb (fun tag =>
                     any_in ["flash"; "limited"; "ending"] (lower (get_text tag)))
                  sale_tags
    then set_sale flash_info "flash_sale" else flash_info in
  let flash_info := check_timer container flash_info in
  let stock_indicators :=
    Py.or_list (select container (cls_has "" "stock"))
               (select container (cls_has "" "quantity")) in
  let flash_info := fold_left check_stock stock_indicators flash_info in
  check_discount 15 current_price original_price flash_info.

Definition _extract_product_with_flash_sale (now : string) (container : Container)
  : option Product.t :=
  let name_elem :=
    first_match container
      [attr_eq "div" "data-qa-locator" "product-name"; cls "div" "RfADt";
       has_attr "title"] in
  match name_elem with
  | None => None
  | Some name_elem =>
      let name :=
        match get name_elem "title" with
        | Some title => title
        | None => get_text_strip name_elem
        end in
      let price :=
        price_of (first_match container
                    [attr_eq "span" "data-qa-locator" "product-price";
                     cls "span" "ooOxS"; cls_has "" "price"]) in
      let original_price :=
        original_price_of
          (first_match container
             [cls_has "del" "price"; cls_has "" "original"; tag "del"]) price in
      let flash_sale_info := _detect_lazada_flash_sale container price original_price in
      let link_elem := select_one container (tag "a") in
      let product_url := product_url_of self link_elem in
      let discount_percent := discount_percent_of price original_price in
      Some {| Product.name := name;
              Product.type := _categorize_milo_product name;
              Product.price := price;
              Product.original_price :=
                if Py.ltb 0 original_price then original_price else price;
              Product.flash_sale := is_flash_sale flash_sale_info;
              Product.flash_sale_type := Some (sale_type flash_sale_info);
              Product.flash_sale_end := Some (ends_at flash_sale_info);
              Product.discount_percent := Some discount_percent;
              Product.url := product_url;
              Product.platform := platform self;
              Product.scraped_at := now |}
  end.

Definition scrape (b : Browser) (headless : bool) (max_products : Z)
  : Py.result (list Product.t) :=
  scrape_page _extract_product_with_flash_sale
    (attr_eq "div" "data-qa-locator" "product-item")
    (cls "div" "Bm3ON")
    (cls_has "div" "product") b max_products.
End LazadaScraper.

(** *** Module-level [scrape_all_platforms] *)

(** The [scrapers] dict, in insertion order: each platform with its
    [scrape] method. *)
Definition scrapers
  : Py.dict (Browser -> bool -> Z -> Py.result (list Product.t)) :=
  [("fairprice", FairPriceScraper.scrape);
   ("shopee", ShopeeScraper.scrape);
   ("lazada", LazadaScraper.scrape);
   ("shengsiong", ShengSiongScraper.scrape);
   ("giant", GiantScraper.scrape)].

(** [site p] is what driving the browser against platform [p] does in this
    cycle. The body of the loop is a [try] whose handler stores [[]]. *)
Definition scrape_all_platforms (site : string -> Browser)
    (headless : bool) (max_products_per_platform : Z)
  : Py.dict (list Product.t) :=
  fold_left
    (fun all_products '(platform, scrape) =>
       match scrape (site platform) headless max_products_per_platform with
       | inr products => Py.dict_set platform products all_products
       | inl e => Py.dict_set platform [] all_products
       end)
    scrapers [].

End Scraper.

(* ================================================================== *)
(** ** complete_backend.py *)

(** An element of [prices]: one platform's offer for a consolidated
    product. The last three keys are written only when the product has
    them. *)
Module PriceInfo.
Record t : Type := Build {
  platform : string;
  price : Q;
  originalPrice : Q;
  flashSale : bool;
  url : string;
  flashSaleType : option string;
  flashSaleEnd : option string;
  discountPercent : option Q
}.
End PriceInfo.

(** A consolidated product. *)
Module Entry.
Record t : Type := Build {
  id : Z;
  name : string;
  type : string;
  prices : list PriceInfo.t
}.
End Entry.

(** An element of [best_deals]. *)
Module Deal.
Record t : Type := Build {
  product : string;
  best_platform : string;
  best_price : Q;
  worst_platform : string;
  worst_price : Q;
  savings : Q;
  savings_percent : Q
}.
End Deal.

(** An element of [flash_sales], and of its [all_platforms] list. *)
Module PlatformFlag.
Record t : Type := Build {
  platform : string;
  price : Q;
  is_flash_sale : bool;
  flash_sale_type : option string
}.
End PlatformFlag.

Module FlashSale.
Record t : Type := Build {
  product : string;
  type : string;
  platform : string;
  price : Q;
  original_price : Q;
  discount_percent : Q;
  flash_sale_type : string;
  flash_sale_end : option string;
  url : string;
  all_platforms : list PlatformFlag.t
}.
End FlashSale.

Module Backend.
Import PyStr.

(** A naive [datetime] is its count of microseconds; a [timedelta] is a
    difference of two. *)
Definition datetime : Type := Z.

(** [delta.seconds]: the seconds field of the normalised timedelta
    [(days, seconds, microseconds)], with [0 <= seconds < 86400]. *)
Definition timedelta_seconds (delta : Z) : Z :=
  ((delta mod 86400000000) / 1000000)%Z.

(** The module-level [cache] dict. *)
Record Cache : Type := {
  products : list Entry.t;
  last_updated : option datetime;
  by_platform : Py.dict (list Product.t)
}.

(** The cache at process start. *)
Definition cache0 : Cache :=
  {| products := []; last_updated := None; by_platform := [] |}.

Definition CACHE_DURATION : Z := 3600.

(** [None] is [None]; a returned list may be empty. *)
Definition get_cached_data (cache : Cache) (now : datetime)
  : option (list Entry.t) :=
  match last_updated cache with
  | Some t =>
      let elapsed := timedelta_seconds (now - t) in
      if (elapsed <? CACHE_DURATION)%Z then Some (products cache) else None
  | None => None
  end.

Definition update_cache (products : list Entry.t) (now : datetime) (cache : Cache)
  : Cache :=
  {| products := products;
     last_updated := Some now;
     by_platform := by_platform cache |}.

(** *** [consolidate_products] *)

(** [product['name'][:20].lower().replace(' ', '')] *)
Definition key_of (product : Product.t) : string :=
  remove_char " " (lower (slice_to 20 (Product.name product))).

Definition price_info_of (product : Product.t) : PriceInfo.t :=
  {| PriceInfo.platform := Product.platform product;
     PriceInfo.price := Product.price product;
     PriceInfo.originalPrice := Product.original_price product;
     PriceInfo.flashSale := Product.flash_sale product;
     PriceInfo.url := Product.url product;
     PriceInfo.flashSaleType := Product.flash_sale_type product;
     PriceInfo.flashSaleEnd :=
       match Product.flash_sale_end product with
       | Some (Some ends) => if nonempty ends then Some ends else None
       | _ => None
       end;
     PriceInfo.discountPercent := Product.discount_percent product |}.

(** [seen_names[key]['prices'].append(price_info)]; the key is present
    whenever the source executes it. *)
Fixpoint append_price (key : string) (price_info : PriceInfo.t)
    (seen_names : Py.dict Entry.t) : Py.dict Entry.t :=
  match seen_names with
  | [] => []
  | (k, e) :: rest =>
      if String.eqb key k then
        (k, {| Entry.id := Entry.id e; Entry.name := Entry.name e;
               Entry.type := Entry.type e;
               Entry.prices := (Entry.prices e ++ [price_info])%list |}) :: rest
      else (k, e) :: append_price key price_info rest
  end.

(** One turn of the grouping loop, on [(seen_names, product_id)]. *)
Definition consolidate_step (st : Py.dict Entry.t * Z) (product : Product.t)
  : Py.dict Entry.t * Z :=
  let (seen_names, product_id) := st in
  let key := key_of product in
  let (seen_names, product_id) :=
    if negb (Py.dict_mem key seen_names) then
      (Py.dict_set key
         {| Entry.id := product_id;
            Entry.name := Product.name product;
            Entry.type := Product.type product;
            Entry.prices := [] |} seen_names,
       (product_id + 1)%Z)
    else (seen_names, product_id) in
  (append_price key (price_info_of product) seen_names, product_id).

Definition consolidate_products (products_by_platform : Py.dict (list Product.t))
  : list Entry.t :=
  let all_products := flat_map snd products_by_platform in
  let (seen_names, _) := fold_left consolidate_step all_products ([], 1%Z) in
  Py.values seen_names.

(** *** The scrape cycle *)

(** The process state a request sees: the cache, and the platforms whose
    [scrape] has been invoked so far, oldest first. *)
Record State : Type := {
  cache : Cache;
  calls : list string
}.

(** One turn of the loop over [scrapers]: the [try] body stores the
    products in the result map and in [cache['by_platform']]; the handler
    stores [[]] in the result map only. *)
Definition scrape_step (site : string -> Dom.Browser)
    (acc : Py.dict (list Product.t) * State)
    (entry : string * (Dom.Browser -> bool -> Z -> Py.result (list Product.t)))
  : Py.dict (list Product.t) * State :=
  let (all_products_by_platform, st) := acc in
  let (platform_name, scrape) := entry in
  let calls' := (calls st ++ [platform_name])%list in
  match scrape (site platform_name) true 10%Z with
  | inr products =>
      (Py.dict_set platform_name products all_products_by_platform,
       {| cache :=
            {| products := Backend.products (cache st);
               last_updated := last_updated (cache st);
               by_platform :=
                 Py.dict_set platform_name products (by_platform (cache st)) |};
          calls := calls' |})
  | inl e =>
      (Py.dict_set platform_name [] all_products_by_platform,
       {| cache := cache st; calls := calls' |})
  end.

(** The result map of a cycle, before consolidation. *)
Definition scrape_cycle (site : string -> Dom.Browser) (st : State)
  : Py.dict (list Product.t) * State :=
  fold_left (scrape_step site) Scraper.scrapers ([], st).

Definition scrape_all_platforms (site : string -> Dom.Browser) (now : datetime)
    (st : State) : list Entry.t * State :=
  let (all_products_by_platform, st) := scrape_cycle site st in
  let consolidated := consolidate_products all_products_by_platform in
  (consolidated,
   {| cache := update_cache consolidated now (cache st); calls := calls st |}).

(** *** Endpoints *)

Inductive Response : Type :=
| products_json (products : list Entry.t) (lastUpdated : datetime)
    (source : string) (platforms : list string)
| best_deals_json (best_deals : list Deal.t) (total_potential_savings : Q)
| flash_sales_json (flash_sales : list FlashSale.t) (total_flash_sales : nat)
    (platforms_with_flash_sales : list string)
| server_error (e : Py.exn).

(** [if cached_data:] is false for [None] and for the empty list. *)
Definition truthy {A} (cached_data : option (list A)) : bool :=
  match cached_data with
  | Some (_ :: _) => true
  | _ => false
  end.

Definition get_products (site : string -> Dom.Browser) (now : datetime)
    (st : State) : Response * State :=
  let cached_data := get_cached_data (cache st) now in
  match cached_data with
  | Some (p :: ps) =>
      (products_json (p :: ps)
         (match last_updated (cache st) with Some t => t | None => now end)
         "cache" (Py.keys (by_platform (cache st))), st)
  | _ =>
      let (products, st) := scrape_all_platforms site now st in
      (products_json products now "fresh_scrape"
         (Py.keys (by_platform (cache st))), st)
  end.

(** [cached_data = get_cached_data()], then a scrape [if not cached_data]. *)
Definition cached_or_scraped (site : string -> Dom.Browser) (now : datetime)
    (st : State) : list Entry.t * State :=
  match get_cached_data (cache st) now with
  | Some (p :: ps) => (p :: ps, st)
  | _ => scrape_all_platforms site now st
  end.

(** The body of the loop of [get_best_deals] for one product: the deal it
    appends, if any. The division raises on a zero divisor. *)
Definition deal_of (product : Entry.t) : Py.result (option Deal.t) :=
  if (1 <? List.length (Entry.prices product))%nat then
    let sorted_prices := Py.sorted PriceInfo.price (Entry.prices product) in
    match sorted_prices with
    | [] => inr None
    | best_price :: _ =>
        let worst_price := last sorted_prices best_price in
        let savings := PriceInfo.price worst_price - PriceInfo.price best_price in
        if Py.ltb 0 savings then
          match Py.div savings (PriceInfo.price worst_price) with
          | inl e => inl e
          | inr ratio =>
              inr (Some
                {| Deal.product := Entry.name product;
                   Deal.best_platform := PriceInfo.platform best_price;
                   Deal.best_price := PriceInfo.price best_price;
                   Deal.worst_platform := PriceInfo.platform worst_price;
                   Deal.worst_price := PriceInfo.price worst_price;
                   Deal.savings := Py.round savings 2;
                   Deal.savings_percent := Py.round (ratio * 100) 1 |})
          end
        else inr None
    end
  else inr None.

(** The loop: [best_deals] in order of the products, or the first
    exception. *)
Fixpoint collect_deals (cached_data : list Entry.t) : Py.result (list Deal.t) :=
  match cached_data with
  | [] => inr []
  | product :: rest =>
      match deal_of product with
      | inl e => inl e
      | inr d =>
          match collect_deals rest with
          | inl e => inl e
          | inr ds => inr (match d with Some d => d :: ds | None => ds end)
          end
      end
  end.

(** [sum(...)]: from [0], left to right. *)
Definition sum (l : list Q) : Q := fold_left Qplus l 0.

(** The response built from the list the loop has collected. *)
Definition best_deals_response (best_deals : list Deal.t) : Response :=
  let best_deals := Py.sorted_reverse Deal.savings best_deals in
  best_deals_json (firstn 10 best_deals)
    (Py.round (sum (map Deal.savings best_deals)) 2).

Definition get_best_deals (site : string -> Dom.Browser) (now : datetime)
    (st : State) : Response * State :=
  let (cached_data, st) := cached_or_scraped site now st in
  match collect_deals cached_data with
  | inl e => (server_error e, st)
  | inr best_deals => (best_deals_response best_deals, st)
  end.

Definition default {A} (o : option A) (d : A) : A :=
  match o with Some x => x | None => d end.

(** The body of the loop of [get_flash_sales] for one product. *)
Definition flash_sale_of (product : Entry.t) : option FlashSale.t :=
  let flash_sale_prices := filter PriceInfo.flashSale (Entry.prices product) in
  match Py.sorted PriceInfo.price flash_sale_prices with
  | [] => None
  | best_flash_sale :: _ =>
      Some {| FlashSale.product := Entry.name product;
              FlashSale.type := Entry.type product;
              FlashSale.platform := PriceInfo.platform best_flash_sale;
              FlashSale.price := PriceInfo.price best_flash_sale;
              FlashSale.original_price := PriceInfo.originalPrice best_flash_sale;
              FlashSale.discount_percent :=
                default (PriceInfo.discountPercent best_flash_sale) 0;
              FlashSale.flash_sale_type :=
                default (PriceInfo.flashSaleType best_flash_sale) "flash_sale";
              FlashSale.flash_sale_end := PriceInfo.flashSaleEnd best_flash_sale;
              FlashSale.url := PriceInfo.url best_flash_sale;
              FlashSale.all_platforms :=
                map (fun p =>
                       {| PlatformFlag.platform := PriceInfo.platform p;
                          PlatformFlag.price := PriceInfo.price p;
                          PlatformFlag.is_flash_sale := PriceInfo.flashSale p;
                          PlatformFlag.flash_sale_type := PriceInfo.flashSaleType p |})
                    (Entry.prices product) |}
  end.

(** [platforms_with_flash_sales] is a [list(set(...))]: its order is not
    fixed by the source; here it is some duplicate-free order. *)
Definition get_flash_sales (site : string -> Dom.Browser) (now : datetime)
    (st : State) : Response * State :=
  let (cached_data, st) := cached_or_scraped site now st in
  let flash_sales := Py.filter_map flash_sale_of cached_data in
  let flash_sales := Py.sorted_reverse FlashSale.discount_percent flash_sales in
  (flash_sales_json flash_sales (List.length flash_sales)
     (nodup string_dec (map FlashSale.platform flash_sales)), st).

End Backend.

(* ================================================================== *)
(** ** complete_backend.py: the remaining routes *)

Module Routes.
Import PyStr Backend.

(** [valid_platforms] of [get_platform_products]. *)
Definition valid_platforms : list string :=
  ["fairprice"; "shopee"; "lazada"; "shengsiong"; "giant"].

(** [x in l] on a list of strings. *)
Definition in_list (x : string) (l : list string) : bool :=
  existsb (String.eqb x) l.

(** What [get_platform_products] answers: a 400, the stored list of the
    platform, a list scraped for this request, or a 500. *)
Inductive PlatformResponse : Type :=
| invalid_platform (error : string)
| stored_products (platform : string) (products : list Product.t)
    (lastUpdated : option datetime)
| scraped_products (platform : string) (products : list Product.t)
    (count : nat) (lastUpdated : datetime)
| platform_error (error : Py.exn) (platform : string).

Definition get_platform_products (site : string -> Dom.Browser) (now : datetime)
    (platform : string) (st : State) : PlatformResponse * State :=
  if negb (in_list platform valid_platforms) then
    (invalid_platform
       ("Invalid platform. Choose from: " ++ String.concat ", " valid_platforms), st)
  else
    match Py.dict_get platform (by_platform (cache st)) with
    | Some products =>
        (stored_products platform products (last_updated (cache st)), st)
    | None =>
        match Py.dict_get platform Scraper.scrapers with
        | None =>
            (* [scrapers[platform]] raises KeyError; a valid platform is a key *)
            (platform_error (Py.Exception platform) platform, st)
        | Some scrape =>
            let st' := {| cache := cache st;
                          calls := (calls st ++ [platform])%list |} in
            match scrape (site platform) true 10%Z with
            | inr products =>
                (scraped_products platform products (List.length products) now, st')
            | inl e => (platform_error e platform, st')
            end
        end
    end.



(** What [get_status] answers. *)
Record StatusResponse : Type := {
  status : string;
  cache_status : string;
  status_last_updated : option datetime;
  cached_products : nat;
  cache_age_seconds : option Z;
  platforms : Py.dict nat
}.

Definition get_status (now : datetime) (st : State) : StatusResponse :=
  let platform_stats :=
    map (fun '(platform, products) => (platform, List.length products))
        (by_platform (cache st)) in
  {| status := "running";
     cache_status :=
       match last_updated (cache st) with Some _ => "active" | None => "empty" end;
     status_last_updated := last_updated (cache st);
     cached_products := List.length (products (cache st));
     cache_age_seconds :=
       match last_updated (cache st) with
       | Some t => Some (timedelta_seconds (now - t))
       | None => None
       end;
     platforms := platform_stats |}.

End Routes.

(* ================================================================== *)
(** ** test_all_features.py: the data-quality test *)

Module QualityTest.
Import PyStr.

(** An entry of [scraper_results]: successful with its products, or
    failed with the text of the exception. *)
Inductive ScraperResult : Type :=
| success (products : list Product.t)
| failed (error : string).

(** The issues the loop body appends for one product. *)
Definition product_issues (platform : string) (product : Product.t) : list string :=
  List.app
    (if negb (nonempty (Product.name product))
     then [platform ++ ": Product missing name"] else [])
    (if Qle_bool (Product.price product) 0
     then [platform ++ ": Invalid price for " ++ Product.name product] else []).

(** [not product.get('flash_sale_type')]: the key is absent or empty. *)
Definition lacks_type (product : Product.t) : bool :=
  match Product.flash_sale_type product with
  | Some kind => negb (nonempty kind)
  | None => true
  end.

(** The warnings the loop body appends for one product. *)
Definition product_warnings (platform : string) (product : Product.t) : list string :=
  let short := slice_to 30 (Product.name product) in
  List.app
    (if negb (nonempty (Product.url product))
     then [platform ++ ": Missing URL for " ++ short ++ "..."] else [])
    (if Product.flash_sale product then
       List.app
         (if lacks_type product
          then [platform ++ ": Flash sale missing type for " ++ short ++ "..."]
          else [])
         (let original := Product.original_price product in
          let current := Product.price product in
          if Py.ltb 0 original && Py.ltb 0 current then
            if Py.geb current original
            then [platform ++ ": Flash sale price not lower than original for "
                  ++ short ++ "..."]
            else []
          else [])
     else []).

(** [test_data_quality]: the issues and the warnings over the products of
    every platform that succeeded, in order. *)
Definition test_data_quality (scraper_results : Py.dict ScraperResult)
  : list string * list string :=
  fold_left
    (fun '(issues, warnings) '(platform, data) =>
       match data with
       | failed _ => (issues, warnings)
       | success products =>
           fold_left
             (fun '(issues, warnings) product =>
                ((issues ++ product_issues platform product)%list,
                 (warnings ++ product_warnings platform product)%list))
             products (issues, warnings)
       end)
    scraper_results ([], []).

End QualityTest.

(* ================================================================== *)
(** ** Notions the properties are stated with *)

Module Spec.
Import PyStr.

(** Every character of [s] is a digit; no character of [s] is one. *)
Definition all_digits (s : string) : Prop := forallb is_digit (chars s) = true.
Definition no_digit (s : string) : Prop := existsb is_digit (chars s) = false.

(** [s] does not start with a character for which [p] holds. *)
Definition not_starting (p : ascii -> bool) (s : string) : Prop :=
  match s with
  | EmptyString => True
  | String c _ => p c = false
  end.

Definition is_dot (c : ascii) : bool := Ascii.eqb c ".".

(** [first_decimal s ds fs]: the first decimal-like number in [s] has the
    integer digits [ds] and the fraction digits [fs]. It starts at the
    first digit of [s]; [ds] is the whole run of digits there, and [fs]
    the whole run of digits after a dot that directly follows. *)
Inductive first_decimal : string -> string -> string -> Prop :=
| fd_integer pre ds rest :
    no_digit pre -> ds <> "" -> all_digits ds ->
    not_starting is_digit rest -> not_starting is_dot rest ->
    first_decimal (pre ++ ds ++ rest) ds ""
| fd_fraction pre ds fs rest :
    no_digit pre -> ds <> "" -> all_digits ds -> all_digits fs ->
    not_starting is_digit rest ->
    first_decimal (pre ++ ds ++ "." ++ fs ++ rest) ds fs.

(** The natural number a string of digits denotes, by position. *)
Fixpoint digits_number (ds : string) : Z :=
  match ds with
  | EmptyString => 0
  | String c ds' =>
      (Z.of_nat (nat_of_ascii c - 48) * 10 ^ Z.of_nat (String.length ds')
       + digits_number ds')%Z
  end.

(** The number [ds.fs] denotes. *)
Definition decimal_value (ds fs : string) : Q :=
  inject_Z (digits_number ds)
  + inject_Z (digits_number fs) / inject_Z (10 ^ Z.of_nat (String.length fs)).

(** [name], lower-cased, contains one of [words]. *)
Definition has_word (words : list string) (name : string) : Prop :=
  exists w, In w words /\ substring_of w (lower name).

End Spec.

(** *** The adapters, and the promotion signals of a container *)

Module ScraperSpec.
Import PyStr Dom Scraper.

(** The candidate containers of a document, before any slicing. *)
Definition candidates (s1 s2 s3 : Selector) (soup : Soup) : list Container :=
  Py.or_list (soup_select soup s1)
    (Py.or_list (soup_select soup s2) (soup_select soup s3)).

Definition found {A} (o : option A) : bool :=
  match o with Some _ => true | None => false end.

Definition some {A} (l : list A) : bool :=
  match l with [] => false | _ :: _ => true end.

(** A platform adapter: its [scrape], the body of its loop, where it
    looks for containers, and whether a container has a name it can
    resolve. *)
Record Adapter : Type := {
  scrape : Browser -> bool -> Z -> Py.result (list Product.t);
  extract : string -> Container -> option Product.t;
  containers : Soup -> list Container;
  has_name : Container -> bool
}.

Definition fairprice : Adapter :=
  {| scrape := FairPriceScraper.scrape;
     extract := FairPriceScraper.extract;
     containers :=
       candidates (attr_eq "div" "data-testid" "product-container")
         (cls "div" "product-container") (cls_has "div" "Product");
     has_name := fun c =>
       found (first_match c [attr_eq "div" "data-testid" "product-name";
                             cls_has "" "product-name"; tag "h3"]) |}.

Definition shengsiong : Adapter :=
  {| scrape := ShengSiongScraper.scrape;
     extract := ShengSiongScraper.extract;
     containers :=
       candidates (cls "div" "product-item") (cls_has "div" "product-card")
         (cls_has "div" "Product");
     has_name := fun c =>
       found (first_match c [cls "h3" "product-name"; cls "div" "product-title";
                             cls_has "" "name"; tag "h3"]) |}.

Definition giant : Adapter :=
  {| scrape := GiantScraper.scrape;
     extract := GiantScraper.extract;
     containers :=
       candidates (cls "div" "product-tile") (cls_has "div" "product-item")
         (cls_has "div" "Product");
     has_name := fun c =>
       found (first_match c [cls "h3" "product-name"; cls "div" "product-title";
                             cls_has "" "name"; tag "h3"]) |}.

Definition shopee : Adapter :=
  {| scrape := ShopeeScraper.scrape;
     extract := ShopeeScraper._extract_product_with_flash_sale;
     containers :=
       candidates (attr_eq "div" "data-sqe" "item")
         (cls "div" "shopee-search-item-result__item") (cls_has "div" "item-card");
     has_name := fun c =>
       found (first_match c [attr_eq "div" "data-sqe" "name";
                             cls "div" "shopee-item-card__text-name";
                             cls_has "" "item-name"])
       || found (find_text_milo c) |}.

Definition lazada : Adapter :=
  {| scrape := LazadaScraper.scrape;
     extract := LazadaScraper._extract_product_with_flash_sale;
     containers :=
       candidates (attr_eq "div" "data-qa-locator" "product-item")
         (cls "div" "Bm3ON") (cls_has "div" "product");
     has_name := fun c =>
       found (first_match c [attr_eq "div" "data-qa-locator" "product-name";
                             cls "div" "RfADt"; has_attr "title"]) |}.

(** The adapters without a detector, and all five. *)
Definition plain_adapters : list Adapter := [fairprice; shengsiong; giant].
Definition adapters : list Adapter := [fairprice; shopee; lazada; shengsiong; giant].

(** A countdown element is present. *)
Definition timer_signal (c : Container) : bool :=
  found (first_match c [cls_has "" "countdown"; cls_has "" "timer";
                        cls_has "" "time-left"]).

(** A keyword, badge or timer signal on a Shopee container. *)
Definition shopee_signal (c : Container) : bool :=
  any_in ShopeeScraper.flash_indicators (lower (text c))
  || some (select c (cls_has "" "flash")) || some (select c (cls_has "" "Flash"))
  || some (select c (cls_has "" "shopee-sale"))
  || some (select c (cls_has "" "promotion"))
  || timer_signal c.

(** A keyword, badge, sale-tag, timer or stock signal on a Lazada
    container. *)
Definition lazada_signal (c : Container) : bool :=
  any_in LazadaScraper.flash_indicators (lower (text c))
  || some (select c (cls_has "" "flash")) || some (select c (cls_has "" "Flash"))
  || some (select c (cls_has "" "LazFlash"))
  || existsb (fun t => any_in ["flash"; "limited"; "ending"] (lower (get_text t)))
       (Py.or_list (select c (cls_has "" "sale-tag"))
          (Py.or_list (select c (cls_has "" "promotion"))
                      (select c (cls_has "" "badge"))))
  || timer_signal c
  || existsb (fun t => any_in ["left"; "remaining"; "limited"] (lower (get_text t)))
       (Py.or_list (select c (cls_has "" "stock")) (select c (cls_has "" "quantity"))).

(** The discount of a listing, in percent, before rounding. *)
Definition discount (p : Product.t) : Q :=
  ((Product.original_price p - Product.price p) / Product.original_price p) * 100.

(** The listing has a lower price than its original price, both positive. *)
Definition reduced (p : Product.t) : Prop :=
  Product.price p < Product.original_price p /\ 0 < Product.price p.


End ScraperSpec.

(** *** Concrete pages *)

Module Pages.
Import Dom.

Definition elem (s : string) : Tag :=
  {| get_text := s; get_text_strip := s; attrs := [] |}.

(** A Shopee card with the words Flash Sale, a price of 10.00 and a
    struck-out price of 5.00:
    a [div] with [data-sqe] [item] holding a [div] with [data-sqe] [name],
    a [span] with [data-sqe] [price] and a [del]. *)
Definition shopee_flash_card : Container :=
  {| text := "Milo 3in1 $10.00 $5.00 Flash Sale";
     select := fun sel =>
       match sel with
       | attr_eq "div" "data-sqe" "name" => [elem "Milo 3in1"]
       | attr_eq "span" "data-sqe" "price" => [elem "$10.00"]
       | tag "del" => [elem "$5.00"]
       | _ => []
       end;
     find_text_milo := Some "Milo 3in1" |}.

(** A Shopee card with no promotion wording: 7.50, struck-out 10.00. *)
Definition shopee_plain_card : Container :=
  {| text := "Milo Tin $7.50 $10.00";
     select := fun sel =>
       match sel with
       | attr_eq "div" "data-sqe" "name" => [elem "Milo Tin"]
       | attr_eq "span" "data-sqe" "price" => [elem "$7.50"]
       | tag "del" => [elem "$10.00"]
       | _ => []
       end;
     find_text_milo := Some "Milo Tin" |}.

Definition noon : string := "2024-01-01T12:00:00".

(** What the Shopee scraper lists for the two cards. *)
Definition shopee_flash_listing : Product.t :=
  {| Product.name := "Milo 3in1"; Product.type := "other";
     Product.price := 10; Product.original_price := 5;
     Product.flash_sale := true;
     Product.flash_sale_type := Some "flash_sale";
     Product.flash_sale_end := Some None;
     Product.discount_percent := Some 0;
     Product.url := ""; Product.platform := "shopee";
     Product.scraped_at := noon |}.

Definition shopee_plain_listing : Product.t :=
  {| Product.name := "Milo Tin"; Product.type := "powder";
     Product.price := 15 # 2; Product.original_price := 10;
     Product.flash_sale := true;
     Product.flash_sale_type := Some "discount";
     Product.flash_sale_end := Some None;
     Product.discount_percent := Some 25;
     Product.url := ""; Product.platform := "shopee";
     Product.scraped_at := noon |}.

(** What the FairPrice scraper lists for cards of 12.50 and 1.20. *)
Definition fairprice_listing : Product.t :=
  {| Product.name := "Milo Powder 1kg"; Product.type := "powder";
     Product.price := 25 # 2; Product.original_price := 25 # 2;
     Product.flash_sale := false;
     Product.flash_sale_type := None;
     Product.flash_sale_end := None;
     Product.discount_percent := None;
     Product.url := ""; Product.platform := "fairprice";
     Product.scraped_at := noon |}.

Definition fairprice_uht_listing : Product.t :=
  {| Product.name := "Milo UHT 200ml"; Product.type := "uht";
     Product.price := 6 # 5; Product.original_price := 6 # 5;
     Product.flash_sale := false;
     Product.flash_sale_type := None;
     Product.flash_sale_end := None;
     Product.discount_percent := None;
     Product.url := ""; Product.platform := "fairprice";
     Product.scraped_at := noon |}.

(** FairPrice containers: one with a heading and a price, one with
    neither (an advertisement tile). *)
Definition fairprice_card (name price : string) : Container :=
  {| text := name ++ price;
     select := fun sel =>
       match sel with
       | tag "h3" => [elem name]
       | cls_has "" "price" => [elem price]
       | _ => []
       end;
     find_text_milo := None |}.

Definition fairprice_banner : Container :=
  {| text := "Sponsored";
     select := fun _ => [];
     find_text_milo := None |}.

Definition fairprice_page : Soup :=
  {| soup_select := fun sel =>
       match sel with
       | cls "div" "product-container" =>
           [fairprice_banner;
            fairprice_card "Milo UHT 200ml" "$1.20";
            fairprice_card "Milo Powder 1kg" "$12.50"]
       | _ => []
       end |}.

Definition loaded (soup : Soup) : Browser :=
  {| launch := None; page := inr soup; close := None; clock := noon |}.

Definition crashed : Browser :=
  {| launch := Some (Py.Exception "browser not installed");
     page := inl (Py.Exception "unreachable");
     close := None; clock := noon |}.

End Pages.

(** *** The cache, the cycle and the grouping, as the specification
    words them *)

Module BackendSpec.
Import PyStr Backend.

(** The age of a snapshot, [now - last_updated], in whole seconds. *)
Definition age_seconds (now t : datetime) : Z := ((now - t) / 1000000)%Z.

(** The platforms of a cycle, in the order they are scraped. *)
Definition platforms : list string :=
  ["fairprice"; "shopee"; "lazada"; "shengsiong"; "giant"].

(** The listing list of a platform: what its scrape returned, or nothing
    when it raised. *)
Definition listed (r : Py.result (list Product.t)) : list Product.t :=
  match r with inr products => products | inl _ => [] end.

Definition outcome (site : string -> Dom.Browser) (headless : bool) (max_products : Z)
    (entry : string * (Dom.Browser -> bool -> Z -> Py.result (list Product.t)))
  : string * list Product.t :=
  (fst entry, listed (snd entry (site (fst entry)) headless max_products)).

(** [cache['by_platform']] after one platform of a cycle: written on
    success only. *)
Definition stored (site : string -> Dom.Browser)
    (by_platform : Py.dict (list Product.t))
    (entry : string * (Dom.Browser -> bool -> Z -> Py.result (list Product.t)))
  : Py.dict (list Product.t) :=
  match snd entry (site (fst entry)) true 10%Z with
  | inr products => Py.dict_set (fst entry) products by_platform
  | inl _ => by_platform
  end.

(** The state a request leaves when it has run a cycle. *)
Definition after_cycle (site : string -> Dom.Browser) (now : datetime)
    (consolidated : list Entry.t) (st : State) : State :=
  {| cache :=
       {| products := consolidated;
          last_updated := Some now;
          by_platform := fold_left (stored site) Scraper.scrapers
                           (by_platform (cache st)) |};
     calls := (calls st ++ platforms)%list |}.

(** The same process state with no snapshot at all. *)
Definition without_snapshot (st : State) : State :=
  {| cache := {| products := []; last_updated := None;
                 by_platform := by_platform (cache st) |};
     calls := calls st |}.

(** The keys of a list, each once, in the order they first appear. *)
Definition first_seen (ks : list string) : list string :=
  fold_left
    (fun seen k => if existsb (String.eqb k) seen then seen else (seen ++ [k])%list)
    ks [].

(** The listings with grouping key [k], in the order they are met. *)
Definition group (all : list Product.t) (k : string) : list Product.t :=
  filter (fun p => String.eqb (key_of p) k) all.

(** The entry of key [k] when it is the [i]-th key (from 0) to appear: the
    id counts from 1, name and category are those of the first listing of
    the group, and every listing of the group contributes one offer. *)
Definition entry_of (all : list Product.t) (i : nat) (k : string) : Entry.t :=
  {| Entry.id := Z.of_nat (S i);
     Entry.name := match group all k with
                   | first :: _ => Product.name first
                   | [] => ""
                   end;
     Entry.type := match group all k with
                   | first :: _ => Product.type first
                   | [] => ""
                   end;
     Entry.prices := map price_info_of (group all k) |}.

Fixpoint entries_from (all : list Product.t) (i : nat) (ks : list string)
  : Py.dict Entry.t :=
  match ks with
  | [] => []
  | k :: ks' => (k, entry_of all i k) :: entries_from all (S i) ks'
  end.

(** A list in ascending, or descending, order of a key. *)
Definition ascending {A} (key : A -> Q) (l : list A) : Prop :=
  StronglySorted (fun x y => key x <= key y) l.
Definition descending {A} (key : A -> Q) (l : list A) : Prop :=
  StronglySorted (fun x y => key y <= key x) l.

(** The prices of an entry are valid: none is negative. *)
Definition priced (product : Entry.t) : Prop :=
  Forall (fun o => 0 <= PriceInfo.price o) (Entry.prices product).

(** The deal of an entry between a cheapest and a dearest offer. *)
Definition deal_between (product : Entry.t) (best worst : PriceInfo.t) : Deal.t :=
  let savings := PriceInfo.price worst - PriceInfo.price best in
  {| Deal.product := Entry.name product;
     Deal.best_platform := PriceInfo.platform best;
     Deal.best_price := PriceInfo.price best;
     Deal.worst_platform := PriceInfo.platform worst;
     Deal.worst_price := PriceInfo.price worst;
     Deal.savings := Py.round savings 2;
     Deal.savings_percent := Py.round (savings / PriceInfo.price worst * 100) 1 |}.

(** Consolidation as the specification words it. *)
Definition consolidate (all : list Product.t) : list Entry.t :=
  Py.values (entries_from all 0 (first_seen (map key_of all))).

End BackendSpec.

(** *** Concrete sites and caches *)

Module Sites.
Import Backend.

(** Every platform's browser fails to start. *)
Definition all_down : string -> Dom.Browser := fun _ => Pages.crashed.

(** Only FairPrice answers. *)
Definition only_fairprice : string -> Dom.Browser :=
  fun platform =>
    if String.eqb platform "fairprice" then Pages.loaded Pages.fairprice_page
    else Pages.crashed.

(** A snapshot taken at time 0 of a cycle in which every platform failed. *)
Definition empty_snapshot : State :=
  {| cache := {| products := []; last_updated := Some 0%Z; by_platform := [] |};
     calls := [] |}.




Definition offer (platform : string) (price : Q) : PriceInfo.t :=
  {| PriceInfo.platform := platform; PriceInfo.price := price;
     PriceInfo.originalPrice := price; PriceInfo.flashSale := false;
     PriceInfo.url := ""; PriceInfo.flashSaleType := None;
     PriceInfo.flashSaleEnd := None; PriceInfo.discountPercent := None |}.

(** The entry of the specification's best-deals example. *)
Definition two_offers : Entry.t :=
  {| Entry.id := 1; Entry.name := "Milo"; Entry.type := "other";
     Entry.prices := [offer "a" 10; offer "b" 15] |}.

End Sites.

(** *** Notions for the further properties of the scrapers *)

Module ListingSpec.
Import PyStr Dom Scraper ScraperSpec.

(** The four categories. *)
Definition categories : list string := ["uht"; "powder"; "bottle"; "other"].

(** The [self] of each scraper class. *)
Definition selves : list BaseScraper :=
  [FairPriceScraper.self; ShopeeScraper.self; LazadaScraper.self;
   ShengSiongScraper.self; GiantScraper.self].

(** The kinds each detector can report. *)
Definition shopee_kinds : list string :=
  ["normal"; "flash_sale"; "shopee_sale"; "discount"].
Definition lazada_kinds : list string :=
  ["normal"; "flash_sale"; "lazada_sale"; "limited_stock"; "discount"].

(** The first countdown element of a container, if any. *)
Definition timer_of (c : Container) : option Tag :=
  first_match c [cls_has "" "countdown"; cls_has "" "timer"; cls_has "" "time-left"].

(** The signals the Shopee detector reads, one by one. *)
Definition shopee_keyword (c : Container) : bool :=
  any_in ShopeeScraper.flash_indicators (lower (text c)).
Definition flash_badge (c : Container) : bool :=
  some (select c (cls_has "" "flash")) || some (select c (cls_has "" "Flash")).
Definition shopee_badge (c : Container) : bool :=
  some (select c (cls_has "" "shopee-sale"))
  || some (select c (cls_has "" "promotion")).

(** The numeric rule with a threshold, on a price pair. *)
Definition numeric_rule (threshold cur orig : Q) : bool :=
  Py.ltb cur orig && Py.ltb 0 cur && Py.geb (((orig - cur) / orig) * 100) threshold.

(** The signals the Lazada detector reads. *)
Definition lazada_keyword (c : Container) : option string :=
  find (fun indicator => contains indicator (lower (text c)))
       LazadaScraper.flash_indicators.
Definition lazada_flash_badge (c : Container) : bool :=
  some (select c (cls_has "" "flash")) || some (select c (cls_has "" "Flash"))
  || some (select c (cls_has "" "LazFlash")).
Definition lazada_sale_tag (c : Container) : bool :=
  existsb (fun t => any_in ["flash"; "limited"; "ending"] (lower (get_text t)))
    (Py.or_list (select c (cls_has "" "sale-tag"))
       (Py.or_list (select c (cls_has "" "promotion"))
                   (select c (cls_has "" "badge")))).
Definition lazada_stock (c : Container) : bool :=
  existsb (fun t => any_in ["left"; "remaining"; "limited"] (lower (get_text t)))
    (Py.or_list (select c (cls_has "" "stock")) (select c (cls_has "" "quantity"))).

(** What a countdown element shows: its text, or Soon when it has none. *)
Definition shown_end (timer_elem : option Tag) : option string :=
  match timer_elem with
  | Some t => Some (if nonempty (get_text_strip t) then get_text_strip t else "Soon")
  | None => None
  end.

(** The kind of a Shopee container, by precedence of its signals. *)
Definition shopee_kind (c : Container) (cur orig : Q) : string :=
  if shopee_keyword c || flash_badge c then "flash_sale"
  else if shopee_badge c then "shopee_sale"
  else if found (timer_of c) then "flash_sale"
  else if numeric_rule 20 cur orig then "discount"
  else "normal".

(** The kind of a Lazada container, by precedence of its signals. *)
Definition lazada_kind (c : Container) (cur orig : Q) : string :=
  if lazada_flash_badge c then "flash_sale"
  else
    match lazada_keyword c with
    | Some indicator =>
        if contains "lazflash" indicator || contains "flash" indicator
        then "flash_sale" else "lazada_sale"
    | None =>
        if lazada_sale_tag c then "flash_sale"
        else if found (timer_of c) then "flash_sale"
        else if lazada_stock c then "limited_stock"
        else if numeric_rule 15 cur orig then "discount"
        else "normal"
    end.

End ListingSpec.

(** *** Notions for the further properties of the deal routes *)

Module DealSpec.

(** The entry has an offer flagged as a promotion. *)
Definition promoted (product : Entry.t) : bool :=
  existsb PriceInfo.flashSale (Entry.prices product).


End DealSpec.

(** *** Notions for the properties of the data-quality test *)

Module QualitySpec.
Import PyStr QualityTest.

(** The three warnings of the test, for a platform key and a product. *)
Definition url_warning (platform : string) (product : Product.t) : string :=
  platform ++ ": Missing URL for " ++ slice_to 30 (Product.name product) ++ "...".
Definition type_warning (platform : string) (product : Product.t) : string :=
  platform ++ ": Flash sale missing type for "
  ++ slice_to 30 (Product.name product) ++ "...".
Definition price_warning (platform : string) (product : Product.t) : string :=
  platform ++ ": Flash sale price not lower than original for "
  ++ slice_to 30 (Product.name product) ++ "...".

(** The warning for a missing link, when it applies. *)
Definition url_warnings (platform : string) (product : Product.t) : list string :=
  if nonempty (Product.url product) then [] else [url_warning platform product].

(** All issues, and all warnings, of the successful platforms, in order. *)
Definition all_issues (scraper_results : Py.dict ScraperResult) : list string :=
  flat_map (fun '(platform, data) =>
              match data with
              | success products => flat_map (product_issues platform) products
              | failed _ => []
              end) scraper_results.
Definition all_warnings (scraper_results : Py.dict ScraperResult) : list string :=
  flat_map (fun '(platform, data) =>
              match data with
              | success products => flat_map (product_warnings platform) products
              | failed _ => []
              end) scraper_results.

End QualitySpec.

(* ================================================================== *)
(** ** Facts about the string primitives *)

Module PyStrFacts.
Import PyStr.

Lemma startswith_spec w s :
  startswith w s = true <-> exists post, s = w ++ post.
Proof.
  revert s; induction w as [|a w IH]; intros s; simpl.
  - split; [intros _; now exists s | reflexivity].
  - destruct s as [|b s].
    + split; [discriminate | intros [post H]; discriminate].
    + rewrite andb_true_iff, IH, Ascii.eqb_eq. split.
      * intros [-> [post ->]]. now exists post.
      * intros [post H]. injection H as -> ->. split; [reflexivity | now exists post].
Qed.

Lemma contains_spec w s : contains w s = true <-> substring_of w s.
Proof.
  induction s as [|b s IH].
  - simpl. rewrite orb_false_r, startswith_spec. split.
    + intros [post H]. now exists "", post.
    + intros [pre [post H]]. destruct pre; [now exists post | discriminate].
  - cbn [contains]. rewrite orb_true_iff, IH, startswith_spec. split.
    + intros [[post H] | [pre [post H]]].
      * now exists "", post.
      * exists (String b pre), post. simpl. now rewrite H.
    + intros [pre [post H]]. destruct pre as [|c pre].
      * left. now exists post.
      * right. simpl in H. injection H as _ H. now exists pre, post.
Qed.

Lemma any_in_spec words s :
  any_in words s = true <-> exists w, In w words /\ substring_of w s.
Proof.
  unfold any_in. rewrite existsb_exists.
  split; intros [w [Hin H]]; exists w; split; auto; now apply contains_spec.
Qed.

End PyStrFacts.

(* ================================================================== *)
(** ** Categorisation and price parsing *)

Module ParseFacts.
Import PyStr PyStrFacts Spec Scraper.

Lemma any_in_has_word words name :
  any_in words (lower name) = true <-> has_word words name.
Proof. apply any_in_spec. Qed.

Lemma any_in_no_word words name :
  any_in words (lower name) = false <-> ~ has_word words name.
Proof.
  rewrite <- any_in_has_word. destruct (any_in words (lower name)); split; congruence.
Qed.

(** C9. Categorisation is a total function into the four categories
    uht, powder, bottle and other. The lower-cased name is tested against
    the uht words, then the powder words, then the bottle words; the first
    set with a word occurring in the name decides, and a name with no word
    of any set is other. A name with both a uht word and a powder word is
    uht. *)
Theorem categorize_total_with_priority (name : string) :
  In (_categorize_milo_product name) ["uht"; "powder"; "bottle"; "other"] /\
  (has_word uht_words name -> _categorize_milo_product name = "uht") /\
  (~ has_word uht_words name -> has_word powder_words name ->
   _categorize_milo_product name = "powder") /\
  (~ has_word uht_words name -> ~ has_word powder_words name ->
   has_word bottle_words name -> _categorize_milo_product name = "bottle") /\
  (~ has_word uht_words name -> ~ has_word powder_words name ->
   ~ has_word bottle_words name -> _categorize_milo_product name = "other") /\
  (has_word uht_words name /\ has_word powder_words name ->
   _categorize_milo_product name = "uht").
Proof.
  unfold _categorize_milo_product.
  destruct (any_in uht_words (lower name)) eqn:Hu;
    [apply any_in_has_word in Hu | apply any_in_no_word in Hu].
  { repeat split; simpl; tauto. }
  destruct (any_in powder_words (lower name)) eqn:Hp;
    [apply any_in_has_word in Hp | apply any_in_no_word in Hp].
  { repeat split; simpl; tauto. }
  destruct (any_in bottle_words (lower name)) eqn:Hb;
    [apply any_in_has_word in Hb | apply any_in_no_word in Hb].
  { repeat split; simpl; tauto. }
  repeat split; simpl; tauto.
Qed.

Lemma categorize_total_with_priority_witness :
  has_word uht_words "Milo UHT Powder 1kg" /\
  has_word powder_words "Milo UHT Powder 1kg" /\
  _categorize_milo_product "Milo UHT Powder 1kg" = "uht".
Proof.
  assert (Hu : has_word uht_words "Milo UHT Powder 1kg")
    by (apply any_in_has_word; reflexivity).
  assert (Hp : has_word powder_words "Milo UHT Powder 1kg")
    by (apply any_in_has_word; reflexivity).
  split; [exact Hu | split; [exact Hp |]].
  exact (proj2 (proj2 (proj2 (proj2 (proj2
    (categorize_total_with_priority "Milo UHT Powder 1kg"))))) (conj Hu Hp)).
Defined.

(** *** Price parsing *)

Lemma span_digits_all ds rest :
  all_digits ds -> not_starting is_digit rest ->
  span_digits (ds ++ rest) = (ds, rest).
Proof.
  unfold all_digits, chars. induction ds as [|c ds IH]; simpl; intros Hd Hr.
  - destruct rest as [|r rest]; [reflexivity|]. simpl in Hr |- *. now rewrite Hr.
  - apply andb_true_iff in Hd as [Hc Hd]. rewrite Hc, (IH Hd Hr). reflexivity.
Qed.

Lemma span_digits_nil ds : all_digits ds -> span_digits ds = (ds, "").
Proof.
  intros H. generalize (span_digits_all ds "" H I).
  replace (ds ++ "") with ds; [trivial|].
  clear H. induction ds; simpl; congruence.
Qed.

Lemma re_search_skip pre s :
  no_digit pre -> re_search_decimal (pre ++ s) = re_search_decimal s.
Proof.
  unfold no_digit, chars. induction pre as [|c pre IH]; simpl; intros H; [reflexivity|].
  apply orb_false_iff in H as [Hc H]. rewrite Hc. auto.
Qed.

Lemma re_search_none s : no_digit s -> re_search_decimal s = None.
Proof.
  intros H. generalize (re_search_skip s "" H).
  replace (s ++ "") with s; [trivial|].
  clear H. induction s; simpl; congruence.
Qed.

Lemma re_search_at_digit ds rest :
  ds <> "" -> all_digits ds ->
  re_search_decimal (ds ++ rest) = Some (match_decimal_here (ds ++ rest)).
Proof.
  destruct ds as [|c ds]; [congruence|]. intros _ H.
  unfold all_digits, chars in H. simpl in H. apply andb_true_iff in H as [Hc _].
  simpl. now rewrite Hc.
Qed.

Lemma match_integer ds rest :
  all_digits ds -> not_starting is_digit rest -> not_starting is_dot rest ->
  match_decimal_here (ds ++ rest) = ds.
Proof.
  intros Hd Hr Hdot. unfold match_decimal_here. rewrite (span_digits_all _ _ Hd Hr).
  destruct rest as [|r rest]; [reflexivity|].
  simpl in Hdot. unfold is_dot in Hdot.
  destruct r as [[] [] [] [] [] [] [] []]; try reflexivity. discriminate.
Qed.

Lemma match_fraction ds fs rest :
  all_digits ds -> all_digits fs -> not_starting is_digit rest ->
  match_decimal_here (ds ++ "." ++ fs ++ rest) = ds ++ "." ++ fs.
Proof.
  intros Hd Hf Hr. unfold match_decimal_here.
  rewrite (span_digits_all ds ("." ++ fs ++ rest) Hd); [|reflexivity].
  simpl. now rewrite (span_digits_all _ _ Hf Hr).
Qed.

Lemma digits_value_acc fs acc :
  digits_value acc fs
  = (acc * 10 ^ Z.of_nat (String.length fs) + digits_value 0 fs)%Z.
Proof.
  revert acc. induction fs as [|c fs IH]; intros acc.
  - simpl. lia.
  - cbn [digits_value String.length]. rewrite IH, (IH (10 * 0 + digit_value c)%Z).
    rewrite Nat2Z.inj_succ, Z.pow_succ_r by lia. ring.
Qed.

Lemma digits_value_number ds : digits_value 0 ds = digits_number ds.
Proof.
  induction ds as [|c ds IH]; [reflexivity|].
  cbn [digits_value digits_number]. rewrite digits_value_acc, IH.
  unfold digit_value. lia.
Qed.

Lemma float_of_integer ds :
  all_digits ds -> float_of_match ds == decimal_value ds "".
Proof.
  intros Hd. unfold float_of_match, decimal_value. rewrite (span_digits_nil _ Hd).
  rewrite <- digits_value_number. simpl. field.
Qed.

Lemma float_of_fraction ds fs :
  all_digits ds -> all_digits fs ->
  float_of_match (ds ++ "." ++ fs) == decimal_value ds fs.
Proof.
  intros Hd Hf. unfold float_of_match, decimal_value.
  replace (ds ++ "." ++ fs) with (ds ++ String "." fs) by reflexivity.
  rewrite (span_digits_all ds (String "." fs) Hd); [|reflexivity].
  rewrite Qred_correct, digits_value_acc, <- !digits_value_number.
  set (n := Z.of_nat (String.length fs)).
  assert (Hpos : (0 < 10 ^ n)%Z) by (apply Z.pow_pos_nonneg; lia).
  unfold Qeq, Qplus, Qdiv, Qmult, Qinv, inject_Z. simpl Qnum. simpl Qden.
  destruct (10 ^ n)%Z as [|p|p] eqn:E; try lia.
  simpl. rewrite ?Pos.mul_1_l, ?Pos.mul_1_r, ?Z.mul_1_r. lia.
Qed.

Lemma extract_price_of_match text m :
  re_search_decimal (strip_price_text text) = Some m ->
  _extract_price (Some text) = float_of_match m.
Proof.
  intros H. destruct text as [|c text]; [discriminate|].
  unfold _extract_price. now rewrite H.
Qed.

Lemma extract_price_no_digit text :
  no_digit (strip_price_text text) -> _extract_price (Some text) = 0.
Proof.
  intros H. destruct text as [|c text]; [reflexivity|].
  unfold _extract_price. now rewrite (re_search_none _ H).
Qed.

Lemma extract_price_first_decimal text ds fs :
  first_decimal (strip_price_text text) ds fs ->
  _extract_price (Some text) == decimal_value ds fs.
Proof.
  intros H. inversion H as [pre ds' rest Hp Hne Hd Hr Hdot Heq
                           | pre ds' fs' rest Hp Hne Hd Hf Hr Heq]; subst.
  - rewrite (extract_price_of_match text ds).
    + now apply float_of_integer.
    + rewrite <- Heq, re_search_skip, re_search_at_digit by assumption.
      f_equal. now apply match_integer.
  - rewrite (extract_price_of_match text (ds ++ "." ++ fs)).
    + now apply float_of_fraction.
    + rewrite <- Heq, re_search_skip, re_search_at_digit by assumption.
      f_equal. now apply match_fraction.
Qed.

(** A parsed price is never negative. *)
Lemma digits_value_nonneg s acc : (0 <= acc)%Z -> (0 <= digits_value acc s)%Z.
Proof.
  revert acc. induction s as [|c s IH]; intros acc H; cbn [digits_value]; [exact H|].
  apply IH. unfold digit_value. lia.
Qed.

Lemma extract_price_nonneg text : 0 <= _extract_price text.
Proof.
  assert (Hm : forall m, 0 <= float_of_match m).
  { intros m. unfold float_of_match. destruct (span_digits m) as [ds rest].
    assert (Hint : 0 <= inject_Z (digits_value 0 ds)).
    { unfold Qle. simpl. pose proof (digits_value_nonneg ds 0). lia. }
    destruct rest as [|c fs]; [exact Hint|].
    destruct (Ascii.eqb c ".") eqn:E.
    - apply Ascii.eqb_eq in E. subst c. rewrite Qred_correct.
      unfold Qle. simpl.
      pose proof (digits_value_nonneg fs (digits_value 0 ds)
                    (digits_value_nonneg ds 0 (Z.le_refl 0))). lia.
    - destruct c as [[] [] [] [] [] [] [] []]; try exact Hint. discriminate. }
  destruct text as [[|c text]|]; try apply Qle_refl.
  unfold _extract_price. destruct (re_search_decimal _); [apply Hm | apply Qle_refl].
Qed.

(** A string with a digit has a first decimal. *)
Lemma span_digits_spec s :
  let (ds, rest) := span_digits s in
  s = ds ++ rest /\ all_digits ds /\ not_starting is_digit rest.
Proof.
  unfold all_digits, chars. induction s as [|c s IH]; simpl.
  - repeat split.
  - destruct (is_digit c) eqn:Hc.
    + destruct (span_digits s) as [ds rest]. destruct IH as [-> [Hd Hr]].
      simpl. rewrite Hc. repeat split; assumption.
    + repeat split. simpl. exact Hc.
Qed.

Lemma first_decimal_exists s :
  no_digit s \/ exists ds fs, first_decimal s ds fs.
Proof.
  induction s as [|c s IH].
  - left. reflexivity.
  - destruct (is_digit c) eqn:Hc.
    + right. generalize (span_digits_spec (String c s)).
      destruct (span_digits (String c s)) as [ds rest] eqn:E. intros [Hs [Hd Hr]].
      assert (Hne : ds <> "").
      { intros ->. simpl in E. rewrite Hc in E.
        destruct (span_digits s); discriminate. }
      destruct rest as [|r rest].
      * exists ds, "". rewrite Hs. apply (fd_integer "" ds ""); auto; reflexivity.
      * destruct (is_dot r) eqn:Hdot.
        -- apply Ascii.eqb_eq in Hdot. subst r.
           generalize (span_digits_spec rest).
           destruct (span_digits rest) as [fs rest'].
           intros [-> [Hf Hr']]. exists ds, fs. rewrite Hs.
           apply (fd_fraction "" ds fs rest'); auto; reflexivity.
        -- exists ds, "". rewrite Hs.
           apply (fd_integer "" ds (String r rest)); auto; reflexivity.
    + destruct IH as [Hn | [ds [fs H]]].
      * left. unfold no_digit, chars in *. simpl. now rewrite Hc.
      * right. exists ds, fs.
        assert (Hp : forall pre, no_digit pre -> no_digit (String c pre)).
        { intros pre Hpre. unfold no_digit, chars in *. simpl. now rewrite Hc. }
        inversion H; subst.
        -- apply (fd_integer (String c pre) ds rest); auto.
        -- apply (fd_fraction (String c pre) ds fs rest); auto.
Qed.

(** C8. Price parsing is a total function. An absent or empty text gives
    0.0. Otherwise commas, dollar signs and capital S are removed first:
    when no digit remains the result is 0.0, and when a digit remains the
    result is the value of the first decimal-like number (a run of digits,
    then optionally a dot and a run of digits). One of the two cases
    always applies. No digits gives 0.0 and $1,234.50 gives 1234.50. *)
Theorem extract_price_total :
  _extract_price None = 0 /\
  _extract_price (Some "") = 0 /\
  (forall text, no_digit (strip_price_text text) -> _extract_price (Some text) = 0) /\
  (forall text ds fs, first_decimal (strip_price_text text) ds fs ->
     _extract_price (Some text) == decimal_value ds fs) /\
  (forall text, no_digit (strip_price_text text) \/
     exists ds fs, first_decimal (strip_price_text text) ds fs) /\
  _extract_price (Some "no digits") = 0 /\
  _extract_price (Some "$1,234.50") == 1234.50.
Proof.
  split; [reflexivity|]. split; [reflexivity|].
  split; [exact extract_price_no_digit|].
  split; [exact extract_price_first_decimal|].
  split; [intros text; apply first_decimal_exists|].
  split; reflexivity.
Qed.

Lemma extract_price_total_witness :
  first_decimal (strip_price_text "S$1,234.50 each") "1234" "50" /\
  _extract_price (Some "S$1,234.50 each") == decimal_value "1234" "50".
Proof.
  assert (H : first_decimal (strip_price_text "S$1,234.50 each") "1234" "50")
    by (apply (fd_fraction "" "1234" "50" " each"); (reflexivity || discriminate)).
  split; [exact H|].
  exact (proj1 (proj2 (proj2 (proj2 extract_price_total))) _ _ _ H).
Defined.

End ParseFacts.

(* ================================================================== *)
(** ** Facts about the Python primitives *)

Module PyFacts.

Lemma ltb_lt a b : Py.ltb a b = true <-> a < b.
Proof.
  unfold Py.ltb. rewrite negb_true_iff. split.
  - intros H. apply Qnot_le_lt. intros Hle. apply Qle_bool_iff in Hle. congruence.
  - intros H. destruct (Qle_bool b a) eqn:E; [|reflexivity].
    apply Qle_bool_iff in E. exfalso. exact (Qlt_not_le _ _ H E).
Qed.

Lemma ltb_ge a b : Py.ltb a b = false <-> b <= a.
Proof.
  unfold Py.ltb. rewrite negb_false_iff. apply Qle_bool_iff.
Qed.

Lemma geb_le a b : Py.geb a b = true <-> b <= a.
Proof. apply Qle_bool_iff. Qed.

Lemma slice_to_nonneg {A} (m : Z) (l : list A) :
  (0 <= m)%Z -> Py.slice_to m l = firstn (Z.to_nat m) l.
Proof.
  intros H. unfold Py.slice_to. destruct (0 <=? m)%Z eqn:E; [reflexivity|].
  apply Z.leb_gt in E. lia.
Qed.

Lemma filter_map_app {A B} (f : A -> option B) (l1 l2 : list A) :
  Py.filter_map f (l1 ++ l2) = (Py.filter_map f l1 ++ Py.filter_map f l2)%list.
Proof.
  induction l1 as [|x l1 IH]; simpl; [reflexivity|].
  destruct (f x); simpl; now rewrite IH.
Qed.

Lemma filter_map_length {A B} (f : A -> option B) (l : list A) :
  (List.length (Py.filter_map f l) <= List.length l)%nat.
Proof.
  induction l as [|x l IH]; simpl; [lia|]. destruct (f x); simpl; lia.
Qed.

End PyFacts.

(* ================================================================== *)
(** ** The scrapers *)

Module ScraperFacts.
Import PyStr Dom Scraper ScraperSpec PyFacts.

(** *** Which containers a scrape considers *)

Lemma first_max_candidates (n : nat) (s1 s2 s3 : Selector) (soup : Soup) :
  firstn n (Py.or_list (soup_select soup s1)
              (Py.or_list (soup_select soup s2) (firstn n (soup_select soup s3))))
  = firstn n (candidates s1 s2 s3 soup).
Proof.
  unfold candidates.
  destruct (soup_select soup s1) as [|c1 l1]; [|reflexivity].
  destruct (soup_select soup s2) as [|c2 l2]; [|reflexivity].
  simpl. rewrite firstn_firstn. now rewrite Nat.min_id.
Qed.

Lemma scrape_page_loaded extract s1 s2 s3 b max_products soup :
  (0 <= max_products)%Z ->
  launch b = None -> page b = inr soup -> close b = None ->
  scrape_page extract s1 s2 s3 b max_products
  = inr (Py.filter_map (extract (clock b))
           (firstn (Z.to_nat max_products) (candidates s1 s2 s3 soup))).
Proof.
  intros Hm Hl Hp Hc. unfold scrape_page, find_containers.
  rewrite Hl, Hp, Hc, !slice_to_nonneg by assumption.
  now rewrite first_max_candidates.
Qed.

Lemma simple_product_skips self names prices now c :
  simple_product self names prices now c = None
  <-> found (first_match c names) = false.
Proof.
  unfold simple_product.
  destruct (first_match c names); simpl; split; intros H;
    (discriminate H || reflexivity).
Qed.

Lemma adapter_is_scrape_page a :
  In a adapters ->
  exists s1 s2 s3,
    containers a = candidates s1 s2 s3 /\
    forall b headless max_products,
      scrape a b headless max_products
      = scrape_page (extract a) s1 s2 s3 b max_products.
Proof.
  intros Ha. simpl in Ha.
  destruct Ha as [<- | [<- | [<- | [<- | [<- | []]]]]];
    do 3 eexists; split; reflexivity.
Qed.

Lemma adapter_skips a now c :
  In a adapters -> (extract a now c = None <-> has_name a c = false).
Proof.
  intros Ha. simpl in Ha.
  destruct Ha as [<- | [<- | [<- | [<- | [<- | []]]]]];
    try apply simple_product_skips.
  - cbn [shopee extract has_name].
    unfold ShopeeScraper._extract_product_with_flash_sale.
    match goal with
    | |- context [found (first_match c ?l)] => destruct (first_match c l)
    end; simpl; [split; intros H; discriminate H|].
    destruct (find_text_milo c); simpl; split; intros H;
      (discriminate H || reflexivity).
  - cbn [lazada extract has_name].
    unfold LazadaScraper._extract_product_with_flash_sale.
    match goal with
    | |- context [found (first_match c ?l)] => destruct (first_match c l)
    end; simpl; split; intros H; (discriminate H || reflexivity).
Qed.

(** C6. For every adapter, every loaded document and every bound
    [max_products >= 0], the products are those extracted from the first
    [max_products] candidate containers, in order. A container is skipped
    exactly when its name cannot be resolved; a skipped container among
    the first [max_products] takes one of those places, yields no product,
    and the containers before and after it are extracted all the same; the
    scrape returns normally. *)
Theorem extraction_considers_first_max_containers
    (a : Adapter) (b : Browser) (headless : bool) (max_products : Z) (soup : Soup) :
  In a adapters -> (0 <= max_products)%Z ->
  launch b = None -> page b = inr soup -> close b = None ->
  let considered := firstn (Z.to_nat max_products) (containers a soup) in
  let products := Py.filter_map (extract a (clock b)) considered in
  scrape a b headless max_products = inr products /\
  (List.length products <= List.length considered <= Z.to_nat max_products)%nat /\
  (forall c, extract a (clock b) c = None <-> has_name a c = false) /\
  (forall before c after,
     considered = (before ++ c :: after)%list -> has_name a c = false ->
     products = (Py.filter_map (extract a (clock b)) before
                 ++ Py.filter_map (extract a (clock b)) after)%list).
Proof.
  intros Ha Hm Hl Hp Hc considered products.
  destruct (adapter_is_scrape_page a Ha) as [s1 [s2 [s3 [Hcont Hscrape]]]].
  split; [|split; [|split]].
  - rewrite Hscrape, (scrape_page_loaded _ _ _ _ _ _ soup) by assumption.
    unfold products, considered. now rewrite Hcont.
  - split; [apply filter_map_length | apply firstn_le_length].
  - intros c. now apply adapter_skips.
  - intros before c after Hsplit Hname. unfold products. rewrite Hsplit.
    rewrite filter_map_app. simpl.
    apply (adapter_skips a (clock b) c Ha) in Hname. now rewrite Hname.
Qed.

Lemma extraction_considers_first_max_containers_witness :
  FairPriceScraper.scrape (Pages.loaded Pages.fairprice_page) true 2
  = inr (Py.filter_map (FairPriceScraper.extract Pages.noon)
           [Pages.fairprice_banner; Pages.fairprice_card "Milo UHT 200ml" "$1.20"])
  /\ List.length
       (Py.filter_map (FairPriceScraper.extract Pages.noon)
          [Pages.fairprice_banner; Pages.fairprice_card "Milo UHT 200ml" "$1.20"])
     = 1%nat.
Proof.
  split; [|reflexivity].
  exact (proj1 (extraction_considers_first_max_containers
                  fairprice (Pages.loaded Pages.fairprice_page) true 2
                  Pages.fairprice_page
                  (or_introl eq_refl) ltac:(lia) eq_refl eq_refl eq_refl)).
Defined.

(** *** The promotion flag *)

Lemma found_find {A} (f : A -> bool) (l : list A) : found (find f l) = existsb f l.
Proof.
  induction l as [|x l IH]; simpl; [reflexivity|]. now destruct (f x).
Qed.

Lemma some_or_list {A} (a b : list A) : some (Py.or_list a b) = some a || some b.
Proof. now destruct a. Qed.





Lemma any_in_found words s :
  any_in words s = found (find (fun indicator => contains indicator s) words).
Proof. unfold any_in. now rewrite found_find. Qed.


(** The listed original price stands for the parsed one wherever the
    price is reduced. *)
Lemma listed_original cur orig :
  let listed := if Py.ltb 0 orig then orig else cur in
  Py.ltb cur listed && Py.ltb 0 cur = Py.ltb cur orig && Py.ltb 0 cur
  /\ (Py.ltb cur orig && Py.ltb 0 cur = true -> listed = orig).
Proof.
  cbv zeta. destruct (Py.ltb 0 orig) eqn:Ho; [split; reflexivity|].
  apply ltb_ge in Ho.
  assert (Hcc : Py.ltb cur cur = false) by (apply ltb_ge, Qle_refl).
  rewrite Hcc. simpl.
  destruct (Py.ltb cur orig) eqn:H1; [|split; [reflexivity | discriminate]].
  destruct (Py.ltb 0 cur) eqn:H2; [|split; [reflexivity | discriminate]].
  apply ltb_lt in H1, H2. exfalso.
  apply (Qlt_irrefl 0). apply Qlt_le_trans with orig; [|exact Ho].
  now apply Qlt_trans with cur.
Qed.

Lemma reduced_iff p :
  Py.ltb (Product.price p) (Product.original_price p) && Py.ltb 0 (Product.price p) = true
  <-> reduced p.
Proof. unfold reduced. now rewrite andb_true_iff, !ltb_lt. Qed.


Lemma simple_product_listing self names prices now c p :
  simple_product self names prices now c = Some p ->
  (Product.flash_sale p = true <-> reduced p) /\ Product.discount_percent p = None.
Proof.
  unfold simple_product. destruct (first_match c names); [|discriminate].
  intros H. injection H as <-. split; [|reflexivity].
  rewrite <- reduced_iff.
  cbn [Product.flash_sale Product.price Product.original_price].
  match goal with
  | |- context [original_price_of ?e ?x] =>
      destruct (listed_original x (original_price_of e x)) as [H1 _]
  end.
  cbv zeta in H1. rewrite H1. tauto.
Qed.

Lemma plain_adapter_listing a now c p :
  In a plain_adapters -> extract a now c = Some p ->
  (Product.flash_sale p = true <-> reduced p) /\ Product.discount_percent p = None.
Proof.
  intros Ha. simpl in Ha. destruct Ha as [<- | [<- | [<- | []]]];
    apply simple_product_listing.
Qed.





Lemma listing_price_parsed_shopee now c p :
  extract shopee now c = Some p -> exists text, Product.price p = _extract_price text.
Proof.
  cbn [shopee extract]. unfold ShopeeScraper._extract_product_with_flash_sale.
  match goal with
  | |- context [match ?n with Some _ => _ | None => None end = Some p] => destruct n
  end; [|discriminate].
  cbv zeta. intros H. injection H as <-. cbn [Product.price]. unfold price_of. eauto.
Qed.

Lemma listing_price_parsed_lazada now c p :
  extract lazada now c = Some p -> exists text, Product.price p = _extract_price text.
Proof.
  cbn [lazada extract]. unfold LazadaScraper._extract_product_with_flash_sale.
  destruct (first_match c _); [|discriminate].
  cbv zeta. intros H. injection H as <-. cbn [Product.price]. unfold price_of. eauto.
Qed.





(** The price of a listing is a parsed price, hence not negative. *)
Lemma adapter_price_nonneg a now c p :
  In a adapters -> extract a now c = Some p -> 0 <= Product.price p.
Proof.
  intros Ha H.
  assert (Hparsed : exists text, Product.price p = _extract_price text).
  { simpl in Ha. destruct Ha as [<- | [<- | [<- | [<- | [<- | []]]]]].
    - cbn [fairprice extract] in H. unfold FairPriceScraper.extract, simple_product in H.
      destruct (first_match c _) in H; [|discriminate].
      injection H as <-. cbn [Product.price]. unfold price_of. eauto.
    - exact (listing_price_parsed_shopee now c p H).
    - exact (listing_price_parsed_lazada now c p H).
    - cbn [shengsiong extract] in H. unfold ShengSiongScraper.extract, simple_product in H.
      destruct (first_match c _) in H; [|discriminate].
      injection H as <-. cbn [Product.price]. unfold price_of. eauto.
    - cbn [giant extract] in H. unfold GiantScraper.extract, simple_product in H.
      destruct (first_match c _) in H; [|discriminate].
      injection H as <-. cbn [Product.price]. unfold price_of. eauto. }
  destruct Hparsed as [text ->]. apply ParseFacts.extract_price_nonneg.
Qed.

(** *** The discount field *)




End ScraperFacts.

(* ================================================================== *)
(** ** The backend *)

Module BackendFacts.
Import PyStr Backend BackendSpec PyFacts.

(** *** Cache freshness *)

Lemma timedelta_seconds_within_a_day delta :
  (0 <= delta < 86400000000)%Z -> timedelta_seconds delta = (delta / 1000000)%Z.
Proof.
  intros H. unfold timedelta_seconds. now rewrite Z.mod_small.
Qed.

(** Within one day of the snapshot the cache is fresh exactly when its age
    is under an hour. *)
Lemma get_cached_data_within_a_day cache now t :
  last_updated cache = Some t ->
  (0 <= now - t < 86400000000)%Z ->
  (get_cached_data cache now = Some (products cache)
   <-> (age_seconds now t < CACHE_DURATION)%Z) /\
  (get_cached_data cache now = None
   <-> (CACHE_DURATION <= age_seconds now t)%Z).
Proof.
  intros Ht Hd. unfold get_cached_data, age_seconds. rewrite Ht.
  rewrite (timedelta_seconds_within_a_day _ Hd).
  destruct (_ <? CACHE_DURATION)%Z eqn:E;
    [apply Z.ltb_lt in E | apply Z.ltb_ge in E]; split; split;
    intros H; try reflexivity; try discriminate; try assumption; try lia.
Qed.

(** C2, where the code departs from it. A snapshot that is one day and ten
    seconds old, far beyond the hour, is returned as fresh: only the
    seconds field of the age, here 10, is compared with the duration. *)
Theorem get_cached_data_fresh_again_after_a_day
    (snapshot : list Entry.t) (t : datetime) (by_platform : Py.dict (list Product.t)) :
  let cache :=
    {| products := snapshot; last_updated := Some t; by_platform := by_platform |} in
  let now := (t + 86410 * 1000000)%Z in
  age_seconds now t = 86410%Z /\
  (CACHE_DURATION + 1 <= age_seconds now t)%Z /\
  timedelta_seconds (now - t) = 10%Z /\
  get_cached_data cache now = Some snapshot.
Proof.
  cbv zeta. unfold get_cached_data, age_seconds. cbn [last_updated products].
  replace (t + 86410 * 1000000 - t)%Z with 86410000000%Z by lia.
  repeat split; vm_compute; congruence.
Qed.

(** *** The scrape cycle *)

Lemma dict_set_fresh {V} k (v : V) d :
  ~ In k (Py.keys d) -> Py.dict_set k v d = (d ++ [(k, v)])%list.
Proof.
  induction d as [|[k' v'] d IH]; simpl; intros H; [reflexivity|].
  destruct (String.eqb k k') eqn:E.
  - apply String.eqb_eq in E. subst. tauto.
  - rewrite IH; tauto.
Qed.

Lemma keys_app {V} (d1 d2 : Py.dict V) :
  Py.keys (d1 ++ d2)%list = (Py.keys d1 ++ Py.keys d2)%list.
Proof. apply map_app. Qed.

(** The loop of the scraper module, over any duplicate-free table. *)
Lemma scraper_loop site headless max_products table acc :
  NoDup (Py.keys acc ++ Py.keys table)%list ->
  fold_left
    (fun all_products '(platform, scrape) =>
       match scrape (site platform) headless max_products with
       | inr products => Py.dict_set platform products all_products
       | inl e => Py.dict_set platform [] all_products
       end) table acc
  = (acc ++ map (outcome site headless max_products) table)%list.
Proof.
  revert acc. induction table as [|[name scrape] table IH]; intros acc Hnd.
  - simpl. now rewrite app_nil_r.
  - cbn [fold_left map]. simpl in Hnd.
    assert (Hfresh : ~ In name (Py.keys acc)).
    { apply NoDup_remove_2 in Hnd. intros Hin. apply Hnd. apply in_or_app. now left. }
    assert (Hnd' : NoDup (Py.keys (acc ++ [(name, listed (scrape (site name) headless max_products))])
                          ++ Py.keys table)%list).
    { rewrite keys_app. simpl. rewrite <- app_assoc. exact Hnd. }
    change (outcome site headless max_products (name, scrape))
      with (name, listed (scrape (site name) headless max_products)).
    destruct (scrape (site name) headless max_products) as [e|products];
      cbn [listed] in *;
      rewrite dict_set_fresh by assumption; rewrite IH by exact Hnd';
      rewrite <- app_assoc; reflexivity.
Qed.

(** The loop of the backend, with the state it threads. *)
Lemma backend_loop site table acc snapshot updated stored_by called :
  NoDup (Py.keys acc ++ Py.keys table)%list ->
  fold_left (scrape_step site) table
    (acc, {| cache := {| products := snapshot; last_updated := updated;
                         by_platform := stored_by |};
             calls := called |})
  = ((acc ++ map (outcome site true 10%Z) table)%list,
     {| cache := {| products := snapshot; last_updated := updated;
                    by_platform := fold_left (stored site) table stored_by |};
        calls := (called ++ Py.keys table)%list |}).
Proof.
  revert acc stored_by called.
  induction table as [|[name scrape] table IH]; intros acc stored_by called Hnd.
  - simpl. now rewrite !app_nil_r.
  - cbn [fold_left map]. simpl in Hnd.
    assert (Hfresh : ~ In name (Py.keys acc)).
    { apply NoDup_remove_2 in Hnd. intros Hin. apply Hnd. apply in_or_app. now left. }
    assert (Hnd' : NoDup (Py.keys (acc ++ [(name, listed (scrape (site name) true 10%Z))])
                          ++ Py.keys table)%list).
    { rewrite keys_app. simpl. rewrite <- app_assoc. exact Hnd. }
    change (outcome site true 10%Z (name, scrape))
      with (name, listed (scrape (site name) true 10%Z)).
    change (fold_left (stored site) ((name, scrape) :: table) stored_by)
      with (fold_left (stored site) table (stored site stored_by (name, scrape))).
    unfold scrape_step at 2, stored at 2.
    cbn [fst snd cache calls products last_updated by_platform].
    destruct (scrape (site name) true 10%Z) as [e|products];
      cbn [listed] in *;
      rewrite dict_set_fresh by assumption; rewrite IH by exact Hnd';
      cbn [Py.keys map fst]; rewrite <- !app_assoc; reflexivity.
Qed.

Lemma platforms_nodup : NoDup (Py.keys Scraper.scrapers).
Proof.
  change (NoDup platforms). unfold platforms.
  repeat constructor; simpl; intuition discriminate.
Qed.

Lemma scrape_cycle_result site st :
  scrape_cycle site st
  = (map (outcome site true 10%Z) Scraper.scrapers,
     {| cache := {| products := products (cache st);
                    last_updated := last_updated (cache st);
                    by_platform := fold_left (stored site) Scraper.scrapers
                                     (by_platform (cache st)) |};
        calls := (calls st ++ platforms)%list |}).
Proof.
  destruct st as [[snapshot updated stored_by] called]. unfold scrape_cycle.
  rewrite backend_loop by exact platforms_nodup. reflexivity.
Qed.

Lemma scrape_all_platforms_result site now st :
  scrape_all_platforms site now st
  = (consolidate_products (map (outcome site true 10%Z) Scraper.scrapers),
     after_cycle site now
       (consolidate_products (map (outcome site true 10%Z) Scraper.scrapers)) st).
Proof.
  unfold scrape_all_platforms. rewrite scrape_cycle_result. reflexivity.
Qed.

Lemma outcome_of_platform site headless max_products name scrape :
  In (name, scrape) Scraper.scrapers ->
  Py.dict_get name (map (outcome site headless max_products) Scraper.scrapers)
  = Some (listed (scrape (site name) headless max_products)).
Proof.
  intros H. simpl in H.
  destruct H as [H | [H | [H | [H | [H | []]]]]]; injection H as <- <-; reflexivity.
Qed.

(** C4. In both cycle functions each platform gets its own entry of the
    result map, in the order of the scrapers: what its scrape returned,
    or the empty list if it raised. The entry of a platform depends on
    nothing but its own scrape; every platform is invoked, whatever the
    others did; and when all of them raise, the cycle still returns the
    map, with five empty lists. *)
Theorem scrape_cycle_isolates_platforms
    (site : string -> Dom.Browser) (headless : bool) (max_products : Z) (st : State) :
  let result := Scraper.scrape_all_platforms site headless max_products in
  let cycle := scrape_cycle site st in
  result = map (outcome site headless max_products) Scraper.scrapers /\
  fst cycle = map (outcome site true 10%Z) Scraper.scrapers /\
  Py.keys result = platforms /\ Py.keys (fst cycle) = platforms /\
  calls (snd cycle) = (calls st ++ platforms)%list /\
  (forall name scrape e,
     In (name, scrape) Scraper.scrapers ->
     (scrape (site name) headless max_products = inl e ->
      Py.dict_get name result = Some []) /\
     (scrape (site name) true 10%Z = inl e ->
      Py.dict_get name (fst cycle) = Some [])) /\
  (forall name scrape products,
     In (name, scrape) Scraper.scrapers ->
     (scrape (site name) headless max_products = inr products ->
      Py.dict_get name result = Some products) /\
     (scrape (site name) true 10%Z = inr products ->
      Py.dict_get name (fst cycle) = Some products)) /\
  (forall now,
     fst (scrape_all_platforms site now st) = consolidate_products (fst cycle)) /\
  ((forall name scrape, In (name, scrape) Scraper.scrapers ->
      exists e, scrape (site name) true 10%Z = inl e) ->
   fst cycle = map (fun name => (name, [])) platforms /\
   forall now, scrape_all_platforms site now st = ([], after_cycle site now [] st)).
Proof.
  cbv zeta.
  assert (Hr : Scraper.scrape_all_platforms site headless max_products
               = map (outcome site headless max_products) Scraper.scrapers).
  { unfold Scraper.scrape_all_platforms.
    now rewrite (scraper_loop site headless max_products Scraper.scrapers [])
      by exact platforms_nodup. }
  rewrite Hr, scrape_cycle_result. cbn [fst snd calls].
  split; [reflexivity|]. split; [reflexivity|].
  split; [reflexivity|]. split; [reflexivity|]. split; [reflexivity|].
  split; [|split; [|split]].
  - intros name scrape e Hin.
    split; intros H; rewrite (outcome_of_platform _ _ _ _ _ Hin), H; reflexivity.
  - intros name scrape products Hin.
    split; intros H; rewrite (outcome_of_platform _ _ _ _ _ Hin), H; reflexivity.
  - intros now. rewrite scrape_all_platforms_result. reflexivity.
  - intros Hall.
    assert (Hempty : map (outcome site true 10%Z) Scraper.scrapers
                     = map (fun name => (name, [])) platforms).
    { unfold Scraper.scrapers, platforms. cbn [map]. unfold outcome. cbn [fst snd].
      repeat match goal with
      | |- context [listed (?scrape (site ?name) true 10%Z)] =>
          let e := fresh "e" in let E := fresh "E" in
          destruct (Hall name scrape) as [e E];
          [simpl; tauto | rewrite E; cbn [listed]]
      end.
      reflexivity. }
    split; [exact Hempty|].
    intros now. rewrite scrape_all_platforms_result, Hempty. reflexivity.
Qed.

Lemma scrape_cycle_isolates_platforms_witness :
  Scraper.FairPriceScraper.scrape (Sites.only_fairprice "fairprice") true 10%Z
  = inr [Pages.fairprice_uht_listing; Pages.fairprice_listing] /\
  Py.dict_get "fairprice" (fst (scrape_cycle Sites.only_fairprice Sites.empty_snapshot))
  = Some [Pages.fairprice_uht_listing; Pages.fairprice_listing] /\
  Scraper.ShopeeScraper.scrape (Sites.only_fairprice "shopee") true 10%Z
  = inl (Py.Exception "browser not installed") /\
  Py.dict_get "shopee" (fst (scrape_cycle Sites.only_fairprice Sites.empty_snapshot))
  = Some [].
Proof.
  pose proof (scrape_cycle_isolates_platforms
                Sites.only_fairprice true 10%Z Sites.empty_snapshot) as H.
  cbv zeta in H.
  destruct H as [_ [_ [_ [_ [_ [Hfail [Hok _]]]]]]].
  split; [reflexivity|]. split.
  - exact (proj2 (Hok "fairprice" Scraper.FairPriceScraper.scrape _
                    (or_introl eq_refl)) eq_refl).
  - split; [reflexivity|].
    exact (proj2 (Hfail "shopee" Scraper.ShopeeScraper.scrape
                    (Py.Exception "browser not installed")
                    (or_intror (or_introl eq_refl))) eq_refl).
Defined.

(** *** Requests against a fresh snapshot with no products *)

Lemma cached_or_scraped_miss site now st :
  truthy (get_cached_data (cache st) now) = false ->
  cached_or_scraped site now st = scrape_all_platforms site now st.
Proof.
  unfold cached_or_scraped. destruct (get_cached_data (cache st) now) as [[|e l]|];
    [reflexivity | discriminate | reflexivity].
Qed.

Lemma get_products_miss site now st :
  truthy (get_cached_data (cache st) now) = false ->
  get_products site now st
  = (let consolidated :=
       consolidate_products (map (outcome site true 10%Z) Scraper.scrapers) in
     (products_json consolidated now "fresh_scrape"
        (Py.keys (by_platform (cache (after_cycle site now consolidated st)))),
      after_cycle site now consolidated st)).
Proof.
  unfold get_products. destruct (get_cached_data (cache st) now) as [[|e l]|];
    [| discriminate |]; intros _; rewrite scrape_all_platforms_result; reflexivity.
Qed.

Lemma get_cached_data_empty st now t :
  last_updated (cache st) = Some t ->
  (timedelta_seconds (now - t) < CACHE_DURATION)%Z ->
  products (cache st) = [] ->
  get_cached_data (cache st) now = Some [].
Proof.
  intros Ht Hfresh Hp. unfold get_cached_data. rewrite Ht, Hp.
  apply Z.ltb_lt in Hfresh. now rewrite Hfresh.
Qed.

(** C10. A snapshot that is fresh but holds no product is read as a cache
    miss: [get_cached_data] returns the empty list, and the products,
    best-deals and flash-sales requests each answer, and leave the process,
    exactly as they would with no snapshot at all: each runs a full cycle,
    invoking every platform's scraper, and the products request reports a
    fresh scrape. *)
Theorem empty_snapshot_is_a_cache_miss
    (site : string -> Dom.Browser) (now : datetime) (st : State) (t : datetime) :
  last_updated (cache st) = Some t ->
  (timedelta_seconds (now - t) < CACHE_DURATION)%Z ->
  products (cache st) = [] ->
  get_cached_data (cache st) now = Some [] /\
  get_cached_data (cache (without_snapshot st)) now = None /\
  get_products site now st = get_products site now (without_snapshot st) /\
  get_best_deals site now st = get_best_deals site now (without_snapshot st) /\
  get_flash_sales site now st = get_flash_sales site now (without_snapshot st) /\
  (exists consolidated,
     get_products site now st
     = (products_json consolidated now "fresh_scrape"
          (Py.keys (by_platform (cache (after_cycle site now consolidated st)))),
        after_cycle site now consolidated st)) /\
  calls (snd (get_products site now st)) = (calls st ++ platforms)%list /\
  calls (snd (get_best_deals site now st)) = (calls st ++ platforms)%list /\
  calls (snd (get_flash_sales site now st)) = (calls st ++ platforms)%list.
Proof.
  intros Ht Hfresh Hp.
  pose proof (get_cached_data_empty st now t Ht Hfresh Hp) as Hget.
  assert (Hmiss : truthy (get_cached_data (cache st) now) = false)
    by now rewrite Hget.
  assert (Hnone : truthy (get_cached_data (cache (without_snapshot st)) now) = false)
    by reflexivity.
  assert (Hsame : scrape_all_platforms site now st
                  = scrape_all_platforms site now (without_snapshot st))
    by (rewrite !scrape_all_platforms_result; reflexivity).
  split; [exact Hget|]. split; [reflexivity|].
  split; [rewrite !get_products_miss by assumption; reflexivity|].
  split; [unfold get_best_deals; rewrite !cached_or_scraped_miss by assumption;
          now rewrite Hsame|].
  split; [unfold get_flash_sales; rewrite !cached_or_scraped_miss by assumption;
          now rewrite Hsame|].
  split; [eexists; rewrite get_products_miss by assumption; reflexivity|].
  split; [rewrite get_products_miss by assumption; reflexivity|].
  split.
  - unfold get_best_deals. rewrite cached_or_scraped_miss by assumption.
    rewrite scrape_all_platforms_result.
    destruct (collect_deals _); reflexivity.
  - unfold get_flash_sales. rewrite cached_or_scraped_miss by assumption.
    rewrite scrape_all_platforms_result. reflexivity.
Qed.

Lemma empty_snapshot_is_a_cache_miss_witness :
  get_cached_data (cache Sites.empty_snapshot) 600000000%Z = Some [] /\
  get_products Sites.all_down 600000000%Z Sites.empty_snapshot
  = get_products Sites.all_down 600000000%Z (without_snapshot Sites.empty_snapshot) /\
  calls (snd (get_best_deals Sites.all_down 600000000%Z Sites.empty_snapshot))
  = platforms.
Proof.
  pose proof (empty_snapshot_is_a_cache_miss
                Sites.all_down 600000000%Z Sites.empty_snapshot 0%Z
                eq_refl eq_refl eq_refl) as H.
  destruct H as [H1 [_ [H3 [_ [_ [_ [_ [H8 _]]]]]]]].
  split; [exact H1|]. split; [exact H3 | exact H8].
Defined.

(** *** Consolidation *)

Lemma first_seen_snoc ks k :
  first_seen (ks ++ [k])%list
  = if existsb (String.eqb k) (first_seen ks) then first_seen ks
    else (first_seen ks ++ [k])%list.
Proof. unfold first_seen. now rewrite fold_left_app. Qed.

Lemma existsb_eqb_In k l : existsb (String.eqb k) l = true <-> In k l.
Proof.
  rewrite existsb_exists. split.
  - intros [x [Hin Hx]]. apply String.eqb_eq in Hx. now subst.
  - intros H. exists k. split; [exact H | apply String.eqb_refl].
Qed.

Lemma existsb_eqb_not_In k l : existsb (String.eqb k) l = false <-> ~ In k l.
Proof.
  rewrite <- existsb_eqb_In. destruct (existsb _ l); split; congruence.
Qed.

Lemma first_seen_In ks k : In k (first_seen ks) <-> In k ks.
Proof.
  induction ks as [|a ks IH] using rev_ind; [reflexivity|].
  rewrite first_seen_snoc, in_app_iff.
  destruct (existsb (String.eqb a) (first_seen ks)) eqn:E.
  - apply existsb_eqb_In in E. rewrite IH. simpl.
    split; [tauto|]. intros [H | [<- | []]]; [exact H | now apply IH].
  - rewrite in_app_iff, IH. reflexivity.
Qed.

Lemma first_seen_NoDup ks : NoDup (first_seen ks).
Proof.
  induction ks as [|a ks IH] using rev_ind; [constructor|].
  rewrite first_seen_snoc.
  destruct (existsb (String.eqb a) (first_seen ks)) eqn:E; [exact IH|].
  apply existsb_eqb_not_In in E.
  apply NoDup_rev in IH. rewrite <- (rev_involutive (_ ++ [a])%list).
  apply NoDup_rev. rewrite rev_app_distr. simpl. constructor; [|exact IH].
  now rewrite <- in_rev.
Qed.

Lemma group_snoc all p k :
  group (all ++ [p])%list k
  = (group all k ++ if String.eqb (key_of p) k then [p] else [])%list.
Proof. unfold group. rewrite filter_app. reflexivity. Qed.

Lemma group_nil all k : ~ In k (map key_of all) -> group all k = [].
Proof.
  intros H. unfold group. induction all as [|p all IH]; [reflexivity|].
  simpl in *. destruct (String.eqb (key_of p) k) eqn:E.
  - apply String.eqb_eq in E. tauto.
  - apply IH. tauto.
Qed.

Lemma group_cons all k :
  In k (map key_of all) -> exists first rest, group all k = first :: rest.
Proof.
  intros H. apply in_map_iff in H as [p [Hk Hin]].
  assert (Hg : In p (group all k)).
  { apply filter_In. split; [exact Hin|]. now apply String.eqb_eq. }
  destruct (group all k) as [|first rest]; [destruct Hg | eauto].
Qed.

Lemma keys_entries_from all i ks : Py.keys (entries_from all i ks) = ks.
Proof.
  unfold Py.keys. revert i. induction ks as [|k ks IH]; intros i; [reflexivity|].
  cbn [entries_from map fst]. now rewrite IH.
Qed.

Lemma entries_from_snoc all i ks k :
  entries_from all i (ks ++ [k])%list
  = (entries_from all i ks ++ [(k, entry_of all (i + List.length ks) k)])%list.
Proof.
  revert i. induction ks as [|a ks IH]; intros i; simpl.
  - now rewrite Nat.add_0_r.
  - rewrite IH. now rewrite Nat.add_succ_r.
Qed.

Lemma entries_from_ext all all' i ks :
  (forall k, In k ks -> group all' k = group all k) ->
  entries_from all' i ks = entries_from all i ks.
Proof.
  revert i. induction ks as [|a ks IH]; intros i H; simpl; [reflexivity|].
  rewrite IH by (intros k Hk; apply H; now right).
  unfold entry_of. now rewrite (H a) by now left.
Qed.

Lemma dict_mem_keys {V} k (d : Py.dict V) :
  Py.dict_mem k d = existsb (String.eqb k) (Py.keys d).
Proof.
  unfold Py.dict_mem. induction d as [|[k' v] d IH]; simpl; [reflexivity|].
  destruct (String.eqb k k'); [reflexivity | exact IH].
Qed.

Lemma append_price_other key info d :
  ~ In key (Py.keys d) -> append_price key info d = d.
Proof.
  induction d as [|[k e] d IH]; simpl; intros H; [reflexivity|].
  destruct (String.eqb key k) eqn:E.
  - apply String.eqb_eq in E. subst. tauto.
  - rewrite IH; tauto.
Qed.

Lemma append_price_app key info d1 d2 :
  ~ In key (Py.keys d1) ->
  append_price key info (d1 ++ d2)%list = (d1 ++ append_price key info d2)%list.
Proof.
  induction d1 as [|[k e] d1 IH]; simpl; intros H; [reflexivity|].
  destruct (String.eqb key k) eqn:E.
  - apply String.eqb_eq in E. subst. tauto.
  - rewrite IH; tauto.
Qed.

(** Appending an offer to the entry of a key that has been seen. *)
Lemma append_price_seen all p i ks :
  NoDup ks -> In (key_of p) ks ->
  (forall k, In k ks -> In k (map key_of all)) ->
  append_price (key_of p) (price_info_of p) (entries_from all i ks)
  = entries_from (all ++ [p])%list i ks.
Proof.
  revert i. induction ks as [|k ks IH]; intros i Hnd Hin Hall; [destruct Hin|].
  inversion Hnd as [|? ? Hk Hnd']; subst. simpl.
  destruct (String.eqb (key_of p) k) eqn:E.
  - apply String.eqb_eq in E. subst k. f_equal.
    + f_equal. unfold entry_of. rewrite group_snoc, String.eqb_refl.
      destruct (group_cons all (key_of p)) as [first [rest Hg]];
        [apply Hall; now left|].
      rewrite Hg. simpl. now rewrite map_app.
    + symmetry. apply entries_from_ext. intros k Hk'.
      rewrite group_snoc.
      destruct (String.eqb (key_of p) k) eqn:E'; [|apply app_nil_r].
      apply String.eqb_eq in E'. subst. contradiction.
  - f_equal.
    + f_equal. unfold entry_of. rewrite group_snoc, E, app_nil_r. reflexivity.
    + apply IH; [exact Hnd' | | intros k' Hk'; apply Hall; now right].
      destruct Hin as [Heq | Hin]; [|exact Hin].
      subst. rewrite String.eqb_refl in E. discriminate.
Qed.

(** One turn of the loop keeps the dictionary and the counter as the
    specification has them. *)
Lemma consolidate_step_spec all p :
  consolidate_step
    (entries_from all 0 (first_seen (map key_of all)),
     Z.of_nat (S (List.length (first_seen (map key_of all))))) p
  = (entries_from (all ++ [p])%list 0 (first_seen (map key_of (all ++ [p])%list)),
     Z.of_nat (S (List.length (first_seen (map key_of (all ++ [p])%list))))).
Proof.
  unfold consolidate_step. rewrite dict_mem_keys, keys_entries_from.
  rewrite map_app. cbn [map]. rewrite first_seen_snoc.
  set (ks := first_seen (map key_of all)).
  destruct (existsb (String.eqb (key_of p)) ks) eqn:E; cbn [negb].
  - apply existsb_eqb_In in E. f_equal.
    apply append_price_seen; [apply first_seen_NoDup | exact E |].
    intros k Hk. now apply first_seen_In.
  - apply existsb_eqb_not_In in E.
    assert (Hfresh : ~ In (key_of p) (map key_of all))
      by (intros H; apply E; now apply first_seen_In).
    rewrite dict_set_fresh by now rewrite keys_entries_from.
    rewrite append_price_app by now rewrite keys_entries_from.
    rewrite entries_from_snoc. cbn [append_price]. rewrite String.eqb_refl.
    f_equal.
    + f_equal.
      * symmetry. apply entries_from_ext. intros k Hk. rewrite group_snoc.
        destruct (String.eqb (key_of p) k) eqn:E'; [|apply app_nil_r].
        apply String.eqb_eq in E'. subst. contradiction.
      * f_equal. f_equal. unfold entry_of.
        rewrite group_snoc, String.eqb_refl, (group_nil _ _ Hfresh). reflexivity.
    + rewrite length_app. simpl. lia.
Qed.

Lemma consolidate_loop all :
  fold_left consolidate_step all ([], 1%Z)
  = (entries_from all 0 (first_seen (map key_of all)),
     Z.of_nat (S (List.length (first_seen (map key_of all))))).
Proof.
  induction all as [|p all IH] using rev_ind; [reflexivity|].
  rewrite fold_left_app, IH. apply consolidate_step_spec.
Qed.

Lemma consolidate_products_spec products_by_platform :
  consolidate_products products_by_platform
  = consolidate (flat_map snd products_by_platform).
Proof.
  unfold consolidate_products, consolidate. now rewrite consolidate_loop.
Qed.

Lemma ids_entries_from all i ks :
  map Entry.id (Py.values (entries_from all i ks))
  = map Z.of_nat (seq (S i) (List.length ks)).
Proof.
  unfold Py.values. revert i. induction ks as [|k ks IH]; intros i; [reflexivity|].
  cbn [entries_from map snd List.length seq]. now rewrite IH.
Qed.


Lemma entries_from_inv all i ks e :
  In e (Py.values (entries_from all i ks)) ->
  exists j k, In k ks /\ e = entry_of all j k.
Proof.
  unfold Py.values. revert i. induction ks as [|a ks IH]; intros i Hin; [destruct Hin|].
  cbn [entries_from map snd] in Hin. destruct Hin as [<- | Hin].
  - exists i, a. split; [now left | reflexivity].
  - destruct (IH (S i) Hin) as [j [k [Hk He]]]. exists j, k. split; [now right | exact He].
Qed.


(** Consolidation keeps prices: entries made of listings without a
    negative price have none either. *)
Lemma consolidated_priced products_by_platform :
  (forall p, In p (flat_map snd products_by_platform) -> 0 <= Product.price p) ->
  forall e, In e (consolidate_products products_by_platform) -> priced e.
Proof.
  intros Hpos e He. rewrite consolidate_products_spec in He.
  apply entries_from_inv in He as [j [k [_ ->]]].
  unfold priced, entry_of. cbn [Entry.prices].
  apply Forall_forall. intros o Ho.
  apply in_map_iff in Ho as [p [<- Hp]]. apply filter_In in Hp as [Hp _].
  cbn [price_info_of PriceInfo.price]. now apply Hpos.
Qed.



(** *** Best deals *)

Section Sorting.
Context {A : Type} (key : A -> Q).

Lemma insert_by_perm x l : Permutation (x :: l) (Py.insert_by key x l).
Proof.
  induction l as [|y l IH]; simpl; [reflexivity|].
  destruct (Py.ltb (key y) (key x)); [|reflexivity].
  rewrite perm_swap. now constructor.
Qed.

Lemma sorted_perm l : Permutation l (Py.sorted key l).
Proof.
  induction l as [|x l IH]; simpl; [reflexivity|].
  rewrite <- insert_by_perm. now constructor.
Qed.

Lemma insert_by_ascending x l :
  ascending key l -> ascending key (Py.insert_by key x l).
Proof.
  unfold ascending. induction l as [|y l IH]; simpl; intros Hs.
  - constructor; constructor.
  - apply StronglySorted_inv in Hs as [Hs Hy].
    destruct (Py.ltb (key y) (key x)) eqn:E.
    + apply ltb_lt in E. constructor; [now apply IH|].
      rewrite <- insert_by_perm. constructor; [now apply Qlt_le_weak | exact Hy].
    + apply ltb_ge in E. constructor; [now constructor|].
      constructor; [exact E|].
      eapply Forall_impl; [|exact Hy]. intros z Hz. now apply Qle_trans with (key y).
Qed.

Lemma sorted_ascending l : ascending key (Py.sorted key l).
Proof.
  induction l as [|x l IH]; simpl; [constructor | now apply insert_by_ascending].
Qed.

Lemma insert_by_desc_perm x l : Permutation (x :: l) (Py.insert_by_desc key x l).
Proof.
  induction l as [|y l IH]; simpl; [reflexivity|].
  destruct (Py.ltb (key x) (key y)); [|reflexivity].
  rewrite perm_swap. now constructor.
Qed.

Lemma sorted_reverse_perm l : Permutation l (Py.sorted_reverse key l).
Proof.
  induction l as [|x l IH]; simpl; [reflexivity|].
  rewrite <- insert_by_desc_perm. now constructor.
Qed.

Lemma insert_by_desc_descending x l :
  descending key l -> descending key (Py.insert_by_desc key x l).
Proof.
  unfold descending. induction l as [|y l IH]; simpl; intros Hs.
  - constructor; constructor.
  - apply StronglySorted_inv in Hs as [Hs Hy].
    destruct (Py.ltb (key x) (key y)) eqn:E.
    + apply ltb_lt in E. constructor; [now apply IH|].
      rewrite <- insert_by_desc_perm. constructor; [now apply Qlt_le_weak | exact Hy].
    + apply ltb_ge in E. constructor; [now constructor|].
      constructor; [exact E|].
      eapply Forall_impl; [|exact Hy]. intros z Hz. now apply Qle_trans with (key y).
Qed.

Lemma sorted_reverse_descending l : descending key (Py.sorted_reverse key l).
Proof.
  induction l as [|x l IH]; simpl; [constructor | now apply insert_by_desc_descending].
Qed.

(** The head of an ascending list is a least element, its last element a
    greatest one. *)
Lemma ascending_head b l :
  ascending key (b :: l) -> forall o, In o (b :: l) -> key b <= key o.
Proof.
  intros Hs o [<- | Hin]; [apply Qle_refl|].
  apply StronglySorted_inv in Hs as [_ Hb].
  now apply (proj1 (Forall_forall _ _) Hb).
Qed.

Lemma ascending_last l d :
  ascending key l -> forall o, In o l -> key o <= key (last l d).
Proof.
  induction l as [|x l IH]; intros Hs o Hin; [destruct Hin|].
  apply StronglySorted_inv in Hs as [Hs Hx].
  destruct l as [|y l].
  - destruct Hin as [<- | []]. apply Qle_refl.
  - change (last (x :: y :: l) d) with (last (y :: l) d).
    destruct Hin as [<- | Hin]; [|now apply IH].
    apply Qle_trans with (key y).
    + apply (proj1 (Forall_forall _ _) Hx). now left.
    + apply IH; [exact Hs | now left].
Qed.

Lemma last_In (x : A) l d : In (last (x :: l) d) (x :: l).
Proof.
  revert x. induction l as [|y l IH]; intros x; [now left|].
  change (last (x :: y :: l) d) with (last (y :: l) d). right. apply IH.
Qed.

End Sorting.




Lemma sorted_nonempty {A} (key : A -> Q) (l : list A) :
  l <> [] -> exists b s, Py.sorted key l = b :: s.
Proof.
  intros H. pose proof (Permutation_length (sorted_perm key l)) as Hlen.
  destruct (Py.sorted key l) as [|b s]; [|eauto].
  destruct l; [congruence | discriminate].
Qed.

(** The cheapest and the dearest offer that [deal_of] picks. *)
Lemma deal_of_picks product :
  (1 < List.length (Entry.prices product))%nat ->
  exists best worst,
    In best (Entry.prices product) /\ In worst (Entry.prices product) /\
    (forall o, In o (Entry.prices product) ->
       PriceInfo.price best <= PriceInfo.price o <= PriceInfo.price worst) /\
    deal_of product
    = if Py.ltb 0 (PriceInfo.price worst - PriceInfo.price best) then
        match Py.div (PriceInfo.price worst - PriceInfo.price best)
                (PriceInfo.price worst) with
        | inl e => inl e
        | inr _ => inr (Some (deal_between product best worst))
        end
      else inr None.
Proof.
  intros Hlen. unfold deal_of.
  apply Nat.ltb_lt in Hlen. rewrite Hlen.
  assert (Hne : Entry.prices product <> [])
    by (intros E; rewrite E in Hlen; discriminate).
  destruct (sorted_nonempty PriceInfo.price _ Hne) as [best [s Hs]].
  pose proof (sorted_perm PriceInfo.price (Entry.prices product)) as Hperm.
  pose proof (sorted_ascending PriceInfo.price (Entry.prices product)) as Hasc.
  rewrite Hs in *.
  exists best, (last (best :: s) best).
  split; [apply (Permutation_in _ (Permutation_sym Hperm)); now left|].
  split; [apply (Permutation_in _ (Permutation_sym Hperm)), last_In|].
  split.
  - intros o Ho. apply (Permutation_in _ Hperm) in Ho. split.
    + now apply (ascending_head PriceInfo.price best s).
    + now apply (ascending_last PriceInfo.price (best :: s)).
  - destruct (Py.ltb 0 _); [|reflexivity].
    unfold Py.div. destruct (Qeq_bool _ 0); reflexivity.
Qed.

Lemma positive_difference a b : Py.ltb 0 (b - a) = true <-> a < b.
Proof.
  rewrite ltb_lt, (Qlt_minus_iff a b). reflexivity.
Qed.









End BackendFacts.

(* ================================================================== *)
(** ** Rounding *)

Module RoundFacts.

Lemma round_half_even_lower (a : Z) (y : Q) :
  inject_Z a <= y -> (a <= Py.round_half_even y)%Z.
Proof.
  intros H. unfold Py.round_half_even.
  assert (Hf : (a <= Qfloor y)%Z).
  { assert (Hlt : (a < Qfloor y + 1)%Z).
    { rewrite Zlt_Qlt. apply Qle_lt_trans with y; [exact H | apply Qlt_floor]. }
    lia. }
  destruct (Qcompare _ _); [destruct (Z.even _)| |]; lia.
Qed.

Lemma round_half_even_upper (b : Z) (y : Q) :
  y <= inject_Z b -> (Py.round_half_even y <= b)%Z.
Proof.
  intros H. unfold Py.round_half_even.
  assert (Hf : (Qfloor y <= b)%Z).
  { rewrite Zle_Qle. apply Qle_trans with y; [apply Qfloor_le | exact H]. }
  assert (Hup : 0 < y - inject_Z (Qfloor y) -> (Qfloor y + 1 <= b)%Z).
  { intros Hpos.
    assert (Hlt : (Qfloor y < b)%Z).
    { rewrite Zlt_Qlt. apply Qlt_le_trans with y; [|exact H].
      apply Qlt_minus_iff. exact Hpos. }
    lia. }
  destruct (Qcompare_spec (y - inject_Z (Qfloor y)) (1 # 2)) as [E | E | E].
  - destruct (Z.even _); [exact Hf|]. apply Hup. rewrite E. reflexivity.
  - exact Hf.
  - apply Hup. apply Qlt_trans with (1 # 2); [reflexivity | exact E].
Qed.

(** [round] keeps a value between two bounds that it can represent. *)
Lemma round_between (a b : Z) (x : Q) (ndigits : nat) :
  inject_Z a <= x * inject_Z (10 ^ Z.of_nat ndigits) <= inject_Z b ->
  Qmake a (Z.to_pos (10 ^ Z.of_nat ndigits)) <= Py.round x ndigits
  <= Qmake b (Z.to_pos (10 ^ Z.of_nat ndigits)).
Proof.
  intros [Ha Hb]. unfold Py.round. rewrite Qred_correct.
  apply round_half_even_lower in Ha. apply round_half_even_upper in Hb.
  unfold Qle. cbn [Qnum Qden]. split; apply Z.mul_le_mono_nonneg_r; lia.
Qed.

Lemma round1_between (a b : Z) (x : Q) :
  Qmake a 1 <= x <= Qmake b 1 -> Qmake a 1 <= Py.round x 1 <= Qmake b 1.
Proof.
  intros [Ha Hb].
  destruct (round_between (a * 10) (b * 10) x 1) as [H1 H2].
  - change (inject_Z (10 ^ Z.of_nat 1)) with (10 # 1). split.
    + apply Qle_trans with (Qmake a 1 * (10 # 1)).
      * unfold Qle, Qmult, inject_Z. simpl. lia.
      * apply Qmult_le_compat_r; [exact Ha | discriminate].
    + apply Qle_trans with (Qmake b 1 * (10 # 1)).
      * apply Qmult_le_compat_r; [exact Hb | discriminate].
      * unfold Qle, Qmult, inject_Z. simpl. lia.
  - change (Z.to_pos (10 ^ Z.of_nat 1)) with 10%positive in H1, H2. split.
    + apply Qle_trans with (a * 10 # 10); [|exact H1]. unfold Qle. simpl. lia.
    + apply Qle_trans with (b * 10 # 10); [exact H2|]. unfold Qle. simpl. lia.
Qed.

Lemma round1_lower (a : Z) (x : Q) : Qmake a 1 <= x -> Qmake a 1 <= Py.round x 1.
Proof.
  intros Ha. unfold Py.round. rewrite Qred_correct.
  assert (H : inject_Z (a * 10) <= x * inject_Z (10 ^ Z.of_nat 1)).
  { change (inject_Z (10 ^ Z.of_nat 1)) with (10 # 1).
    apply Qle_trans with (Qmake a 1 * (10 # 1)).
    - unfold Qle, Qmult, inject_Z. simpl. lia.
    - apply Qmult_le_compat_r; [exact Ha | discriminate]. }
  apply round_half_even_lower in H.
  change (Z.to_pos (10 ^ Z.of_nat 1)) with 10%positive.
  unfold Qle. cbn [Qnum Qden]. lia.
Qed.

(** A percentage [(b - a) / b * 100] with [0 <= a < b]. *)
Lemma percent_between (a b : Q) :
  0 <= a -> a < b -> 0 <= ((b - a) / b) * 100 <= 100.
Proof.
  intros Ha Hab.
  assert (Hb : 0 < b) by now apply Qle_lt_trans with a.
  assert (Hr : 0 <= (b - a) / b <= 1).
  { split.
    - apply Qle_shift_div_l; [exact Hb|]. rewrite Qmult_0_l.
      apply Qlt_le_weak. exact (proj1 (Qlt_minus_iff a b) Hab).
    - apply Qle_shift_div_r; [exact Hb|]. rewrite Qmult_1_l.
      apply Qle_minus_iff. setoid_replace (b + - (b - a)) with a by ring. exact Ha. }
  destruct Hr as [H0 H1]. split.
  - apply Qmult_le_0_compat; [exact H0 | discriminate].
  - setoid_replace 100 with (1 * 100) at 2 by reflexivity.
    apply Qmult_le_compat_r; [exact H1 | discriminate].
Qed.

End RoundFacts.

(* ================================================================== *)
(** ** Further properties of the scrapers *)

Module ListingFacts.
Import PyStr Dom Scraper ScraperSpec ListingSpec PyFacts.

(** *** The fields of a listing *)

(** Every listing is built from a name, a price element, an
    original-price element and a link by the same rules. *)
Lemma listing_shape a now c p :
  In a adapters -> extract a now c = Some p ->
  exists self name price_elem original_elem link_elem,
    In self selves /\
    Product.name p = name /\
    Product.type p = _categorize_milo_product name /\
    Product.price p = price_of price_elem /\
    Product.original_price p
    = (if Py.ltb 0 (original_price_of original_elem (price_of price_elem))
       then original_price_of original_elem (price_of price_elem)
       else price_of price_elem) /\
    Product.url p = product_url_of self link_elem /\
    Product.platform p = platform self /\
    Product.scraped_at p = now.
Proof.
  intros Ha H. simpl in Ha.
  destruct Ha as [<- | [<- | [<- | [<- | [<- | []]]]]].
  - cbn [fairprice extract] in H. unfold FairPriceScraper.extract, simple_product in H.
    destruct (first_match c _) in H; [|discriminate]. injection H as <-.
    exists FairPriceScraper.self. do 4 eexists.
    split; [simpl; tauto|]. repeat split; reflexivity.
  - cbn [shopee extract] in H.
    unfold ShopeeScraper._extract_product_with_flash_sale in H.
    match type of H with
    | match ?n with Some _ => _ | None => None end = Some p => destruct n
    end; [|discriminate].
    cbv zeta in H. injection H as <-.
    exists ShopeeScraper.self. do 4 eexists.
    split; [simpl; tauto|]. repeat split; reflexivity.
  - cbn [lazada extract] in H.
    unfold LazadaScraper._extract_product_with_flash_sale in H.
    destruct (first_match c _) in H; [|discriminate].
    cbv zeta in H. injection H as <-.
    exists LazadaScraper.self. do 4 eexists.
    split; [simpl; tauto|]. repeat split; reflexivity.
  - cbn [shengsiong extract] in H.
    unfold ShengSiongScraper.extract, simple_product in H.
    destruct (first_match c _) in H; [|discriminate]. injection H as <-.
    exists ShengSiongScraper.self. do 4 eexists.
    split; [simpl; tauto|]. repeat split; reflexivity.
  - cbn [giant extract] in H. unfold GiantScraper.extract, simple_product in H.
    destruct (first_match c _) in H; [|discriminate]. injection H as <-.
    exists GiantScraper.self. do 4 eexists.
    split; [simpl; tauto|]. repeat split; reflexivity.
Qed.

Lemma price_of_nonneg e : 0 <= price_of e.
Proof. apply ParseFacts.extract_price_nonneg. Qed.

Lemma categorize_in_categories name :
  In (_categorize_milo_product name) categories.
Proof.
  unfold _categorize_milo_product, categories.
  destruct (any_in uht_words _); [simpl; tauto|].
  destruct (any_in powder_words _); [simpl; tauto|].
  destruct (any_in bottle_words _); simpl; tauto.
Qed.

(** X1. Every listing of every adapter has a price and a listed original
    price that are not negative, a positive original price whenever its
    price is positive, one of the four categories, namely that of its
    name, one of the five platform names, and the time of the scrape. *)
Theorem listing_is_well_formed (a : Adapter) (now : string) (c : Container)
    (p : Product.t) :
  In a adapters -> extract a now c = Some p ->
  0 <= Product.price p /\
  0 <= Product.original_price p /\
  (0 < Product.price p -> 0 < Product.original_price p) /\
  (Product.original_price p == 0 -> Product.price p == 0) /\
  In (Product.type p) categories /\
  Product.type p = _categorize_milo_product (Product.name p) /\
  In (Product.platform p) BackendSpec.platforms /\
  Product.scraped_at p = now.
Proof.
  intros Ha H.
  destruct (listing_shape a now c p Ha H)
    as [self [name [pe [oe [le [Hself [Hn [Ht [Hp [Ho [_ [Hpf Hs]]]]]]]]]]]].
  pose proof (price_of_nonneg pe) as Hpos.
  assert (Horig : 0 <= Product.original_price p /\
                  (0 < Product.price p -> 0 < Product.original_price p)).
  { rewrite Ho, Hp. destruct (Py.ltb 0 _) eqn:E.
    - apply ltb_lt in E. split; [now apply Qlt_le_weak | intros _; exact E].
    - split; [exact Hpos | trivial]. }
  destruct Horig as [Ho1 Ho2].
  split; [now rewrite Hp|]. split; [exact Ho1|]. split; [exact Ho2|].
  split.
  { intros Hz. destruct (Qlt_le_dec 0 (Product.price p)) as [Hlt | Hle].
    - apply Ho2 in Hlt. rewrite Hz in Hlt. now apply Qlt_irrefl in Hlt.
    - apply Qle_antisym; [exact Hle | now rewrite Hp]. }
  split; [rewrite Ht; apply categorize_in_categories|].
  split; [now rewrite Ht, Hn|].
  split; [|exact Hs].
  rewrite Hpf. simpl in Hself.
  destruct Hself as [<- | [<- | [<- | [<- | [<- | []]]]]]; simpl; tauto.
Qed.

Lemma listing_is_well_formed_witness :
  0 <= Product.price Pages.shopee_plain_listing /\
  In (Product.type Pages.shopee_plain_listing) categories.
Proof.
  pose proof (listing_is_well_formed shopee Pages.noon Pages.shopee_plain_card
                Pages.shopee_plain_listing
                (or_intror (or_introl eq_refl)) eq_refl) as H.
  split; [apply H | apply H].
Defined.




(** *** What a scrape returns *)

Lemma firstn_incl {A} (n : nat) (l : list A) x : In x (firstn n l) -> In x l.
Proof.
  revert l. induction n as [|n IH]; intros [|y l]; simpl; try tauto.
  intros [H | H]; [now left | right; now apply IH].
Qed.

Lemma slice_to_incl {A} (m : Z) (l : list A) x : In x (Py.slice_to m l) -> In x l.
Proof.
  unfold Py.slice_to. destruct (0 <=? m)%Z; apply firstn_incl.
Qed.

Lemma slice_to_length {A} (m : Z) (l : list A) :
  (List.length (Py.slice_to m l) <= List.length l)%nat.
Proof.
  unfold Py.slice_to. destruct (0 <=? m)%Z; rewrite length_firstn; lia.
Qed.

Lemma find_containers_incl soup s1 s2 s3 m x :
  In x (find_containers soup s1 s2 s3 m) -> In x (candidates s1 s2 s3 soup).
Proof.
  unfold find_containers, candidates.
  destruct (soup_select soup s1); [|trivial].
  destruct (soup_select soup s2); [|trivial].
  simpl. apply slice_to_incl.
Qed.

Lemma find_containers_length soup s1 s2 s3 m :
  (List.length (find_containers soup s1 s2 s3 m)
   <= List.length (candidates s1 s2 s3 soup))%nat.
Proof.
  unfold find_containers, candidates.
  destruct (soup_select soup s1); [|reflexivity].
  destruct (soup_select soup s2); [|reflexivity].
  simpl. apply slice_to_length.
Qed.

Lemma filter_map_In {A B} (f : A -> option B) (l : list A) y :
  In y (Py.filter_map f l) -> exists x, In x l /\ f x = Some y.
Proof.
  induction l as [|x l IH]; simpl; [tauto|].
  destruct (f x) as [z|] eqn:E.
  - intros [<- | H]; [eauto | destruct (IH H) as [x' [Hx Hf]]; eauto].
  - intros H. destruct (IH H) as [x' [Hx Hf]]; eauto.
Qed.

(** X7. For every adapter and every bound, also a negative one: a scrape
    raises exactly the exception of a failed browser start or a failed
    browser close; a page that fails to load gives the empty list and no
    exception; and every product returned was extracted from a candidate
    container of the loaded page, so that there are never more products
    than candidates. *)
Theorem scrape_outcome_by_failure
    (a : Adapter) (b : Browser) (headless : bool) (max_products : Z) :
  In a adapters ->
  (forall e, launch b = Some e -> scrape a b headless max_products = inl e) /\
  (forall e, launch b = None -> close b = Some e ->
     scrape a b headless max_products = inl e) /\
  (forall e, launch b = None -> close b = None -> page b = inl e ->
     scrape a b headless max_products = inr []) /\
  (forall products, scrape a b headless max_products = inr products ->
     launch b = None /\ close b = None /\
     (products = [] \/
      exists soup, page b = inr soup /\
        (forall p, In p products ->
           exists c, In c (containers a soup) /\ extract a (clock b) c = Some p) /\
        (List.length products <= List.length (containers a soup))%nat)).
Proof.
  intros Ha.
  destruct (ScraperFacts.adapter_is_scrape_page a Ha) as [s1 [s2 [s3 [Hc Hs]]]].
  rewrite Hs, Hc. unfold scrape_page.
  split; [intros e ->; reflexivity|].
  split; [intros e -> ->; reflexivity|].
  split; [intros e -> -> ->; reflexivity|].
  intros products. destruct (launch b); [discriminate|].
  destruct (close b); [discriminate|]. intros H. injection H as <-.
  split; [reflexivity|]. split; [reflexivity|].
  destruct (page b) as [e|soup]; [now left | right].
  exists soup. split; [reflexivity|]. split.
  - intros p Hp. apply filter_map_In in Hp as [c [Hin Hf]].
    exists c. split; [|exact Hf].
    eapply find_containers_incl, slice_to_incl, Hin.
  - eapply Nat.le_trans; [apply filter_map_length|].
    eapply Nat.le_trans; [apply slice_to_length | apply find_containers_length].
Qed.

Lemma scrape_outcome_by_failure_witness :
  scrape shopee Pages.crashed true 10 = inl (Py.Exception "browser not installed").
Proof.
  exact (proj1 (scrape_outcome_by_failure shopee Pages.crashed true 10
                  (or_intror (or_introl eq_refl))) _ eq_refl).
Defined.

End ListingFacts.

(* ================================================================== *)
(** ** Further properties of promotion detection *)

Module DetectFacts.
Import PyStr Dom Scraper ScraperSpec ListingSpec PyFacts RoundFacts.

(** The loop over the stock indicators, as one decision. *)
Lemma fold_check_stock_result l f :
  fold_left LazadaScraper.check_stock l f
  = if is_flash_sale f then f
    else if existsb (fun t => any_in ["left"; "remaining"; "limited"]
                                (lower (get_text t))) l
         then set_sale f "limited_stock" else f.
Proof.
  revert f. induction l as [|t l IH]; intros f; cbn [fold_left existsb].
  - now destruct (is_flash_sale f).
  - rewrite IH. unfold LazadaScraper.check_stock.
    destruct (any_in _ (lower (get_text t))); cbn [orb].
    + destruct (is_flash_sale f) eqn:Hf; cbn [negb]; [now rewrite Hf | reflexivity].
    + reflexivity.
Qed.

(** The Shopee detector in normal form. *)
Lemma shopee_detect_result c cur orig :
  ShopeeScraper._detect_shopee_flash_sale c cur orig
  = {| is_flash_sale := shopee_signal c || numeric_rule 20 cur orig;
       sale_type := shopee_kind c cur orig;
       ends_at := shown_end (timer_of c) |}.
Proof.
  unfold ShopeeScraper._detect_shopee_flash_sale, shopee_signal, shopee_kind,
    shopee_keyword, flash_badge, shopee_badge, timer_signal, timer_of, numeric_rule,
    check_timer, check_discount.
  destruct (any_in ShopeeScraper.flash_indicators (lower (text c)));
    destruct (select c (cls_has "" "flash"));
    destruct (select c (cls_has "" "Flash"));
    destruct (select c (cls_has "" "shopee-sale"));
    destruct (select c (cls_has "" "promotion"));
    destruct (first_match c _);
    cbn [Py.or_list some orb negb andb is_flash_sale sale_type ends_at set_sale
         found shown_end String.eqb Ascii.eqb Bool.eqb];
    try reflexivity;
    destruct (Py.ltb cur orig); destruct (Py.ltb 0 cur); cbn [andb]; try reflexivity;
    destruct (Py.geb _ 20); reflexivity.
Qed.

(** The Lazada detector in normal form. *)
Lemma lazada_detect_result c cur orig :
  LazadaScraper._detect_lazada_flash_sale c cur orig
  = {| is_flash_sale := lazada_signal c || numeric_rule 15 cur orig;
       sale_type := lazada_kind c cur orig;
       ends_at := shown_end (timer_of c) |}.
Proof.
  unfold LazadaScraper._detect_lazada_flash_sale.
  rewrite fold_check_stock_result.
  unfold lazada_signal, lazada_kind, lazada_keyword, lazada_flash_badge,
    lazada_sale_tag, lazada_stock, timer_signal, timer_of, numeric_rule,
    check_timer, check_discount.
  rewrite (ScraperFacts.any_in_found LazadaScraper.flash_indicators).
  set (tags := existsb _ (Py.or_list (select c (cls_has "" "sale-tag")) _)).
  set (stock := existsb _ (Py.or_list (select c (cls_has "" "stock")) _)).
  destruct (find _ LazadaScraper.flash_indicators) as [indicator|]; cbn [found];
    [destruct (contains "lazflash" indicator || contains "flash" indicator)|];
    destruct (select c (cls_has "" "flash"));
    destruct (select c (cls_has "" "Flash"));
    destruct (select c (cls_has "" "LazFlash"));
    destruct tags; destruct (first_match c _); destruct stock;
    cbn [Py.or_list some orb negb andb is_flash_sale sale_type ends_at set_sale
         found shown_end String.eqb Ascii.eqb Bool.eqb];
    try reflexivity;
    destruct (Py.ltb cur orig); destruct (Py.ltb 0 cur); cbn [andb]; try reflexivity;
    destruct (Py.geb _ 15); reflexivity.
Qed.

(** The numeric rule reads the same on the listed original price. *)
Lemma numeric_rule_listed threshold cur orig :
  numeric_rule threshold cur orig
  = numeric_rule threshold cur (if Py.ltb 0 orig then orig else cur).
Proof.
  unfold numeric_rule.
  destruct (ScraperFacts.listed_original cur orig) as [H1 H2]. cbv zeta in H1, H2.
  rewrite H1. destruct (Py.ltb cur orig && Py.ltb 0 cur) eqn:E.
  - now rewrite (H2 eq_refl).
  - reflexivity.
Qed.

Lemma discount_percent_listed cur orig :
  discount_percent_of cur orig
  = discount_percent_of cur (if Py.ltb 0 orig then orig else cur).
Proof.
  unfold discount_percent_of.
  destruct (ScraperFacts.listed_original cur orig) as [H1 H2]. cbv zeta in H1, H2.
  rewrite H1. destruct (Py.ltb cur orig && Py.ltb 0 cur) eqn:E.
  - now rewrite (H2 eq_refl).
  - reflexivity.
Qed.

(** The fields a detecting adapter fills from its detector. *)
Lemma shopee_fields now c p :
  extract shopee now c = Some p ->
  0 <= Product.price p /\
  Product.flash_sale p
  = (shopee_signal c
     || numeric_rule 20 (Product.price p) (Product.original_price p)) /\
  Product.flash_sale_type p
  = Some (shopee_kind c (Product.price p) (Product.original_price p)) /\
  Product.flash_sale_end p = Some (shown_end (timer_of c)) /\
  Product.discount_percent p
  = Some (discount_percent_of (Product.price p) (Product.original_price p)).
Proof.
  cbn [shopee extract]. unfold ShopeeScraper._extract_product_with_flash_sale.
  match goal with
  | |- context [match ?n with Some _ => _ | None => None end = Some p] => destruct n
  end; [|discriminate].
  cbv zeta. rewrite shopee_detect_result. intros H. injection H as <-.
  cbn [Product.price Product.original_price Product.flash_sale
       Product.flash_sale_type Product.flash_sale_end Product.discount_percent
       is_flash_sale sale_type ends_at].
  unfold shopee_kind. rewrite <- numeric_rule_listed, <- discount_percent_listed.
  split; [apply ParseFacts.extract_price_nonneg|]. repeat split; reflexivity.
Qed.

Lemma lazada_fields now c p :
  extract lazada now c = Some p ->
  0 <= Product.price p /\
  Product.flash_sale p
  = (lazada_signal c
     || numeric_rule 15 (Product.price p) (Product.original_price p)) /\
  Product.flash_sale_type p
  = Some (lazada_kind c (Product.price p) (Product.original_price p)) /\
  Product.flash_sale_end p = Some (shown_end (timer_of c)) /\
  Product.discount_percent p
  = Some (discount_percent_of (Product.price p) (Product.original_price p)).
Proof.
  cbn [lazada extract]. unfold LazadaScraper._extract_product_with_flash_sale.
  destruct (first_match c _); [|discriminate].
  cbv zeta. rewrite lazada_detect_result. intros H. injection H as <-.
  cbn [Product.price Product.original_price Product.flash_sale
       Product.flash_sale_type Product.flash_sale_end Product.discount_percent
       is_flash_sale sale_type ends_at].
  unfold lazada_kind. rewrite <- numeric_rule_listed, <- discount_percent_listed.
  split; [apply ParseFacts.extract_price_nonneg|]. repeat split; reflexivity.
Qed.

Lemma shopee_kind_normal c cur orig :
  (shopee_signal c || numeric_rule 20 cur orig = false
   <-> shopee_kind c cur orig = "normal") /\
  In (shopee_kind c cur orig) shopee_kinds.
Proof.
  unfold shopee_signal, shopee_kind, shopee_keyword, flash_badge, shopee_badge,
    timer_signal, timer_of, shopee_kinds.
  destruct (any_in _ _); destruct (some (select c (cls_has "" "flash")));
    destruct (some (select c (cls_has "" "Flash")));
    destruct (some (select c (cls_has "" "shopee-sale")));
    destruct (some (select c (cls_has "" "promotion")));
    destruct (found _); destruct (numeric_rule 20 cur orig);
    cbn [orb]; (split; [split; intros H; (discriminate H || reflexivity)
                       | simpl; tauto]).
Qed.

Lemma lazada_kind_normal c cur orig :
  (lazada_signal c || numeric_rule 15 cur orig = false
   <-> lazada_kind c cur orig = "normal") /\
  In (lazada_kind c cur orig) lazada_kinds.
Proof.
  unfold lazada_signal, lazada_kind, lazada_keyword, lazada_flash_badge,
    lazada_sale_tag, lazada_stock, timer_signal, timer_of, lazada_kinds.
  rewrite (ScraperFacts.any_in_found LazadaScraper.flash_indicators).
  destruct (find _ LazadaScraper.flash_indicators) as [indicator|]; cbn [found];
    [destruct (contains "lazflash" indicator || contains "flash" indicator)|];
    destruct (some (select c (cls_has "" "flash")));
    destruct (some (select c (cls_has "" "Flash")));
    destruct (some (select c (cls_has "" "LazFlash")));
    destruct (existsb _ (Py.or_list (select c (cls_has "" "sale-tag")) _));
    destruct (found _);
    destruct (existsb _ (Py.or_list (select c (cls_has "" "stock")) _));
    destruct (numeric_rule 15 cur orig);
    cbn [orb]; (split; [split; intros H; (discriminate H || reflexivity)
                       | simpl; tauto]).
Qed.

Lemma shown_end_cases timer_elem :
  (shown_end timer_elem = None <-> found timer_elem = false) /\
  (forall s, shown_end timer_elem = Some s -> s <> "" /\ found timer_elem = true).
Proof.
  destruct timer_elem as [t|]; simpl.
  - split; [split; discriminate|]. intros s H. injection H as <-.
    split; [|reflexivity]. destruct (get_text_strip t); simpl; discriminate.
  - split; [split; reflexivity|]. intros s H. discriminate H.
Qed.

Lemma timer_flags_shopee c : timer_signal c = true -> shopee_signal c = true.
Proof. unfold shopee_signal. intros ->. apply orb_true_r. Qed.

Lemma timer_flags_lazada c : timer_signal c = true -> lazada_signal c = true.
Proof. unfold lazada_signal. intros ->. now rewrite orb_true_r. Qed.

(** X3. In every listing of the Shopee or Lazada adapter the kind of
    promotion is one of the detector's kinds and is normal exactly when
    the listing is not flagged; the end-time key is always present, holds
    a text exactly when the container has a countdown element, never the
    empty string, and only on a flagged listing. *)
Theorem promotion_kind_agrees_with_flag
    (now : string) (c : Container) (p : Product.t) (kinds : list string) :
  (extract shopee now c = Some p /\ kinds = shopee_kinds) \/
  (extract lazada now c = Some p /\ kinds = lazada_kinds) ->
  (Product.flash_sale p = false <-> Product.flash_sale_type p = Some "normal") /\
  (exists k, Product.flash_sale_type p = Some k /\ In k kinds) /\
  (Product.flash_sale_end p = Some None <-> timer_signal c = false) /\
  (forall s, Product.flash_sale_end p = Some (Some s) ->
     s <> "" /\ timer_signal c = true /\ Product.flash_sale p = true) /\
  Product.flash_sale_end p <> None.
Proof.
  assert (Hend : forall flagged,
            Product.flash_sale_end p = Some (shown_end (timer_of c)) ->
            (timer_signal c = true -> flagged = true) ->
            (Product.flash_sale_end p = Some None <-> timer_signal c = false) /\
            (forall s, Product.flash_sale_end p = Some (Some s) ->
               s <> "" /\ timer_signal c = true /\ flagged = true) /\
            Product.flash_sale_end p <> None).
  { intros flagged He Hflag. rewrite He.
    destruct (shown_end_cases (timer_of c)) as [Hnone Hsome].
    change (found (timer_of c)) with (timer_signal c) in Hnone, Hsome.
    split; [|split; [|discriminate]].
    - rewrite <- Hnone. split; [intros H; now injection H | intros ->; reflexivity].
    - intros s H. injection H as H. destruct (Hsome s H) as [Hs Ht]. auto. }
  intros [[H ->] | [H ->]].
  - destruct (shopee_fields now c p H) as [_ [Hf [Ht [He _]]]].
    destruct (shopee_kind_normal c (Product.price p) (Product.original_price p))
      as [Hn Hk].
    rewrite Hf, Ht. split; [|split; [eexists; split; [reflexivity | exact Hk]|]].
    + rewrite Hn. split; [intros ->; reflexivity | intros E; now injection E].
    + apply Hend; [exact He|]. intros Htimer.
      now rewrite (timer_flags_shopee c Htimer).
  - destruct (lazada_fields now c p H) as [_ [Hf [Ht [He _]]]].
    destruct (lazada_kind_normal c (Product.price p) (Product.original_price p))
      as [Hn Hk].
    rewrite Hf, Ht. split; [|split; [eexists; split; [reflexivity | exact Hk]|]].
    + rewrite Hn. split; [intros ->; reflexivity | intros E; now injection E].
    + apply Hend; [exact He|]. intros Htimer.
      now rewrite (timer_flags_lazada c Htimer).
Qed.

Lemma promotion_kind_agrees_with_flag_witness :
  Product.flash_sale Pages.shopee_flash_listing = false
  <-> Product.flash_sale_type Pages.shopee_flash_listing = Some "normal".
Proof.
  exact (proj1 (promotion_kind_agrees_with_flag Pages.noon Pages.shopee_flash_card
                  Pages.shopee_flash_listing shopee_kinds
                  (or_introl (conj eq_refl eq_refl)))).
Defined.



Lemma discount_percent_of_bounds cur orig :
  0 <= cur -> 0 <= discount_percent_of cur orig <= 100.
Proof.
  intros Hcur. unfold discount_percent_of.
  destruct (Py.ltb cur orig) eqn:E1; cbn [andb]; [|split; discriminate].
  destruct (Py.ltb 0 cur) eqn:E2; [|split; discriminate].
  apply ltb_lt in E1. apply (round1_between 0 100).
  now apply percent_between.
Qed.

(** X5. The discount of a Shopee or Lazada listing is a percentage: it
    lies between 0 and 100, both included. *)
Theorem discount_percent_is_a_percentage (now : string) (c : Container) (p : Product.t) :
  extract shopee now c = Some p \/ extract lazada now c = Some p ->
  exists d, Product.discount_percent p = Some d /\ 0 <= d <= 100.
Proof.
  intros [H | H];
    [destruct (shopee_fields now c p H) as [Hp [_ [_ [_ Hd]]]]
    | destruct (lazada_fields now c p H) as [Hp [_ [_ [_ Hd]]]]];
    eexists; (split; [exact Hd | now apply discount_percent_of_bounds]).
Qed.

Lemma discount_percent_is_a_percentage_witness :
  exists d, Product.discount_percent Pages.shopee_plain_listing = Some d /\
            0 <= d <= 100.
Proof.
  exact (discount_percent_is_a_percentage Pages.noon Pages.shopee_plain_card
           Pages.shopee_plain_listing (or_introl eq_refl)).
Defined.

Lemma numeric_rule_discount threshold cur orig :
  numeric_rule (inject_Z threshold) cur orig = true ->
  cur < orig /\ 0 < cur /\ inject_Z threshold <= discount_percent_of cur orig.
Proof.
  unfold numeric_rule, discount_percent_of. intros H.
  apply andb_true_iff in H as [H Hge]. rewrite H.
  apply andb_true_iff in H as [H1 H2].
  apply ltb_lt in H1, H2. apply geb_le in Hge.
  split; [exact H1|]. split; [exact H2|]. now apply (round1_lower threshold).
Qed.

(** X6. A listing whose kind is discount was flagged by the numeric rule
    alone: it is flagged, its container shows no promotion signal and no
    end time, its price is positive and below the original price, and its
    rounded discount is at least the threshold of the platform, 20 on
    Shopee and 15 on Lazada. *)
Theorem discount_kind_meets_threshold
    (now : string) (c : Container) (p : Product.t) (threshold : Z) (signal : bool) :
  (extract shopee now c = Some p /\ threshold = 20%Z /\ signal = shopee_signal c) \/
  (extract lazada now c = Some p /\ threshold = 15%Z /\ signal = lazada_signal c) ->
  Product.flash_sale_type p = Some "discount" ->
  Product.flash_sale p = true /\ signal = false /\
  Product.flash_sale_end p = Some None /\ reduced p /\
  exists d, Product.discount_percent p = Some d /\ inject_Z threshold <= d.
Proof.
  intros [[H [-> ->]] | [H [-> ->]]] Hkind.
  - destruct (shopee_fields now c p H) as [_ [Hf [Ht [He Hd]]]].
    rewrite Ht in Hkind. injection Hkind as Hkind.
    assert (Hs : shopee_signal c = false /\
                 numeric_rule 20 (Product.price p) (Product.original_price p) = true).
    { revert Hkind. unfold shopee_kind, shopee_signal, shopee_keyword, flash_badge,
        shopee_badge, timer_signal, timer_of.
      destruct (any_in _ _); destruct (some (select c (cls_has "" "flash")));
        destruct (some (select c (cls_has "" "Flash")));
        destruct (some (select c (cls_has "" "shopee-sale")));
        destruct (some (select c (cls_has "" "promotion")));
        destruct (found _); destruct (numeric_rule 20 _ _);
        cbn [orb]; intros E; (discriminate E || (split; reflexivity)). }
    destruct Hs as [Hs Hn].
    destruct (numeric_rule_discount 20 _ _ Hn) as [H1 [H2 H3]].
    rewrite Hf, Hs, Hn, He, Hd. split; [reflexivity|]. split; [reflexivity|].
    split.
    { f_equal. apply (proj1 (shown_end_cases (timer_of c))).
      unfold shopee_signal in Hs. apply orb_false_iff in Hs. apply Hs. }
    split; [split; assumption | eauto].
  - destruct (lazada_fields now c p H) as [_ [Hf [Ht [He Hd]]]].
    rewrite Ht in Hkind. injection Hkind as Hkind.
    assert (Hs : lazada_signal c = false /\ timer_signal c = false /\
                 numeric_rule 15 (Product.price p) (Product.original_price p) = true).
    { revert Hkind. unfold lazada_kind, lazada_signal, lazada_keyword,
        lazada_flash_badge, lazada_sale_tag, lazada_stock, timer_signal, timer_of.
      rewrite (ScraperFacts.any_in_found LazadaScraper.flash_indicators).
      destruct (find _ LazadaScraper.flash_indicators) as [indicator|]; cbn [found];
        [destruct (contains "lazflash" indicator || contains "flash" indicator)|];
        destruct (some (select c (cls_has "" "flash")));
        destruct (some (select c (cls_has "" "Flash")));
        destruct (some (select c (cls_has "" "LazFlash")));
        destruct (existsb _ (Py.or_list (select c (cls_has "" "sale-tag")) _));
        destruct (found _);
        destruct (existsb _ (Py.or_list (select c (cls_has "" "stock")) _));
        destruct (numeric_rule 15 _ _);
        cbn [orb]; intros E; (discriminate E || (repeat split; reflexivity)). }
    destruct Hs as [Hs [Htimer Hn]].
    destruct (numeric_rule_discount 15 _ _ Hn) as [H1 [H2 H3]].
    rewrite Hf, Hs, Hn, He, Hd. split; [reflexivity|]. split; [reflexivity|].
    split; [f_equal; now apply (proj1 (shown_end_cases (timer_of c)))|].
    split; [split; assumption | eauto].
Qed.

Lemma discount_kind_meets_threshold_witness :
  exists d, Product.discount_percent Pages.shopee_plain_listing = Some d /\
            inject_Z 20 <= d.
Proof.
  exact (proj2 (proj2 (proj2 (proj2
           (discount_kind_meets_threshold Pages.noon Pages.shopee_plain_card
              Pages.shopee_plain_listing 20%Z _
              (or_introl (conj eq_refl (conj eq_refl eq_refl))) eq_refl))))).
Defined.

End DetectFacts.

(* ================================================================== *)
(** ** Further properties of price parsing *)

Module PriceTextFacts.
Import PyStr Spec Scraper.

Lemma remove_char_app c s1 s2 :
  remove_char c (s1 ++ s2) = remove_char c s1 ++ remove_char c s2.
Proof.
  induction s1 as [|d s1 IH]; [reflexivity|].
  cbn [append remove_char]. destruct (Ascii.eqb d c); [exact IH|].
  cbn [append]. now rewrite IH.
Qed.

Lemma strip_price_text_app s1 s2 :
  strip_price_text (s1 ++ s2) = strip_price_text s1 ++ strip_price_text s2.
Proof. unfold strip_price_text. now rewrite !remove_char_app. Qed.

Lemma strip_price_text_symbol c :
  In c [","; "$"; "S"]%char -> strip_price_text (String c "") = "".
Proof.
  intros [<- | [<- | [<- | []]]]; reflexivity.
Qed.

(** Parsing goes through the stripped text, the empty text included. *)
Lemma extract_price_stripped text :
  _extract_price (Some text)
  = match re_search_decimal (strip_price_text text) with
    | Some group1 => float_of_match group1
    | None => 0
    end.
Proof. now destruct text. Qed.

Lemma no_digit_stripped pre : no_digit pre -> no_digit (strip_price_text pre).
Proof.
  assert (H : forall c s, no_digit s -> no_digit (remove_char c s)).
  { intros c s. unfold no_digit, chars. induction s as [|d s IH]; [trivial|].
    cbn [list_ascii_of_string existsb remove_char]. intros Hs.
    apply orb_false_iff in Hs as [Hd Hs].
    destruct (Ascii.eqb d c); [now apply IH|].
    cbn [list_ascii_of_string existsb]. now rewrite Hd, IH. }
  intros Hp. unfold strip_price_text. now repeat apply H.
Qed.

(** X8. What surrounds the number does not change the parsed price: a
    comma, a dollar sign or a capital S inserted anywhere in the text, also
    between two digits, is ignored, and so is any text without a digit in
    front of the text, a minus sign included, so that a negative amount is
    read as its absolute value. *)
Theorem extract_price_ignores_symbols_and_prefix :
  (forall c pre post, In c [","; "$"; "S"]%char ->
     _extract_price (Some (pre ++ String c post)) = _extract_price (Some (pre ++ post))) /\
  (forall pre text, no_digit pre ->
     _extract_price (Some (pre ++ text)) = _extract_price (Some text)) /\
  (forall text, _extract_price (Some ("-" ++ text)) = _extract_price (Some text)
                /\ 0 <= _extract_price (Some ("-" ++ text))).
Proof.
  assert (Hprefix : forall pre text, no_digit pre ->
            _extract_price (Some (pre ++ text)) = _extract_price (Some text)).
  { intros pre text Hp. rewrite !extract_price_stripped, strip_price_text_app.
    now rewrite ParseFacts.re_search_skip by now apply no_digit_stripped. }
  split; [|split; [exact Hprefix|]].
  - intros c pre post Hc. rewrite !extract_price_stripped.
    change (String c post) with (String c "" ++ post).
    now rewrite !strip_price_text_app, (strip_price_text_symbol c Hc).
  - intros text. split; [now apply Hprefix | apply ParseFacts.extract_price_nonneg].
Qed.

Lemma extract_price_ignores_symbols_and_prefix_witness :
  _extract_price (Some "1,234") = _extract_price (Some "1234") /\
  _extract_price (Some "Now only $3") = _extract_price (Some "3").
Proof.
  split.
  - exact (proj1 extract_price_ignores_symbols_and_prefix ","%char "1" "234"
             (or_introl eq_refl)).
  - exact (proj1 (proj2 extract_price_ignores_symbols_and_prefix) "Now only $" "3"
             eq_refl).
Defined.

End PriceTextFacts.

(* ================================================================== *)
(** ** Further properties of the cache and the routes *)

Module CacheFacts.
Import PyStr Backend BackendSpec Routes BackendFacts PyFacts.

(** *** The cache over time *)

Lemma timedelta_seconds_periodic delta k :
  timedelta_seconds (delta + k * 86400000000)%Z = timedelta_seconds delta.
Proof. unfold timedelta_seconds. now rewrite Z.mod_add by lia. Qed.

Lemma timedelta_seconds_range delta : (0 <= timedelta_seconds delta < 86400)%Z.
Proof.
  unfold timedelta_seconds.
  pose proof (Z.mod_pos_bound delta 86400000000 ltac:(lia)) as H.
  split; [apply Z.div_pos; lia | apply Z.div_lt_upper_bound; lia].
Qed.

Lemma timedelta_seconds_under_an_hour delta :
  (timedelta_seconds delta < CACHE_DURATION)%Z
  <-> (delta mod 86400000000 < 3600000000)%Z.
Proof.
  unfold timedelta_seconds, CACHE_DURATION.
  pose proof (Z.mod_pos_bound delta 86400000000 ltac:(lia)) as H.
  split; intros Hlt.
  - destruct (Z.lt_ge_cases (delta mod 86400000000) 3600000000) as [|Hge]; [trivial|].
    apply (Z.div_le_mono _ _ 1000000) in Hge; [|lia].
    change (3600000000 / 1000000)%Z with 3600%Z in Hge. lia.
  - apply Z.div_lt_upper_bound; lia.
Qed.

(** X9. Storing a snapshot and reading it back: within the hour that
    follows [update_cache] the read returns exactly the stored products,
    and from one hour on, up to one day, it returns nothing; the record of
    products by platform is not touched by the update. *)
Theorem update_then_read (snapshot : list Entry.t) (now later : datetime) (cache : Cache) :
  let cache' := update_cache snapshot now cache in
  ((0 <= later - now < 3600000000)%Z ->
   get_cached_data cache' later = Some snapshot) /\
  ((3600000000 <= later - now < 86400000000)%Z ->
   get_cached_data cache' later = None) /\
  by_platform cache' = by_platform cache /\
  last_updated cache' = Some now.
Proof.
  cbv zeta. unfold get_cached_data, update_cache. cbn [last_updated products by_platform].
  split; [|split; [|split; reflexivity]]; intros H.
  - assert (Hlt : (timedelta_seconds (later - now) <? CACHE_DURATION)%Z = true).
    { apply Z.ltb_lt, timedelta_seconds_under_an_hour. rewrite Z.mod_small; lia. }
    now rewrite Hlt.
  - assert (Hge : (timedelta_seconds (later - now) <? CACHE_DURATION)%Z = false).
    { apply Z.ltb_ge. apply Z.nlt_ge. intros Hlt.
      apply timedelta_seconds_under_an_hour in Hlt. rewrite Z.mod_small in Hlt; lia. }
    now rewrite Hge.
Qed.

Lemma update_then_read_witness :
  get_cached_data (update_cache [Sites.two_offers] 0%Z cache0) 1800000000%Z
  = Some [Sites.two_offers].
Proof.
  exact (proj1 (update_then_read [Sites.two_offers] 0%Z 1800000000%Z cache0)
           ltac:(lia)).
Defined.

(** X10. Freshness is periodic in the age of the snapshot, with period
    one day: shifting the clock by any whole number of days, forwards or
    backwards, changes neither what [get_cached_data] returns nor the
    cache age that [get_status] reports, which always lies from 0 up to
    86399 seconds. The snapshot is returned exactly when its age modulo
    one day is under one hour. *)
Theorem freshness_is_periodic (cache : Cache) (st : State) (now : datetime) (days : Z) :
  get_cached_data cache (now + days * 86400000000)%Z = get_cached_data cache now /\
  cache_age_seconds (get_status (now + days * 86400000000)%Z st)
  = cache_age_seconds (get_status now st) /\
  (forall age, cache_age_seconds (get_status now st) = Some age ->
     (0 <= age < 86400)%Z) /\
  (get_cached_data cache now <> None
   <-> exists t, last_updated cache = Some t /\
                 ((now - t) mod 86400000000 < 3600000000)%Z) /\
  (forall snapshot, get_cached_data cache now = Some snapshot ->
     snapshot = products cache).
Proof.
  assert (Hshift : forall t, (now + days * 86400000000 - t
                              = now - t + days * 86400000000)%Z) by (intros; lia).
  split; [|split; [|split; [|split]]].
  - unfold get_cached_data. destruct (last_updated cache) as [t|]; [|reflexivity].
    now rewrite Hshift, timedelta_seconds_periodic.
  - unfold get_status. cbn [cache_age_seconds].
    destruct (last_updated (Backend.cache st)) as [t|]; [|reflexivity].
    now rewrite Hshift, timedelta_seconds_periodic.
  - unfold get_status. cbn [cache_age_seconds].
    destruct (last_updated (Backend.cache st)) as [t|]; [|discriminate].
    intros age H. injection H as <-. apply timedelta_seconds_range.
  - unfold get_cached_data. destruct (last_updated cache) as [t|].
    + destruct (_ <? _)%Z eqn:E.
      * apply Z.ltb_lt, timedelta_seconds_under_an_hour in E.
        split; [intros _; eauto | discriminate].
      * apply Z.ltb_ge in E. split; [congruence|].
        intros [t' [Ht Hlt]]. injection Ht as <-.
        apply timedelta_seconds_under_an_hour in Hlt. lia.
    + split; [congruence | intros [t [Ht _]]; discriminate].
  - intros snapshot. unfold get_cached_data.
    destruct (last_updated cache); [|discriminate].
    destruct (_ <? _)%Z; [|discriminate]. intros H. now injection H.
Qed.

Lemma freshness_is_periodic_witness :
  cache_age_seconds (get_status 86410000000%Z Sites.empty_snapshot) = Some 10%Z /\
  (0 <= 10 < 86400)%Z.
Proof.
  split; [reflexivity|].
  exact (proj1 (proj2 (proj2 (freshness_is_periodic cache0 Sites.empty_snapshot
                                86410000000%Z 0))) 10%Z eq_refl).
Defined.

(** *** Dictionaries *)

Lemma dict_get_set {V} k k' (v : V) d :
  Py.dict_get k (Py.dict_set k' v d)
  = if String.eqb k k' then Some v else Py.dict_get k d.
Proof.
  induction d as [|[k0 v0] d IH]; cbn [Py.dict_set Py.dict_get].
  - reflexivity.
  - destruct (String.eqb k' k0) eqn:E0; cbn [Py.dict_get].
    + apply String.eqb_eq in E0. subst k0.
      destruct (String.eqb k k'); reflexivity.
    + rewrite IH. destruct (String.eqb k k0) eqn:E1; [|reflexivity].
      apply String.eqb_eq in E1. subst k0.
      destruct (String.eqb k k') eqn:E2; [|reflexivity].
      apply String.eqb_eq in E2. subst k'. rewrite String.eqb_refl in E0. discriminate.
Qed.

Lemma dict_get_In {V} k (v : V) d :
  NoDup (Py.keys d) -> In (k, v) d -> Py.dict_get k d = Some v.
Proof.
  induction d as [|[k0 v0] d IH]; intros Hnd Hin; [destruct Hin|].
  cbn [Py.dict_get]. inversion Hnd as [|? ? Hk Hnd']; subst.
  destruct Hin as [E | Hin].
  - injection E as -> ->. now rewrite String.eqb_refl.
  - destruct (String.eqb k k0) eqn:E; [|now apply IH].
    apply String.eqb_eq in E. subst k0. exfalso. apply Hk.
    apply in_map_iff. now exists (k, v).
Qed.

Lemma dict_get_not_In {V} k (d : Py.dict V) :
  ~ In k (Py.keys d) -> Py.dict_get k d = None.
Proof.
  induction d as [|[k0 v0] d IH]; intros H; [reflexivity|].
  cbn [Py.dict_get]. destruct (String.eqb k k0) eqn:E.
  - apply String.eqb_eq in E. subst. exfalso. apply H. now left.
  - apply IH. intros Hin. apply H. now right.
Qed.

Lemma stored_step site stored_by k scrape name :
  Py.dict_get name (stored site stored_by (k, scrape))
  = if String.eqb name k then
      match scrape (site k) true 10%Z with
      | inr products => Some products
      | inl _ => Py.dict_get name stored_by
      end
    else Py.dict_get name stored_by.
Proof.
  unfold stored. cbn [fst snd].
  destruct (scrape (site k) true 10%Z).
  - now destruct (String.eqb name k).
  - apply dict_get_set.
Qed.

(** [cache['by_platform']] after the loop over a table of scrapers. *)
Lemma stored_lookup site table stored_by name :
  NoDup (Py.keys table) ->
  Py.dict_get name (fold_left (stored site) table stored_by)
  = match Py.dict_get name table with
    | Some scrape =>
        match scrape (site name) true 10%Z with
        | inr products => Some products
        | inl _ => Py.dict_get name stored_by
        end
    | None => Py.dict_get name stored_by
    end.
Proof.
  revert stored_by. induction table as [|[k scrape] table IH]; intros stored_by Hnd;
    [reflexivity|].
  inversion Hnd as [|? ? Hk Hnd']; subst.
  cbn [fold_left Py.dict_get]. rewrite (IH _ Hnd'), stored_step.
  destruct (String.eqb name k) eqn:E.
  - apply String.eqb_eq in E. subst k.
    now rewrite (dict_get_not_In name table Hk).
  - reflexivity.
Qed.

Lemma by_platform_after_cycle site now st :
  by_platform (cache (snd (scrape_all_platforms site now st)))
  = fold_left (stored site) Scraper.scrapers (by_platform (cache st)).
Proof. now rewrite scrape_all_platforms_result. Qed.

(** X11. What a cycle leaves in the record of products by platform: the
    list a platform's scrape returned when it succeeded, and whatever was
    recorded before, possibly from an earlier cycle, possibly nothing,
    when it raised. No entry is ever removed, and nothing is recorded
    for a name that is not a platform. *)
Theorem failed_platform_keeps_its_old_products
    (site : string -> Dom.Browser) (now : datetime) (st : State) :
  let after := by_platform (cache (snd (scrape_all_platforms site now st))) in
  let before := by_platform (cache st) in
  (forall name scrape products,
     In (name, scrape) Scraper.scrapers ->
     scrape (site name) true 10%Z = inr products ->
     Py.dict_get name after = Some products) /\
  (forall name scrape e,
     In (name, scrape) Scraper.scrapers ->
     scrape (site name) true 10%Z = inl e ->
     Py.dict_get name after = Py.dict_get name before) /\
  (forall name, ~ In name BackendSpec.platforms ->
     Py.dict_get name after = Py.dict_get name before) /\
  (forall name, Py.dict_get name before <> None -> Py.dict_get name after <> None).
Proof.
  cbv zeta. rewrite by_platform_after_cycle.
  assert (Hlook := fun name =>
            stored_lookup site Scraper.scrapers (by_platform (cache st)) name
              platforms_nodup).
  split; [|split; [|split]].
  - intros name scrape products Hin Hok.
    rewrite Hlook, (dict_get_In _ _ _ platforms_nodup Hin), Hok. reflexivity.
  - intros name scrape e Hin Hfail.
    rewrite Hlook, (dict_get_In _ _ _ platforms_nodup Hin), Hfail. reflexivity.
  - intros name Hname. rewrite Hlook, dict_get_not_In; [reflexivity | exact Hname].
  - intros name Hsome. rewrite Hlook.
    destruct (Py.dict_get name Scraper.scrapers) as [scrape|]; [|exact Hsome].
    destruct (scrape (site name) true 10%Z); [exact Hsome | discriminate].
Qed.

Lemma failed_platform_keeps_its_old_products_witness :
  Py.dict_get "shopee"
    (by_platform (cache (snd (scrape_all_platforms Sites.only_fairprice 0%Z
                                Sites.empty_snapshot))))
  = None.
Proof.
  exact (proj1 (proj2 (failed_platform_keeps_its_old_products
                         Sites.only_fairprice 0%Z Sites.empty_snapshot))
           "shopee" Scraper.ShopeeScraper.scrape
           (Py.Exception "browser not installed")
           (or_intror (or_introl eq_refl)) eq_refl).
Defined.

(** *** Requests *)

Lemma cached_or_scraped_hit site now st e es :
  get_cached_data (cache st) now = Some (e :: es) ->
  cached_or_scraped site now st = (e :: es, st).
Proof. unfold cached_or_scraped. now intros ->. Qed.

(** X12. A fresh snapshot with at least one product is served as it is:
    the products request answers with the cached products, the time of
    the snapshot and the source cache; the best-deals and flash-sales
    requests compute their answer from the cached products; none of the
    three invokes a scraper or changes the process state, so the answers
    do not depend on what the sites would return. *)
Theorem fresh_snapshot_is_served
    (site site' : string -> Dom.Browser) (now : datetime) (st : State)
    (e : Entry.t) (es : list Entry.t) :
  get_cached_data (cache st) now = Some (e :: es) ->
  (exists t, last_updated (cache st) = Some t /\
     get_products site now st
     = (products_json (e :: es) t "cache" (Py.keys (by_platform (cache st))), st)) /\
  products (cache st) = e :: es /\
  get_best_deals site now st
  = (match collect_deals (e :: es) with
     | inl exn => server_error exn
     | inr best_deals => best_deals_response best_deals
     end, st) /\
  snd (get_flash_sales site now st) = st /\
  get_products site now st = get_products site' now st /\
  get_best_deals site now st = get_best_deals site' now st /\
  get_flash_sales site now st = get_flash_sales site' now st.
Proof.
  intros H.
  assert (Ht : exists t, last_updated (cache st) = Some t /\ products (cache st) = e :: es).
  { unfold get_cached_data in H. destruct (last_updated (cache st)) as [t|];
      [|discriminate]. destruct (_ <? _)%Z; [|discriminate].
    exists t. split; [reflexivity | now injection H]. }
  destruct Ht as [t [Ht Hp]].
  assert (Hprod : forall s, get_products s now st
            = (products_json (e :: es) t "cache" (Py.keys (by_platform (cache st))), st)).
  { intros s. unfold get_products. now rewrite H, Ht. }
  assert (Hdeals : forall s, get_best_deals s now st
            = (match collect_deals (e :: es) with
               | inl exn => server_error exn
               | inr best_deals => best_deals_response best_deals
               end, st)).
  { intros s. unfold get_best_deals. rewrite (cached_or_scraped_hit s now st e es H).
    now destruct (collect_deals (e :: es)). }
  assert (Hflash : forall s, get_flash_sales s now st = get_flash_sales site now st).
  { intros s. unfold get_flash_sales.
    now rewrite !(cached_or_scraped_hit _ now st e es H). }
  split; [exists t; split; [exact Ht | apply Hprod]|].
  split; [exact Hp|]. split; [apply Hdeals|].
  split; [unfold get_flash_sales; now rewrite (cached_or_scraped_hit _ now st e es H)|].
  split; [now rewrite !Hprod|]. split; [now rewrite !Hdeals|].
  symmetry. apply Hflash.
Qed.

Lemma fresh_snapshot_is_served_witness :
  snd (get_flash_sales Sites.all_down 60000000%Z
         {| cache := update_cache [Sites.two_offers] 0%Z cache0; calls := [] |})
  = {| cache := update_cache [Sites.two_offers] 0%Z cache0; calls := [] |}.
Proof.
  exact (proj1 (proj2 (proj2 (proj2
           (fresh_snapshot_is_served Sites.all_down Sites.all_down 60000000%Z
              {| cache := update_cache [Sites.two_offers] 0%Z cache0; calls := [] |}
              Sites.two_offers [] eq_refl))))).
Defined.

Lemma get_cached_data_after_cycle site now st later :
  (0 <= later - now < 3600000000)%Z ->
  get_cached_data (cache (snd (scrape_all_platforms site now st))) later
  = Some (fst (scrape_all_platforms site now st)).
Proof.
  intros H. rewrite scrape_all_platforms_result. cbn [fst snd after_cycle cache].
  unfold get_cached_data. cbn [last_updated products].
  assert (Hlt : (timedelta_seconds (later - now) <? CACHE_DURATION)%Z = true).
  { apply Z.ltb_lt, timedelta_seconds_under_an_hour. rewrite Z.mod_small; lia. }
  now rewrite Hlt.
Qed.

(** X13. A cycle followed by a products request within the hour. When
    the cycle consolidated at least one product, the request is answered
    from the cache with exactly the products of the cycle and its time,
    and no scraper runs again. When the cycle consolidated nothing, the
    request runs a second full cycle. *)
Theorem cycle_then_products_request
    (site site' : string -> Dom.Browser) (now later : datetime) (st : State) :
  (0 <= later - now < 3600000000)%Z ->
  let consolidated := fst (scrape_all_platforms site now st) in
  let st' := snd (scrape_all_platforms site now st) in
  get_cached_data (cache st') later = Some consolidated /\
  (consolidated <> [] ->
   get_products site' later st'
   = (products_json consolidated now "cache" (Py.keys (by_platform (cache st'))), st')) /\
  (consolidated = [] ->
   calls (snd (get_products site' later st'))
   = (calls st ++ BackendSpec.platforms ++ BackendSpec.platforms)%list /\
   exists again, fst (get_products site' later st')
                 = products_json again later "fresh_scrape"
                     (Py.keys (by_platform (cache (snd (get_products site' later st')))))).
Proof.
  intros H. cbv zeta.
  pose proof (get_cached_data_after_cycle site now st later H) as Hget.
  split; [exact Hget|]. split.
  - intros Hne. unfold get_products. rewrite Hget.
    destruct (fst (scrape_all_platforms site now st)) as [|e es] eqn:E; [congruence|].
    rewrite scrape_all_platforms_result. reflexivity.
  - intros Hnil. rewrite Hnil in Hget.
    rewrite get_products_miss by now rewrite Hget.
    cbv zeta. cbn [fst snd after_cycle calls].
    rewrite scrape_all_platforms_result. cbn [snd after_cycle calls].
    rewrite <- app_assoc. split; [reflexivity | eauto].
Qed.

Lemma cycle_then_products_request_witness :
  calls (snd (get_products Sites.all_down 60000000%Z
                (snd (scrape_all_platforms Sites.all_down 0%Z Sites.empty_snapshot))))
  = (BackendSpec.platforms ++ BackendSpec.platforms)%list.
Proof.
  exact (proj1 (proj2 (proj2 (cycle_then_products_request
                         Sites.all_down Sites.all_down 0%Z 60000000%Z
                         Sites.empty_snapshot ltac:(lia))) eq_refl)).
Defined.

(** *** The platform route *)

Lemma valid_platform_has_scraper platform :
  in_list platform valid_platforms = true ->
  exists scrape, In (platform, scrape) Scraper.scrapers /\
                 Py.dict_get platform Scraper.scrapers = Some scrape.
Proof.
  unfold in_list, valid_platforms. cbn [existsb]. rewrite !orb_true_iff.
  intros [H | [H | [H | [H | [H | H]]]]]; try discriminate H;
    apply (proj1 (String.eqb_eq _ _)) in H; subst platform; eexists;
    (split; [|reflexivity]); simpl; tauto.
Qed.

(** X14. The platform route never writes the cache. An unknown platform
    is refused without any scrape. A platform with a recorded list gets
    that list, whatever the age of the snapshot and whatever the site
    would return now, without any scrape. A valid platform with nothing
    recorded is scraped alone, once, with the count of the products
    returned, or an error carrying the exception; as the result is not
    recorded, the same request scrapes again. *)
Theorem platform_route_reads_only
    (site : string -> Dom.Browser) (now : datetime) (platform : string) (st : State) :
  let response := fst (get_platform_products site now platform st) in
  let st' := snd (get_platform_products site now platform st) in
  cache st' = cache st /\
  (in_list platform valid_platforms = false ->
   (exists error, response = invalid_platform error) /\ st' = st) /\
  (forall products,
     in_list platform valid_platforms = true ->
     Py.dict_get platform (by_platform (cache st)) = Some products ->
     response = stored_products platform products (last_updated (cache st)) /\
     st' = st) /\
  (in_list platform valid_platforms = true ->
   Py.dict_get platform (by_platform (cache st)) = None ->
   exists scrape,
     In (platform, scrape) Scraper.scrapers /\
     calls st' = (calls st ++ [platform])%list /\
     response
     = match scrape (site platform) true 10%Z with
       | inr products =>
           scraped_products platform products (List.length products) now
       | inl e => platform_error e platform
       end /\
     calls (snd (get_platform_products site now platform st'))
     = (calls st ++ [platform; platform])%list).
Proof.
  cbv zeta. unfold get_platform_products.
  destruct (in_list platform valid_platforms) eqn:Hvalid; cbn [negb].
  2:{ split; [reflexivity|].
      split; [intros _; split; [eexists; reflexivity | reflexivity]|].
      split; [intros products H; discriminate H | intros H; discriminate H]. }
  destruct (valid_platform_has_scraper platform Hvalid) as [scrape [Hin Hscrape]].
  destruct (Py.dict_get platform (by_platform (cache st))) as [stored|] eqn:Hstored.
  { split; [reflexivity|]. split; [intros H; discriminate H|].
    split; [intros products _ H; injection H as <-; split; reflexivity
           | intros _ H; discriminate H]. }
  rewrite Hscrape.
  assert (Hcases : forall A (f : Py.result (list Product.t) -> A),
            f (scrape (site platform) true 10%Z)
            = match scrape (site platform) true 10%Z with
              | inl e => f (inl e) | inr ps => f (inr ps) end)
    by (intros A f; now destruct (scrape (site platform) true 10%Z)).
  split; [now destruct (scrape (site platform) true 10%Z)|].
  split; [intros H; discriminate H|].
  split; [intros products _ H; discriminate H|].
  intros _ _. exists scrape. split; [exact Hin|].
  split; [now destruct (scrape (site platform) true 10%Z)|].
  split; [now destruct (scrape (site platform) true 10%Z)|].
  destruct (scrape (site platform) true 10%Z); cbn [snd cache calls negb];
    rewrite Hstored; cbn [snd calls]; now rewrite <- app_assoc.
Qed.

Lemma platform_route_reads_only_witness :
  calls (snd (get_platform_products Sites.all_down 0%Z "lazada" Sites.empty_snapshot))
  = ["lazada"].
Proof.
  destruct (proj2 (proj2 (proj2 (platform_route_reads_only
                                   Sites.all_down 0%Z "lazada" Sites.empty_snapshot)))
              eq_refl eq_refl) as [scrape [_ [H _]]].
  exact H.
Defined.

(** X15. After a cycle, the platform route answers for a platform whose
    scrape succeeded in that cycle with exactly the products of that
    scrape and the time of the cycle, at any later time and without any
    scrape. *)
Theorem cycle_then_platform_request
    (site site' : string -> Dom.Browser) (now later : datetime) (st : State)
    (name : string)
    (scrape : Dom.Browser -> bool -> Z -> Py.result (list Product.t))
    (products : list Product.t) :
  In (name, scrape) Scraper.scrapers ->
  scrape (site name) true 10%Z = inr products ->
  let st' := snd (scrape_all_platforms site now st) in
  get_platform_products site' later name st'
  = (stored_products name products (Some now), st').
Proof.
  intros Hin Hok. cbv zeta.
  assert (Hvalid : in_list name valid_platforms = true).
  { simpl in Hin.
    destruct Hin as [H | [H | [H | [H | [H | []]]]]]; injection H as <- _;
      reflexivity. }
  assert (Hstored : Py.dict_get name
                      (by_platform (cache (snd (scrape_all_platforms site now st))))
                    = Some products).
  { rewrite by_platform_after_cycle,
      (stored_lookup site _ _ name platforms_nodup),
      (dict_get_In _ _ _ platforms_nodup Hin), Hok. reflexivity. }
  unfold get_platform_products. rewrite Hvalid, Hstored. cbn [negb].
  rewrite scrape_all_platforms_result. reflexivity.
Qed.

Lemma cycle_then_platform_request_witness :
  get_platform_products Sites.all_down 999999999999%Z "fairprice"
    (snd (scrape_all_platforms Sites.only_fairprice 0%Z Sites.empty_snapshot))
  = (stored_products "fairprice"
       [Pages.fairprice_uht_listing; Pages.fairprice_listing] (Some 0%Z),
     snd (scrape_all_platforms Sites.only_fairprice 0%Z Sites.empty_snapshot)).
Proof.
  exact (cycle_then_platform_request Sites.only_fairprice Sites.all_down 0%Z
           999999999999%Z Sites.empty_snapshot "fairprice"
           Scraper.FairPriceScraper.scrape _ (or_introl eq_refl) eq_refl).
Defined.

(** *** Triggered scrapes and the status *)



End CacheFacts.

(* ================================================================== *)
(** ** Further properties of consolidation and of the deal routes *)

Module DealFacts.
Import PyStr Backend BackendSpec BackendFacts PyFacts RoundFacts DealSpec.

(** *** Consolidation conserves the offers *)

Lemma filter_split {A} (f : A -> bool) (l : list A) :
  Permutation l (filter f l ++ filter (fun x => negb (f x)) l).
Proof.
  induction l as [|x l IH]; [reflexivity|]. cbn [filter].
  destruct (f x); cbn [negb app].
  - now constructor.
  - now apply Permutation_cons_app.
Qed.

Lemma flat_map_agree {A B} (f g : A -> list B) (l : list A) :
  (forall x, In x l -> f x = g x) -> flat_map f l = flat_map g l.
Proof.
  induction l as [|x l IH]; intros H; [reflexivity|]. cbn [flat_map].
  rewrite (H x) by now left. rewrite IH; [reflexivity|].
  intros y Hy. apply H. now right.
Qed.

(** The groups of the keys of a list partition it. *)
Lemma groups_partition ks : forall all,
  NoDup ks -> (forall p, In p all -> In (key_of p) ks) ->
  Permutation all (flat_map (group all) ks).
Proof.
  induction ks as [|k ks IH]; intros all Hnd Hcover.
  - destruct all as [|p all]; [reflexivity|]. destruct (Hcover p); now left.
  - inversion Hnd as [|? ? Hk Hnd']; subst. cbn [flat_map].
    set (rest := filter (fun p => negb (String.eqb (key_of p) k)) all).
    assert (Hrest : flat_map (group all) ks = flat_map (group rest) ks).
    { apply flat_map_agree. intros k' Hk'. unfold group, rest.
      induction all as [|p all IHall]; [reflexivity|]. cbn [filter].
      destruct (String.eqb (key_of p) k) eqn:E; cbn [negb filter].
      - apply String.eqb_eq in E.
        destruct (String.eqb (key_of p) k') eqn:E'.
        + apply String.eqb_eq in E'. exfalso. apply Hk. congruence.
        + apply IHall. intros q Hq. apply Hcover. now right.
      - destruct (String.eqb (key_of p) k'); [f_equal|];
          apply IHall; intros q Hq; apply Hcover; now right. }
    rewrite Hrest. rewrite <- (IH rest Hnd').
    + apply (filter_split (fun p => String.eqb (key_of p) k)).
    + intros p Hp. apply filter_In in Hp as [Hp Hne].
      destruct (Hcover p Hp) as [E | Hin]; [|exact Hin].
      rewrite <- E, String.eqb_refl in Hne. discriminate.
Qed.

Lemma prices_entries_from all i ks :
  flat_map Entry.prices (Py.values (entries_from all i ks))
  = map price_info_of (flat_map (group all) ks).
Proof.
  unfold Py.values. revert i. induction ks as [|k ks IH]; intros i; [reflexivity|].
  cbn [entries_from map snd flat_map entry_of Entry.prices].
  now rewrite IH, map_app.
Qed.

(** X17. Consolidation neither drops nor duplicates an offer: the offers
    of all entries together are a rearrangement of the offers of all
    listings. Every entry has at least one offer, the ids are pairwise
    different, there are at most as many entries as listings, and there is
    no entry exactly when there is no listing. *)
Theorem consolidation_conserves_offers (products_by_platform : Py.dict (list Product.t)) :
  let all := flat_map snd products_by_platform in
  let entries := consolidate_products products_by_platform in
  Permutation (flat_map Entry.prices entries) (map price_info_of all) /\
  List.length (flat_map Entry.prices entries) = List.length all /\
  (forall e, In e entries -> Entry.prices e <> []) /\
  NoDup (map Entry.id entries) /\
  (List.length entries <= List.length all)%nat /\
  (entries = [] <-> all = []).
Proof.
  cbv zeta. rewrite consolidate_products_spec.
  set (all := flat_map snd products_by_platform). unfold consolidate.
  set (ks := first_seen (map key_of all)).
  assert (Hperm : Permutation (flat_map Entry.prices (Py.values (entries_from all 0 ks)))
                    (map price_info_of all)).
  { rewrite prices_entries_from. apply Permutation_map, Permutation_sym.
    apply groups_partition; [apply first_seen_NoDup|].
    intros p Hp. apply (proj2 (first_seen_In (map key_of all) (key_of p))).
    now apply in_map. }
  assert (Hlen : List.length (Py.values (entries_from all 0 ks)) = List.length ks).
  { unfold Py.values. rewrite length_map.
    clear. generalize 0%nat. induction ks as [|k ks IH]; intros i; [reflexivity|].
    cbn [entries_from List.length]. now rewrite IH. }
  assert (Hks : (List.length ks <= List.length all)%nat).
  { rewrite <- (length_map key_of all). apply NoDup_incl_length;
      [apply first_seen_NoDup|].
    intros k Hk. now apply (proj1 (first_seen_In (map key_of all) k)). }
  split; [exact Hperm|].
  split; [rewrite (Permutation_length Hperm); apply length_map|].
  split.
  { intros e He. apply entries_from_inv in He as [j [k [Hk ->]]].
    apply (proj1 (first_seen_In (map key_of all) k)) in Hk.
    destruct (group_cons all k Hk) as [first [rest Hg]].
    unfold entry_of. cbn [Entry.prices]. rewrite Hg. discriminate. }
  split.
  { rewrite ids_entries_from. apply Finite.Injective_map_NoDup; [|apply seq_NoDup].
    intros x y. apply Nat2Z.inj. }
  split; [now rewrite Hlen|].
  split.
  - intros E. rewrite E in Hperm. cbn [flat_map] in Hperm.
    apply Permutation_nil in Hperm. now apply map_eq_nil in Hperm.
  - intros E. apply length_zero_iff_nil. rewrite E in Hks. simpl in Hks. lia.
Qed.

(** *** Flash sales *)

Lemma sorted_filtered_head {A} (key : A -> Q) (f : A -> bool) (l : list A) :
  match Py.sorted key (filter f l) with
  | [] => forall x, In x l -> f x = false
  | best :: _ =>
      In best l /\ f best = true /\
      forall x, In x l -> f x = true -> key best <= key x
  end.
Proof.
  pose proof (sorted_perm key (filter f l)) as Hperm.
  pose proof (sorted_ascending key (filter f l)) as Hasc.
  destruct (Py.sorted key (filter f l)) as [|best s].
  - intros x Hx. destruct (f x) eqn:E; [|reflexivity].
    assert (Hin : In x (filter f l)) by (apply filter_In; auto).
    apply (Permutation_in _ Hperm) in Hin. destruct Hin.
  - assert (Hb : In best (filter f l))
      by (apply (Permutation_in _ (Permutation_sym Hperm)); now left).
    apply filter_In in Hb as [Hb Hf]. split; [exact Hb|]. split; [exact Hf|].
    intros x Hx Hfx. apply (ascending_head key best s Hasc).
    apply (Permutation_in _ Hperm). apply filter_In. auto.
Qed.

Lemma promoted_is_listed product :
  promoted product
  = match flash_sale_of product with Some _ => true | None => false end.
Proof.
  unfold promoted, flash_sale_of.
  pose proof (sorted_filtered_head PriceInfo.price PriceInfo.flashSale
                (Entry.prices product)) as H.
  destruct (Py.sorted PriceInfo.price (filter PriceInfo.flashSale (Entry.prices product)))
    as [|best s].
  - destruct (existsb _ _) eqn:E; [|reflexivity].
    apply existsb_exists in E as [o [Ho Hf]]. rewrite (H o Ho) in Hf. discriminate.
  - destruct H as [Hin [Hflag _]]. apply existsb_exists. eauto.
Qed.



Lemma filter_map_count {A B} (f : A -> option B) (l : list A) :
  List.length (Py.filter_map f l)
  = List.length (filter (fun x => match f x with Some _ => true | None => false end) l).
Proof.
  induction l as [|x l IH]; [reflexivity|]. cbn [Py.filter_map filter].
  destruct (f x); cbn [List.length]; now rewrite IH.
Qed.

Lemma filter_map_perm_In {A B} (f : A -> option B) (l : list A) y :
  In y (Py.filter_map f l) <-> exists x, In x l /\ f x = Some y.
Proof.
  induction l as [|x l IH]; cbn [Py.filter_map].
  - split; [intros [] | intros [x [[] _]]].
  - destruct (f x) as [z|] eqn:E.
    + cbn [In]. rewrite IH. split.
      * intros [<- | [x' [Hx Hf]]]; [exists x | exists x']; simpl; auto.
      * intros [x' [[<- | Hx] Hf]]; [left; congruence | right; eauto].
    + rewrite IH. split.
      * intros [x' [Hx Hf]]. exists x'. simpl; auto.
      * intros [x' [[<- | Hx] Hf]]; [congruence | eauto].
Qed.

(** X19. The flash-sales answer lists one line for every cached entry
    with a flagged offer and for no other, ordered by descending discount;
    its total is the number of those entries, and the platforms it names
    are exactly the platforms of its lines, each once. *)
Theorem flash_sales_answer
    (site : string -> Dom.Browser) (now : datetime) (st : State) :
  let cached_data := fst (cached_or_scraped site now st) in
  exists lines total names,
    fst (get_flash_sales site now st) = flash_sales_json lines total names /\
    Permutation (Py.filter_map flash_sale_of cached_data) lines /\
    descending FlashSale.discount_percent lines /\
    (forall line, In line lines
                  <-> exists product, In product cached_data /\
                                      flash_sale_of product = Some line) /\
    total = List.length lines /\
    total = List.length (filter promoted cached_data) /\
    NoDup names /\
    (forall name, In name names
                  <-> exists line, In line lines /\ FlashSale.platform line = name).
Proof.
  cbv zeta. unfold get_flash_sales.
  destruct (cached_or_scraped site now st) as [cached_data st']. cbn [fst].
  set (found_lines := Py.filter_map flash_sale_of cached_data).
  pose proof (sorted_reverse_perm FlashSale.discount_percent found_lines) as Hperm.
  do 3 eexists. split; [reflexivity|].
  split; [exact Hperm|].
  split; [apply sorted_reverse_descending|].
  split.
  { intros line. rewrite <- filter_map_perm_In. split; intros H.
    - now apply (Permutation_in _ (Permutation_sym Hperm)).
    - now apply (Permutation_in _ Hperm). }
  split; [reflexivity|].
  split.
  { rewrite <- (Permutation_length Hperm). unfold found_lines.
    rewrite filter_map_count. f_equal. apply filter_ext. intros product.
    symmetry. apply promoted_is_listed. }
  split; [apply NoDup_nodup|].
  intros name. rewrite nodup_In, in_map_iff.
  split; intros [line [H1 H2]]; exists line; auto.
Qed.

(** *** Best deals *)

Lemma round_nonneg x ndigits : 0 <= x -> 0 <= Py.round x ndigits.
Proof.
  intros H. unfold Py.round. rewrite Qred_correct.
  assert (Hs : inject_Z 0 <= x * inject_Z (10 ^ Z.of_nat ndigits)).
  { change (inject_Z 0) with 0. apply Qmult_le_0_compat; [exact H|].
    change 0 with (inject_Z 0). rewrite <- Zle_Qle. apply Z.pow_nonneg. lia. }
  apply round_half_even_lower in Hs. unfold Qle. cbn [Qnum Qden]. lia.
Qed.

Lemma deal_of_inv product d :
  deal_of product = inr (Some d) ->
  (1 < List.length (Entry.prices product))%nat /\
  exists best worst,
    In best (Entry.prices product) /\ In worst (Entry.prices product) /\
    (forall o, In o (Entry.prices product) ->
       PriceInfo.price best <= PriceInfo.price o <= PriceInfo.price worst) /\
    PriceInfo.price best < PriceInfo.price worst /\
    ~ PriceInfo.price worst == 0 /\
    d = deal_between product best worst.
Proof.
  intros H.
  destruct (Nat.ltb 1 (List.length (Entry.prices product))) eqn:E;
    [|unfold deal_of in H; rewrite E in H; discriminate].
  apply Nat.ltb_lt in E. split; [exact E|].
  destruct (deal_of_picks product E) as [best [worst [Hb [Hw [Hmm Hdeal]]]]].
  rewrite Hdeal in H. exists best, worst.
  destruct (Py.ltb 0 _) eqn:Hlt; [|discriminate].
  apply positive_difference in Hlt.
  unfold Py.div in H. destruct (Qeq_bool (PriceInfo.price worst) 0) eqn:Hz;
    [discriminate|].
  apply Qeq_bool_neq in Hz. injection H as <-. auto 10.
Qed.

(** X20. Every deal computed for an entry with valid prices comes from
    two different offers of that entry, a cheapest and a dearest one with
    the cheapest strictly cheaper; it carries the name of the entry, its
    savings are not negative, and its savings in percent lie between 0
    and 100. The computation raises only for an entry with an offer at
    price 0 and another at a negative price. *)
Theorem deal_is_within_bounds (product : Entry.t) :
  (forall d, priced product -> deal_of product = inr (Some d) ->
     Deal.product d = Entry.name product /\
     (exists best worst,
        In best (Entry.prices product) /\ In worst (Entry.prices product) /\
        best <> worst /\
        Deal.best_platform d = PriceInfo.platform best /\
        Deal.worst_platform d = PriceInfo.platform worst) /\
     0 <= Deal.best_price d /\ Deal.best_price d < Deal.worst_price d /\
     0 <= Deal.savings d /\
     0 <= Deal.savings_percent d <= 100) /\
  (forall e, deal_of product = inl e ->
     exists best worst,
       In best (Entry.prices product) /\ In worst (Entry.prices product) /\
       PriceInfo.price best < 0 /\ PriceInfo.price worst == 0).
Proof.
  split.
  - intros d Hpos H.
    destruct (deal_of_inv product d H)
      as [_ [best [worst [Hb [Hw [_ [Hlt [_ ->]]]]]]]].
    assert (Hbest : 0 <= PriceInfo.price best)
      by apply (proj1 (Forall_forall _ _) Hpos best Hb).
    unfold deal_between. cbn [Deal.product Deal.best_platform Deal.worst_platform
      Deal.best_price Deal.worst_price Deal.savings Deal.savings_percent].
    split; [reflexivity|].
    split.
    { exists best, worst. repeat split; try assumption; try reflexivity.
      intros ->. now apply Qlt_irrefl in Hlt. }
    split; [exact Hbest|]. split; [exact Hlt|].
    split.
    + apply round_nonneg. apply Qlt_le_weak.
      exact (proj1 (Qlt_minus_iff _ _) Hlt).
    + apply (round1_between 0 100). now apply percent_between.
  - intros e H.
    destruct (Nat.ltb 1 (List.length (Entry.prices product))) eqn:E;
      [|unfold deal_of in H; rewrite E in H; discriminate].
    apply Nat.ltb_lt in E.
    destruct (deal_of_picks product E) as [best [worst [Hb [Hw [_ Hdeal]]]]].
    rewrite Hdeal in H. exists best, worst.
    destruct (Py.ltb 0 _) eqn:Hlt; [|discriminate].
    apply positive_difference in Hlt.
    unfold Py.div in H. destruct (Qeq_bool (PriceInfo.price worst) 0) eqn:Hz;
      [|discriminate].
    apply Qeq_bool_iff in Hz. rewrite Hz in Hlt. auto.
Qed.

Lemma deal_is_within_bounds_witness :
  exists d, deal_of Sites.two_offers = inr (Some d) /\
            0 <= Deal.savings_percent d <= 100.
Proof.
  eexists. split; [reflexivity|].
  refine (proj2 (proj2 (proj2 (proj2 (proj2
            (proj1 (deal_is_within_bounds Sites.two_offers) _ _ eq_refl)))))).
  repeat constructor; discriminate.
Defined.

Lemma firstn_skipn_descending {A} (key : A -> Q) (n : nat) (l : list A) :
  descending key l ->
  forall x y, In x (firstn n l) -> In y (skipn n l) -> key y <= key x.
Proof.
  unfold descending. revert l. induction n as [|n IH]; intros l Hs x y Hx Hy;
    [destruct Hx|].
  destruct l as [|z l]; [destruct Hx|].
  apply StronglySorted_inv in Hs as [Hs Hz]. cbn [firstn skipn] in Hx, Hy.
  destruct Hx as [<- | Hx].
  - apply (proj1 (Forall_forall _ _) Hz). revert Hy. clear.
    revert l. induction n as [|n IHn]; intros l; [trivial|].
    destruct l as [|w l]; [intros []|]. cbn [skipn]. intros H. right. now apply IHn.
  - now apply (IH l).
Qed.

(** X21. The best-deals answer shows ten deals, or all of them when there
    are fewer. The deals it shows and the deals it leaves out together
    are all the deals, and none that is left out saves more than one
    that is shown. *)
Theorem best_deals_answer_is_a_top_ten (best_deals : list Deal.t) :
  exists shown hidden total,
    best_deals_response best_deals = best_deals_json shown total /\
    Permutation best_deals (shown ++ hidden) /\
    List.length shown = Nat.min 10 (List.length best_deals) /\
    descending Deal.savings shown /\
    (forall d d', In d shown -> In d' hidden -> Deal.savings d' <= Deal.savings d).
Proof.
  set (ranked := Py.sorted_reverse Deal.savings best_deals).
  pose proof (sorted_reverse_perm Deal.savings best_deals) as Hperm.
  pose proof (sorted_reverse_descending Deal.savings best_deals) as Hdesc.
  fold ranked in Hperm, Hdesc.
  exists (firstn 10 ranked), (skipn 10 ranked). eexists.
  split; [reflexivity|].
  split; [now rewrite firstn_skipn|].
  split; [now rewrite length_firstn, (Permutation_length Hperm)|].
  split.
  - unfold descending in *. revert Hdesc. generalize 10%nat. clear.
    induction ranked as [|x l IH]; intros n Hs; [destruct n; constructor|].
    destruct n as [|n]; [constructor|]. cbn [firstn].
    apply StronglySorted_inv in Hs as [Hs Hx]. constructor; [now apply IH|].
    apply Forall_forall. intros y Hy. apply (proj1 (Forall_forall _ _) Hx).
    revert Hy. clear. revert n. induction l as [|w l IHl]; intros [|n]; simpl; try tauto.
    intros [H | H]; [now left | right; now apply (IHl n)].
  - intros d d'. now apply firstn_skipn_descending.
Qed.

End DealFacts.

(* ================================================================== *)
(** ** The data-quality test on the listings of the scrapers *)

Module QualityFacts.
Import PyStr Dom Scraper ScraperSpec ListingSpec QualityTest QualitySpec PyFacts.

Lemma kinds_nonempty k : In k (shopee_kinds ++ lazada_kinds)%list -> nonempty k = true.
Proof.
  simpl. intros H.
  repeat (destruct H as [<- | H]; [reflexivity|]). destruct H.
Qed.

(** X22. The warnings of the data-quality test on a listing. For a
    listing of the FairPrice, Sheng Siong or Giant scraper: beside the
    warning for a missing link, every flagged listing raises the warning
    for a missing kind, and none raises the warning for a price not lower
    than the original. For a listing of the Shopee or Lazada scraper: the
    warning for a missing kind is never raised, and the price warning is
    raised exactly for a flagged listing with a positive price that is not
    below its original price. *)
Theorem quality_warnings_by_scraper
    (platform now : string) (c : Container) (p : Product.t) :
  (forall a, In a plain_adapters -> extract a now c = Some p ->
     product_warnings platform p
     = (url_warnings platform p
        ++ if Product.flash_sale p then [type_warning platform p] else [])%list) /\
  (extract shopee now c = Some p \/ extract lazada now c = Some p ->
   product_warnings platform p
   = (url_warnings platform p
      ++ if Product.flash_sale p && Py.ltb 0 (Product.price p)
            && Py.geb (Product.price p) (Product.original_price p)
         then [price_warning platform p] else [])%list).
Proof.
  split.
  - intros a Ha H.
    destruct (ScraperFacts.plain_adapter_listing a now c p Ha H) as [Hflag Hnone].
    assert (Htype : Product.flash_sale_type p = None).
    { simpl in Ha. destruct Ha as [<- | [<- | [<- | []]]];
        cbn [fairprice shengsiong giant extract] in H;
        unfold FairPriceScraper.extract, ShengSiongScraper.extract,
          GiantScraper.extract, simple_product in H;
        (destruct (first_match c _) in H; [|discriminate]);
        injection H as <-; reflexivity. }
    unfold product_warnings, url_warnings, lacks_type. rewrite Htype. cbv zeta.
    destruct (nonempty (Product.url p)); cbn [negb];
      (destruct (Product.flash_sale p) eqn:Hf; [|reflexivity]);
      (destruct (proj1 Hflag eq_refl) as [Hlt Hpos]);
      (assert (Hge : Py.geb (Product.price p) (Product.original_price p) = false)
         by (destruct (Py.geb _ _) eqn:E; [|reflexivity];
             apply geb_le in E; exfalso; exact (Qlt_not_le _ _ Hlt E)));
      rewrite Hge; now destruct (Py.ltb 0 (Product.original_price p) && _).
  - intros H.
    assert (Hfields : (exists k, Product.flash_sale_type p = Some k /\
                                 nonempty k = true) /\
                      (Py.ltb 0 (Product.price p) = true ->
                       Py.ltb 0 (Product.original_price p) = true)).
    { split.
      - destruct H as [H | H].
        + destruct (DetectFacts.shopee_fields now c p H) as [_ [_ [Ht _]]].
          eexists. split; [exact Ht|]. apply kinds_nonempty, in_or_app. left.
          apply DetectFacts.shopee_kind_normal.
        + destruct (DetectFacts.lazada_fields now c p H) as [_ [_ [Ht _]]].
          eexists. split; [exact Ht|]. apply kinds_nonempty, in_or_app. right.
          apply DetectFacts.lazada_kind_normal.
      - assert (Ha : exists a, In a adapters /\ extract a now c = Some p).
        { destruct H as [H | H]; [exists shopee | exists lazada];
            (split; [simpl; tauto | exact H]). }
        destruct Ha as [a [Ha Hex]].
        destruct (ListingFacts.listing_shape a now c p Ha Hex)
          as [self [name [pe [oe [le [_ [_ [_ [Hp [Ho _]]]]]]]]]].
        rewrite Ho, Hp. intros Hpos. destruct (Py.ltb 0 (original_price_of _ _)) eqn:E;
          [exact E | exact Hpos]. }
    destruct Hfields as [[k [Hk Hne]] Hpos].
    unfold product_warnings, url_warnings, lacks_type. rewrite Hk, Hne. cbv zeta.
    cbn [negb app].
    destruct (nonempty (Product.url p)); cbn [negb];
      (destruct (Product.flash_sale p); [|reflexivity]); cbn [andb app];
      (destruct (Py.ltb 0 (Product.price p)) eqn:E;
       [rewrite (Hpos eq_refl) | rewrite andb_false_r]); reflexivity.
Qed.

Lemma quality_warnings_by_scraper_witness :
  product_warnings "shopee" Pages.shopee_flash_listing
  = [url_warning "shopee" Pages.shopee_flash_listing;
     price_warning "shopee" Pages.shopee_flash_listing].
Proof.
  exact (proj2 (quality_warnings_by_scraper "shopee" Pages.noon Pages.shopee_flash_card
                  Pages.shopee_flash_listing) (or_introl eq_refl)).
Defined.

Lemma quality_loop platform products issues warnings :
  fold_left
    (fun '(issues, warnings) product =>
       ((issues ++ product_issues platform product)%list,
        (warnings ++ product_warnings platform product)%list))
    products (issues, warnings)
  = ((issues ++ flat_map (product_issues platform) products)%list,
     (warnings ++ flat_map (product_warnings platform) products)%list).
Proof.
  revert issues warnings. induction products as [|p products IH]; intros issues warnings.
  - cbn [fold_left flat_map]. now rewrite !app_nil_r.
  - cbn [fold_left flat_map]. rewrite IH. now rewrite <- !app_assoc.
Qed.

Lemma test_data_quality_result scraper_results :
  test_data_quality scraper_results
  = (all_issues scraper_results, all_warnings scraper_results).
Proof.
  unfold test_data_quality.
  assert (H : forall issues warnings,
    fold_left
      (fun '(issues, warnings) '(platform, data) =>
         match data with
         | failed _ => (issues, warnings)
         | success products =>
             fold_left
               (fun '(issues, warnings) product =>
                  ((issues ++ product_issues platform product)%list,
                   (warnings ++ product_warnings platform product)%list))
               products (issues, warnings)
         end) scraper_results (issues, warnings)
    = ((issues ++ all_issues scraper_results)%list,
       (warnings ++ all_warnings scraper_results)%list)).
  { induction scraper_results as [|[platform data] rest IH]; intros issues warnings.
    - cbn. now rewrite !app_nil_r.
    - cbn [fold_left]. unfold all_issues, all_warnings. cbn [flat_map].
      destruct data as [products|error].
      + rewrite quality_loop, IH. unfold all_issues, all_warnings.
        now rewrite <- !app_assoc.
      + rewrite IH. reflexivity. }
  apply (H [] []).
Qed.

Lemma product_issues_nil platform p :
  product_issues platform p = []
  <-> Product.name p <> "" /\ 0 < Product.price p.
Proof.
  unfold product_issues.
  destruct (Product.name p) as [|ch name] eqn:En; cbn [nonempty negb].
  - split; [discriminate | intros [H _]; congruence].
  - destruct (Qle_bool (Product.price p) 0) eqn:E; cbn [app].
    + apply Qle_bool_iff in E. split; [discriminate|].
      intros [_ H]. exfalso. exact (Qlt_not_le _ _ H E).
    + split; [|reflexivity]. intros _. split; [discriminate|].
      apply Qnot_le_lt. intros H. apply Qle_bool_iff in H. congruence.
Qed.

(** X23. The data-quality test lists the issues and the warnings of the
    products of the platforms that succeeded, platform by platform and
    product by product, and nothing for a platform that failed. It finds
    no issue exactly when every product of every successful platform has
    a non-empty name and a positive price; for a listing of a scraper the
    price part fails only when the parsed price is zero. *)
Theorem quality_test_finds_no_issue (scraper_results : Py.dict ScraperResult) :
  test_data_quality scraper_results
  = (all_issues scraper_results, all_warnings scraper_results) /\
  (fst (test_data_quality scraper_results) = []
   <-> forall platform products p,
         In (platform, success products) scraper_results -> In p products ->
         Product.name p <> "" /\ 0 < Product.price p) /\
  (forall a now c p, In a adapters -> extract a now c = Some p ->
     ~ 0 < Product.price p -> Product.price p == 0).
Proof.
  split; [apply test_data_quality_result|]. split.
  - rewrite test_data_quality_result. cbn [fst]. unfold all_issues. split.
    + intros Hnil platform products p Hin Hp.
      apply (product_issues_nil platform).
      destruct (product_issues platform p) as [|msg msgs] eqn:E; [reflexivity|].
      exfalso.
      assert (Hmsg : In msg (flat_map (fun '(platform, data) =>
                match data with
                | success products => flat_map (product_issues platform) products
                | failed _ => []
                end) scraper_results)).
      { apply in_flat_map. exists (platform, success products). split; [exact Hin|].
        apply in_flat_map. exists p. split; [exact Hp|]. rewrite E. now left. }
      rewrite Hnil in Hmsg. destruct Hmsg.
    + intros Hall.
      destruct (flat_map _ scraper_results) as [|msg msgs] eqn:E; [reflexivity|].
      exfalso.
      assert (Hmsg : In msg (msg :: msgs)) by now left.
      rewrite <- E in Hmsg. apply in_flat_map in Hmsg as [[platform data] [Hin Hmsg]].
      destruct data as [products|error]; [|destruct Hmsg].
      apply in_flat_map in Hmsg as [p [Hp Hmsg]].
      rewrite (proj2 (product_issues_nil platform p) (Hall _ _ _ Hin Hp)) in Hmsg.
      destruct Hmsg.
  - intros a now c p Ha H Hnot.
    apply Qle_antisym; [now apply Qnot_lt_le|].
    apply (ScraperFacts.adapter_price_nonneg a now c p Ha H).
Qed.

End QualityFacts.
